(** * minharenda-api: the owner report (GET /relatorio/:usuarioId)

    Shallow embedding of the report handler of the users router and of
    [formatarProdutoParaExibicao], the unit normalizer it calls.

    Conventions of the embedding.
    - A JavaScript [number] holding an amount or a quantity is a binary64
      number, [float]: [+], [-] and [/] are the operations of the runtime,
      each rounding to the nearest binary64 number.  Counts and
      identifiers are integers [Z]; they stay far below 2^53, where the
      arithmetic of the runtime is exact on them.
    - A value of a decimal column, as the store hands it over, is the
      rational [Q] it denotes; [Number(...)] turns it into a number.
    - A JavaScript [string] is a [string]; each character stands for one
      code unit below 256.
    - [null] / [undefined] is [None].
    - A [Map] is an association list in insertion order, since
      [Array.from(map.entries())] exposes that order to the rankings.
    - An awaited call on the persistence client either yields its rows or
      throws; the handler runs in an error monad and its [catch] turns any
      failure into the one generic 500 answer. *)

From Stdlib Require Import List String Ascii ZArith QArith Qround Bool Lia.
From Stdlib Require Import DecimalString Sorted Permutation.
From Stdlib Require Import PrimFloat.
From Stdlib Require FloatOps SpecFloat FloatAxioms.
Import ListNotations.

Local Open Scope string_scope.

(* ------------------------------------------------------------------ *)
(** ** JavaScript built-ins used by the handler *)
(* ------------------------------------------------------------------ *)

Module Js.

(** Truthiness of an optional string: [null], [undefined] and [""] are
    falsy. *)
Definition truthy (s : option string) : bool :=
  match s with
  | None => false
  | Some s => negb (s =? "")
  end.

(** Truthiness of an optional number: [null], [undefined] and [0] are
    falsy. *)
Definition truthyNum (n : option Z) : bool :=
  match n with
  | None => false
  | Some n => negb (n =? 0)%Z
  end.

(** Strict equality of a possibly absent string with a literal. *)
Definition eqLit (s : option string) (lit : string) : bool :=
  match s with
  | None => false
  | Some s => s =? lit
  end.

(** White space and line terminators among the code units below 256:
    TAB, LF, VT, FF, CR, SP and NBSP. *)
Definition isWhiteSpace (c : ascii) : bool :=
  let n := nat_of_ascii c in
  ((9 <=? n) && (n <=? 13) || (n =? 32) || (n =? 160))%nat.

Fixpoint trimStart (s : string) : string :=
  match s with
  | EmptyString => EmptyString
  | String c s' => if isWhiteSpace c then trimStart s' else s
  end.

Fixpoint trimEnd (s : string) : string :=
  match s with
  | EmptyString => EmptyString
  | String c s' =>
      match trimEnd s' with
      | EmptyString => if isWhiteSpace c then EmptyString else String c EmptyString
      | t => String c t
      end
  end.

(** [String.prototype.trim]. *)
Definition trim (s : string) : string := trimEnd (trimStart s).

(** [`${n}`] for an integer-valued number. *)
Definition numToString (n : Z) : string :=
  NilZero.string_of_int (Z.to_int n).

(** [Number(d)] for a decimal [d] of the store: the binary64 number
    nearest to it, the one with the even significand when two are equally
    near.  The quotient of the numerator by the denominator is taken to
    55 bits or more, with one more bit telling whether anything is left
    over, and rounded once to the 53 bits of the format. *)
Definition Number (d : Q) : float :=
  let n := Qnum d in
  let p := Zpos (Qden d) in
  let k := Z.max 0 (55 + Z.log2 p - Z.log2 (Z.abs n)) in
  let (q, r) := Z.div_eucl (Z.abs n * 2 ^ k) p in
  let m := (2 * q + (if r =? 0 then 0 else 1))%Z in
  FloatOps.SF2Prim
    (SpecFloat.binary_normalize FloatOps.prec FloatOps.emax
       (if n <? 0 then - m else m)%Z (- k - 1) false).

(** The sign test [Array.prototype.sort] applies to what the comparator
    returns: a positive value sends the first argument after the second.
    [NaN] is not positive. *)
Class Sinal (N : Type) := positivo : N -> bool.

#[global] Instance sinalInteiro : Sinal Z := fun z => (0 <? z)%Z.
#[global] Instance sinalNumero : Sinal float := fun x => (0 <? x)%float.

Section Arrays.
Context {A N : Type} `{Sinal N}.

Fixpoint insere (cmp : A -> A -> N) (x : A) (l : list A) : list A :=
  match l with
  | [] => [x]
  | y :: l' => if positivo (cmp x y) then y :: insere cmp x l' else x :: l
  end.

(** [Array.prototype.sort(cmp)]: the stable sort the language
    prescribes, as a right-to-left insertion sort. An element moves
    right only past elements the comparator puts strictly before it. *)
Definition sort (cmp : A -> A -> N) (l : list A) : list A :=
  fold_right (insere cmp) [] l.

(** [Array.prototype.slice(0, n)]. *)
Definition slice0 (n : nat) (l : list A) : list A := firstn n l.

(** [Array.prototype.length], as a number. *)
Definition len (l : list A) : Z := Z.of_nat (List.length l).

(** [Array.prototype.filter] with the two-argument callback
    [(v, i) => ...]; [i] is the index of [v] in the array. *)
Fixpoint filteriDe (i : Z) (f : A -> Z -> bool) (l : list A) : list A :=
  match l with
  | [] => []
  | v :: l' =>
      if f v i then v :: filteriDe (i + 1)%Z f l' else filteriDe (i + 1)%Z f l'
  end.

Definition filteri (f : A -> Z -> bool) (l : list A) : list A :=
  filteriDe 0%Z f l.
End Arrays.

(** [Array.prototype.indexOf] on an array of numbers: the index of the
    first occurrence, [-1] when there is none. *)
Fixpoint indexOfDe (i : Z) (l : list Z) (v : Z) : Z :=
  match l with
  | [] => (-1)%Z
  | x :: l' => if (x =? v)%Z then i else indexOfDe (i + 1)%Z l' v
  end.

Definition indexOf (l : list Z) (v : Z) : Z := indexOfDe 0%Z l v.

(** [Number(x.toFixed(casas))].  [toFixed] takes the integer [n] for
    which [n / 10^casas] is nearest to the exact value of the binary64
    number [x], the larger one when two are equally near, and writes it
    with [casas] fractional digits behind the sign of [x]; [Number] reads
    the decimal back as the nearest binary64 number.  From 1e21 on
    [toFixed] hands out the digits of [x] as a string, which read back
    as [x]; zero of either sign is written without a sign. *)
Definition toFixed (casas : nat) (x : float) : float :=
  match FloatOps.Prim2SF x with
  | SpecFloat.S754_finite s m e =>
      let v := (inject_Z (Zpos m) * 2 ^ e)%Q in
      if Qle_bool (inject_Z (10 ^ 21)) v then x
      else
        let p := (10 ^ Z.of_nat casas)%Z in
        let n := Qfloor (v * inject_Z p + (1 # 2))%Q in
        if s then (- Number (Qmake n (Z.to_pos p)))%float
        else Number (Qmake n (Z.to_pos p))
  | SpecFloat.S754_zero _ => 0%float
  | _ => x
  end.

(** [Map]: keys in insertion order; [set] on a present key replaces the
    value where the key already stands. *)
Module Map.
Section Map.
Context {K V : Type} (eqb : K -> K -> bool).

Fixpoint get (m : list (K * V)) (k : K) : option V :=
  match m with
  | [] => None
  | (k', v) :: m' => if eqb k' k then Some v else get m' k
  end.

Fixpoint set (m : list (K * V)) (k : K) (v : V) : list (K * V) :=
  match m with
  | [] => [(k, v)]
  | (k', v') :: m' =>
      if eqb k' k then (k', v) :: m' else (k', v') :: set m' k v
  end.
End Map.

Definition entries {K V : Type} (m : list (K * V)) : list (K * V) := m.
Definition values {K V : Type} (m : list (K * V)) : list V := map snd m.
End Map.

(** [x ?? d]. *)
Definition ouSe {A : Type} (x : option A) (d : A) : A :=
  match x with
  | Some v => v
  | None => d
  end.

End Js.

Arguments Js.Number : simpl never.
Arguments Js.toFixed : simpl never.

Notation "x ?? d" := (Js.ouSe x d) (at level 45, left associativity).

(* ------------------------------------------------------------------ *)
(** ** Rows as the handler selects them *)
(* ------------------------------------------------------------------ *)

(** [receita.findMany], select [{ id, valor, categoria, anexo, clienteId }]. *)
Record Receita := {
  r_id : Z;
  r_valor : Q;
  r_categoria : option string;
  r_anexo : option string;
  r_clienteId : option Z
}.

(** [despesa.findMany], select [{ valor, categoria, anexo, createdAt }]. *)
Record Despesa := {
  d_valor : Q;
  d_categoria : option string;
  d_anexo : option string;
  d_createdAt : Z
}.

(** [cliente.findMany], select [{ id, nome }]. *)
Record Cliente := {
  c_id : Z;
  c_nome : string
}.

(** One group of [receitaItem.groupBy]: [{ produtoId, _sum: { qtdBase } }]. *)
Record ItemAgg := {
  produtoId : Z;
  sum_qtdBase : option Q
}.

(** The loosely typed product object ([produto: any]) that
    [formatarProdutoParaExibicao] receives: every field may be missing. *)
Record Produto := {
  p_id : option Z;
  p_nome : option string;
  p_unidadeBase : option string;
  p_saldoBase : option Q;
  p_categoria : option string
}.

(** [{ ...produto, saldoDisplay, unidadeDisplay }]: the source object is
    carried along untouched, next to the two derived fields. *)
Record ProdutoFormatado := {
  origem : Produto;
  saldoDisplay : float;
  unidadeDisplay : string
}.

(* ------------------------------------------------------------------ *)
(** ** The report object *)
(* ------------------------------------------------------------------ *)

Record CategoriaContagem := { cc_categoria : string; cc_contagem : Z }.
Record CategoriaValor := { cv_categoria : string; cv_valor : float }.
Record CategoriaQuantidade := { cq_categoria : string; cq_quantidade : float }.
Record ProdutoVendido := {
  pv_nome : option string;
  pv_quantidade : float;
  pv_unidade : string
}.
Record ClienteResumo := {
  cr_nome : string;
  cr_totalGasto : float;
  cr_contagem : Z
}.
Record ProdutoEstoque := {
  pe_produto : option string;
  pe_quantidade : float;
  pe_unidade : option string
}.

Record Totais := {
  t_totalReceitas : float;
  t_totalDespesas : float;
  t_lucroLiquido : float
}.
Record SecaoReceitas := {
  sr_categoriasMaisVendidas : list CategoriaContagem;
  sr_produtosMaisVendidos : list ProdutoVendido;
  sr_totalVendas : Z;
  sr_valorTotalVendas : float;
  sr_vendasSemItens : Z;
  sr_vendasSemAnexo : Z
}.
Record SecaoDespesas := {
  sd_categoriasMaisDespesas : list CategoriaContagem;
  sd_valorGastoCategorias : list CategoriaValor;
  sd_despesasSemAnexo : Z
}.
Record SecaoClientes := {
  sc_clientesQueMaisGastaram : list ClienteResumo;
  sc_clientesComMaisCompras : list ClienteResumo;
  sc_totalClientesRegistrados : Z
}.
Record SecaoEstoque := {
  se_categoriasEstoque : list CategoriaQuantidade;
  se_maiorQtdUnidade : list ProdutoEstoque;
  se_maiorQtdKg : list ProdutoEstoque;
  se_maiorQtdMl : list ProdutoEstoque
}.
Record Relatorio := {
  totais : Totais;
  receitas : SecaoReceitas;
  despesas : SecaoDespesas;
  clientes : SecaoClientes;
  estoque : SecaoEstoque
}.

(** What the handler sends: [res.status(200).json(report)] or
    [res.status(500).json({ erro })]. *)
Inductive Resposta :=
| Resposta200 (corpo : Relatorio)
| Resposta500 (erro : string).

(* ------------------------------------------------------------------ *)
(** ** The persistence client and the error monad of the handler *)
(* ------------------------------------------------------------------ *)

(** Outcome of an awaited call: the value, or the thrown error. *)
Inductive Resultado (A : Type) :=
| Sucesso (a : A)
| Falha (erro : string).
Arguments Sucesso {A} a.
Arguments Falha {A} erro.

Definition bind {A B : Type} (c : Resultado A) (k : A -> Resultado B)
  : Resultado B :=
  match c with
  | Sucesso a => k a
  | Falha e => Falha e
  end.

Notation "x <- c ;; k" := (bind c (fun x => k))
  (at level 61, c at next level, right associativity).

(** The eight queries of the handler, each with the arguments that vary;
    the [select], [orderBy] and [take] clauses are fixed in the source. *)
Record PrismaClient := {
  (** [receita.findMany({ where: { usuarioId } })] *)
  receita_findMany : string -> Resultado (list Receita);
  (** [despesa.findMany({ where: { usuarioId } })] *)
  despesa_findMany : string -> Resultado (list Despesa);
  (** [cliente.findMany({ where: { id: { in } } })] *)
  cliente_findMany : list Z -> Resultado (list Cliente);
  (** [cliente.count({ where: { usuarioId } })] *)
  cliente_count : string -> Resultado Z;
  (** [receitaItem.groupBy({ by: produtoId, where: { receita: { usuarioId } },
      _sum: qtdBase, orderBy: _sum.qtdBase desc, take: 3 })] *)
  receitaItem_groupBy : string -> Resultado (list ItemAgg);
  (** [produto.findMany({ where: { id: { in } } })] *)
  produto_findMany : list Z -> Resultado (list Produto);
  (** [receitaItem.findMany({ where: { receitaId: { in } },
      distinct: receitaId })], as the list of [receitaId]s *)
  receitaItem_findMany : list Z -> Resultado (list Z);
  (** [produto.findMany({ where: { usuarioId, ativo: true } })] *)
  produto_findMany_ativos : string -> Resultado (list Produto)
}.

(* ------------------------------------------------------------------ *)
(** ** The unit normalizer *)
(* ------------------------------------------------------------------ *)

Definition formatarProdutoParaExibicao (produto : Produto) : ProdutoFormatado :=
  let saldoDisplay : float := Js.Number (p_saldoBase produto ?? 0%Q) in
  if Js.eqLit (p_unidadeBase produto) "G" then
    {| origem := produto;
       saldoDisplay := (saldoDisplay / 1000)%float;
       unidadeDisplay := "kg" |}
  else if Js.eqLit (p_unidadeBase produto) "ML" then
    {| origem := produto;
       saldoDisplay := (saldoDisplay / 1000)%float;
       unidadeDisplay := "L" |}
  else
    {| origem := produto;
       saldoDisplay := saldoDisplay;
       unidadeDisplay := "un" |}.


(* ------------------------------------------------------------------ *)
(** ** The sections of the report, in the order the handler computes them *)
(* ------------------------------------------------------------------ *)

(** *** Totals *)

Definition totalReceitas (receitas : list Receita) : float :=
  fold_left (fun acc r => (acc + Js.Number (r_valor r))%float) receitas 0%float.

Definition totalDespesas (despesas : list Despesa) : float :=
  fold_left (fun acc d => (acc + Js.Number (d_valor d))%float) despesas 0%float.

Definition lucroLiquido (receitas : list Receita) (despesas : list Despesa)
  : float :=
  (totalReceitas receitas - totalDespesas despesas)%float.

(** *** Revenue *)

(** [!x.anexo || x.anexo.trim() === ""] *)
Definition semAnexo (anexo : option string) : bool :=
  negb (Js.truthy anexo) || (Js.trim (anexo ?? "") =? "").

Definition vendasSemAnexo (receitas : list Receita) : Z :=
  Js.len (filter (fun r => semAnexo (r_anexo r)) receitas).

Definition totalVendas (receitas : list Receita) : Z := Js.len receitas.

Definition categoriasReceitasMap (receitas : list Receita) : list (string * Z) :=
  fold_left
    (fun m r =>
       if Js.truthy (r_categoria r) then
         let cat := r_categoria r ?? "" in
         Js.Map.set String.eqb m cat ((Js.Map.get String.eqb m cat ?? 0 + 1)%Z)
       else m)
    receitas [].

Definition categoriasMaisVendidas (receitas : list Receita)
  : list CategoriaContagem :=
  map (fun '(categoria, contagem) =>
         {| cc_categoria := categoria; cc_contagem := contagem |})
      (Js.slice0 3
         (Js.sort (fun '(_, a) '(_, b) => (b - a)%Z)
                  (Js.Map.entries (categoriasReceitasMap receitas)))).

(** *** Expenses *)

Definition despesasSemAnexo (despesas : list Despesa) : Z :=
  Js.len (filter (fun d => semAnexo (d_anexo d)) despesas).

(** The value type of [categoriasDespesasMap]: [{ count, total }]. *)
Record CountTotal := { count : Z; total : float }.

(** [d.categoria && d.categoria.trim() !== "" ? d.categoria : "Sem Categoria"] *)
Definition categoriaDaDespesa (d : Despesa) : string :=
  if Js.truthy (d_categoria d) && negb (Js.trim (d_categoria d ?? "") =? "")
  then d_categoria d ?? ""
  else "Sem Categoria".

Definition categoriasDespesasMap (despesas : list Despesa)
  : list (string * CountTotal) :=
  fold_left
    (fun m d =>
       let cat := categoriaDaDespesa d in
       let valor := Js.Number (d_valor d) in
       let atual := Js.Map.get String.eqb m cat ?? {| count := 0; total := 0 |} in
       Js.Map.set String.eqb m cat
         {| count := (count atual + 1)%Z; total := (total atual + valor)%float |})
    despesas [].

Definition categoriasMaisDespesas (despesas : list Despesa)
  : list CategoriaContagem :=
  map (fun '(categoria, data) =>
         {| cc_categoria := categoria; cc_contagem := count data |})
      (Js.slice0 3
         (Js.sort (fun '(_, a) '(_, b) => (count b - count a)%Z)
                  (Js.Map.entries (categoriasDespesasMap despesas)))).

Definition valorGastoCategorias (despesas : list Despesa)
  : list CategoriaValor :=
  map (fun '(categoria, data) =>
         {| cv_categoria := categoria; cv_valor := total data |})
      (Js.slice0 3
         (Js.sort (fun '(_, a) '(_, b) => (total b - total a)%float)
                  (Js.Map.entries (categoriasDespesasMap despesas)))).

(** *** Clients *)

Definition receitasComCliente (receitas : list Receita) : list Receita :=
  filter (fun r => Js.truthyNum (r_clienteId r)) receitas.

(** [r.clienteId!]: after the filter above the id is present; [0] stands
    for the absent case, which the filter leaves out. *)
Definition clienteIdDe (r : Receita) : Z := r_clienteId r ?? 0%Z.

Definition clientesIds (receitas : list Receita) : list Z :=
  let a := map clienteIdDe (receitasComCliente receitas) in
  Js.filteri (fun v i => (Js.indexOf a v =? i)%Z) a.

Definition clienteNomeMap (clientesData : list Cliente) : list (Z * string) :=
  fold_left (fun m c => Js.Map.set Z.eqb m (c_id c) (c_nome c)) clientesData [].

Definition clientesMap (receitas : list Receita) (clientesData : list Cliente)
  : list (Z * ClienteResumo) :=
  fold_left
    (fun m r =>
       let id := clienteIdDe r in
       let nome :=
         Js.Map.get Z.eqb (clienteNomeMap clientesData) id
           ?? ("Cliente ID " ++ Js.numToString id) in
       let valor := Js.Number (r_valor r) in
       let atual :=
         Js.Map.get Z.eqb m id
           ?? {| cr_nome := nome; cr_totalGasto := 0; cr_contagem := 0 |} in
       Js.Map.set Z.eqb m id
         {| cr_nome := cr_nome atual;
            cr_totalGasto := (cr_totalGasto atual + valor)%float;
            cr_contagem := (cr_contagem atual + 1)%Z |})
    (receitasComCliente receitas) [].

Definition clientesQueMaisGastaram (m : list (Z * ClienteResumo))
  : list ClienteResumo :=
  Js.slice0 5
    (Js.sort (fun a b => (cr_totalGasto b - cr_totalGasto a)%float)
             (Js.Map.values m)).

Definition clientesComMaisCompras (m : list (Z * ClienteResumo))
  : list ClienteResumo :=
  Js.slice0 3
    (Js.sort (fun a b => (cr_contagem b - cr_contagem a)%Z) (Js.Map.values m)).

(** *** Sold products *)

Definition idsVendidos (produtosVendidosAgg : list ItemAgg) : list Z :=
  map produtoId produtosVendidosAgg.

(** [{ ...produtoInfo, saldoBase }], where [produtoInfo] may be
    [undefined]: spreading [undefined] contributes no field. *)
Definition comSaldoBase (produtoInfo : option Produto) (saldoBase : Q) : Produto :=
  match produtoInfo with
  | Some p =>
      {| p_id := p_id p; p_nome := p_nome p; p_unidadeBase := p_unidadeBase p;
         p_saldoBase := Some saldoBase; p_categoria := p_categoria p |}
  | None =>
      {| p_id := None; p_nome := None; p_unidadeBase := None;
         p_saldoBase := Some saldoBase; p_categoria := None |}
  end.

(** [p.id === item.produtoId] *)
Definition temId (id : Z) (p : Produto) : bool :=
  match p_id p with
  | Some i => (i =? id)%Z
  | None => false
  end.

Definition produtoMaisVendido (produtosVendidosInfo : list Produto)
  (item : ItemAgg) : ProdutoVendido :=
  let produtoInfo := find (temId (produtoId item)) produtosVendidosInfo in
  let produtoFormatado :=
    formatarProdutoParaExibicao
      (comSaldoBase produtoInfo (sum_qtdBase item ?? 0%Q)) in
  {| pv_nome := p_nome (origem produtoFormatado);
     pv_quantidade := saldoDisplay produtoFormatado;
     pv_unidade := unidadeDisplay produtoFormatado |}.

Definition produtosMaisVendidos (produtosVendidosAgg : list ItemAgg)
  (produtosVendidosInfo : list Produto) : list ProdutoVendido :=
  map (produtoMaisVendido produtosVendidosInfo) produtosVendidosAgg.

Definition receitasIds (receitas : list Receita) : list Z := map r_id receitas.

(** [new Set(...)] is only asked [has]; membership in the list stands for it. *)
Definition vendasSemItens (receitas : list Receita) (receitasComItens : list Z) : Z :=
  Js.len
    (filter (fun id => negb (existsb (Z.eqb id) receitasComItens))
            (receitasIds receitas)).

(** *** Stock *)

Definition produtosFormatadosEstoque (produtosEmEstoque : list Produto)
  : list ProdutoFormatado :=
  map formatarProdutoParaExibicao produtosEmEstoque.

Definition categoriasEstoqueMap (produtosFormatados : list ProdutoFormatado)
  : list (string * float) :=
  fold_left
    (fun m p =>
       if Js.truthy (p_categoria (origem p)) then
         let cat := p_categoria (origem p) ?? "" in
         Js.Map.set String.eqb m cat
           ((Js.Map.get String.eqb m cat ?? 0 + saldoDisplay p)%float)
       else m)
    produtosFormatados [].

Definition categoriasEstoque (produtosFormatados : list ProdutoFormatado)
  : list CategoriaQuantidade :=
  map (fun '(categoria, quantidade) =>
         {| cq_categoria := categoria; cq_quantidade := Js.toFixed 2 quantidade |})
      (Js.slice0 3
         (Js.sort (fun '(_, a) '(_, b) => (b - a)%float)
                  (Js.Map.entries (categoriasEstoqueMap produtosFormatados)))).

(** The three per-unit rankings share their shape:
    [filter(p => p.unidadeDisplay === u).sort(...).slice(0, 3)]. *)
Definition maioresPorUnidade (u : string) (produtosFormatados : list ProdutoFormatado)
  : list ProdutoFormatado :=
  Js.slice0 3
    (Js.sort (fun a b => (saldoDisplay b - saldoDisplay a)%float)
             (filter (fun p => unidadeDisplay p =? u) produtosFormatados)).

Definition estoquePorUnidade (produtosFormatados : list ProdutoFormatado)
  : list ProdutoEstoque :=
  map (fun p => {| pe_produto := p_nome (origem p);
                   pe_quantidade := Js.toFixed 0 (saldoDisplay p);
                   pe_unidade := None |})
      (maioresPorUnidade "un" produtosFormatados).

Definition estoquePorKg (produtosFormatados : list ProdutoFormatado)
  : list ProdutoEstoque :=
  map (fun p => {| pe_produto := p_nome (origem p);
                   pe_quantidade := Js.toFixed 2 (saldoDisplay p);
                   pe_unidade := Some "Kg" |})
      (maioresPorUnidade "kg" produtosFormatados).

Definition estoquePorL (produtosFormatados : list ProdutoFormatado)
  : list ProdutoEstoque :=
  map (fun p => {| pe_produto := p_nome (origem p);
                   pe_quantidade := Js.toFixed 2 (saldoDisplay p);
                   pe_unidade := Some "L" |})
      (maioresPorUnidade "L" produtosFormatados).

(* ------------------------------------------------------------------ *)
(** ** The handler *)
(* ------------------------------------------------------------------ *)

(** The body of the [try] block: every [await] may throw, and the object
    handed to [res.status(200).json] is built once all of them returned. *)
Definition gerarRelatorio (prisma : PrismaClient) (usuarioId : string)
  : Resultado Relatorio :=
  receitas <- receita_findMany prisma usuarioId ;;
  despesas <- despesa_findMany prisma usuarioId ;;
  clientesData <- cliente_findMany prisma (clientesIds receitas) ;;
  let clientesMap := clientesMap receitas clientesData in
  totalClientes <- cliente_count prisma usuarioId ;;
  produtosVendidosAgg <- receitaItem_groupBy prisma usuarioId ;;
  produtosVendidosInfo <-
    produto_findMany prisma (idsVendidos produtosVendidosAgg) ;;
  receitasComItens <- receitaItem_findMany prisma (receitasIds receitas) ;;
  produtosEmEstoque <- produto_findMany_ativos prisma usuarioId ;;
  let produtosFormatados := produtosFormatadosEstoque produtosEmEstoque in
  Sucesso
    {| totais :=
         {| t_totalReceitas := totalReceitas receitas;
            t_totalDespesas := totalDespesas despesas;
            t_lucroLiquido := lucroLiquido receitas despesas |};
       receitas :=
         {| sr_categoriasMaisVendidas := categoriasMaisVendidas receitas;
            sr_produtosMaisVendidos :=
              produtosMaisVendidos produtosVendidosAgg produtosVendidosInfo;
            sr_totalVendas := totalVendas receitas;
            sr_valorTotalVendas := totalReceitas receitas;
            sr_vendasSemItens := vendasSemItens receitas receitasComItens;
            sr_vendasSemAnexo := vendasSemAnexo receitas |};
       despesas :=
         {| sd_categoriasMaisDespesas := categoriasMaisDespesas despesas;
            sd_valorGastoCategorias := valorGastoCategorias despesas;
            sd_despesasSemAnexo := despesasSemAnexo despesas |};
       clientes :=
         {| sc_clientesQueMaisGastaram := clientesQueMaisGastaram clientesMap;
            sc_clientesComMaisCompras := clientesComMaisCompras clientesMap;
            sc_totalClientesRegistrados := totalClientes |};
       estoque :=
         {| se_categoriasEstoque := categoriasEstoque produtosFormatados;
            se_maiorQtdUnidade := estoquePorUnidade produtosFormatados;
            se_maiorQtdKg := estoquePorKg produtosFormatados;
            se_maiorQtdMl := estoquePorL produtosFormatados |} |}.

(** [router.get("/relatorio/:usuarioId", ...)]: the [catch] logs the error
    and answers with the fixed message. *)
Definition relatorio (prisma : PrismaClient) (usuarioId : string) : Resposta :=
  match gerarRelatorio prisma usuarioId with
  | Sucesso corpo => Resposta200 corpo
  | Falha _ => Resposta500 "Erro ao gerar relatório"
  end.

(* ------------------------------------------------------------------ *)
(** ** A data set behind the persistence client *)
(* ------------------------------------------------------------------ *)

(** Modelled from the spec: the schema of the store is not among the
    sources, so the columns of a product and of a line item are those of
    the data model (identity, name, base unit, on-hand base quantity,
    optional category, active flag, owner; product, revenue entry and
    base quantity), with the names the queries of the handler use. *)
Record ProdutoRow := {
  pr_usuarioId : string;
  pr_ativo : bool;
  pr_id : Z;
  pr_nome : string;
  pr_unidadeBase : string;
  pr_saldoBase : Q;
  pr_categoria : option string
}.

Record ReceitaItemRow := {
  ri_receitaId : Z;
  ri_produtoId : Z;
  ri_qtdBase : Q
}.

(** The tables the eight queries read.  A row of the first three pairs
    the owner column with the columns the handler selects. *)
Record Dados := {
  receitaTable : list (string * Receita);
  despesaTable : list (string * Despesa);
  clienteTable : list (string * Cliente);
  produtoTable : list ProdutoRow;
  receitaItemTable : list ReceitaItemRow
}.

Definition doUsuario {A : Type} (usuarioId : string) (linha : string * A) : bool :=
  fst linha =? usuarioId.

(** [where: { usuarioId }] *)
Definition receitasDe (db : Dados) (usuarioId : string) : list Receita :=
  map snd (filter (doUsuario usuarioId) (receitaTable db)).

Definition despesasDe (db : Dados) (usuarioId : string) : list Despesa :=
  map snd (filter (doUsuario usuarioId) (despesaTable db)).

(** [where: { id: { in: ids } }], select [{ id, nome }] *)
Definition clientesPorId (db : Dados) (ids : list Z) : list Cliente :=
  filter (fun c => existsb (Z.eqb (c_id c)) ids) (map snd (clienteTable db)).

Definition contarClientes (db : Dados) (usuarioId : string) : Z :=
  Js.len (filter (doUsuario usuarioId) (clienteTable db)).

(** [where: { receita: { usuarioId } }]: the item hangs on a revenue entry
    of the owner. *)
Definition itemDoUsuario (db : Dados) (usuarioId : string) (it : ReceitaItemRow)
  : bool :=
  existsb (fun r => (r_id r =? ri_receitaId it)%Z) (receitasDe db usuarioId).

(** The groups of [groupBy({ by: ["produtoId"], _sum: { qtdBase } })], in
    the order the product ids are first met among the owner's items. *)
Definition gruposPorProduto (db : Dados) (usuarioId : string) : list (Z * Q) :=
  fold_left
    (fun m it =>
       Js.Map.set Z.eqb m (ri_produtoId it)
         ((Js.Map.get Z.eqb m (ri_produtoId it) ?? 0 + ri_qtdBase it)%Q))
    (filter (itemDoUsuario db usuarioId) (receitaItemTable db)) [].

(** The store compares decimals exactly. *)
#[global] Instance sinalDecimal : Js.Sinal Q := fun q => negb (Qle_bool q 0).

(** The query does not say in which order groups of equal sum come back:
    that is left to the store.  [peso] stands for what the store goes by,
    a rank it gives each product id; the groups are laid out by ascending
    rank, groups of equal rank as first met. *)
Definition arranjoDoBanco (peso : Z -> Z) (grupos : list (Z * Q)) : list (Z * Q) :=
  Js.sort (fun a b => (peso (fst a) - peso (fst b))%Z) grupos.

(** [orderBy: { _sum: { qtdBase: "desc" } }, take: 3]: the first three
    groups by descending sum, groups of equal sum as the store lays them
    out.  The ordering is the stable sort written above. *)
Definition produtosVendidosAggCom (peso : Z -> Z) (db : Dados) (usuarioId : string)
  : list ItemAgg :=
  map (fun '(id, soma) => {| produtoId := id; sum_qtdBase := Some soma |})
      (firstn 3
         (Js.sort (fun '(_, a) '(_, b) => (b - a)%Q)
                  (arranjoDoBanco peso (gruposPorProduto db usuarioId)))).

(** A store that ranks all products alike, and so returns groups of equal
    sum as first met. *)
Definition produtosVendidosAggDe (db : Dados) (usuarioId : string) : list ItemAgg :=
  produtosVendidosAggCom (fun _ => 0%Z) db usuarioId.

(** select [{ id, nome, unidadeBase }] *)
Definition selecionaInfo (p : ProdutoRow) : Produto :=
  {| p_id := Some (pr_id p); p_nome := Some (pr_nome p);
     p_unidadeBase := Some (pr_unidadeBase p);
     p_saldoBase := None; p_categoria := None |}.

(** select [{ nome, saldoBase, unidadeBase, categoria }] *)
Definition selecionaEstoque (p : ProdutoRow) : Produto :=
  {| p_id := None; p_nome := Some (pr_nome p);
     p_unidadeBase := Some (pr_unidadeBase p);
     p_saldoBase := Some (pr_saldoBase p); p_categoria := pr_categoria p |}.

Definition produtosPorId (db : Dados) (ids : list Z) : list Produto :=
  map selecionaInfo
      (filter (fun p => existsb (Z.eqb (pr_id p)) ids) (produtoTable db)).

(** [where: { receitaId: { in: ids } }, distinct: ["receitaId"]] *)
Definition receitasComItensDe (db : Dados) (ids : list Z) : list Z :=
  nodup Z.eq_dec
    (filter (fun id => existsb (Z.eqb id) ids)
            (map ri_receitaId (receitaItemTable db))).

(** [where: { usuarioId, ativo: true }] *)
Definition produtosAtivos (db : Dados) (usuarioId : string) : list ProdutoRow :=
  filter (fun p => (pr_usuarioId p =? usuarioId) && pr_ativo p) (produtoTable db).

Definition produtosEmEstoqueDe (db : Dados) (usuarioId : string) : list Produto :=
  map selecionaEstoque (produtosAtivos db usuarioId).

(** The persistence client over a data set, with every query answering,
    for a store that goes by [peso] among groups of equal sum. *)
Definition prismaCom (peso : Z -> Z) (db : Dados) : PrismaClient :=
  {| receita_findMany := fun u => Sucesso (receitasDe db u);
     despesa_findMany := fun u => Sucesso (despesasDe db u);
     cliente_findMany := fun ids => Sucesso (clientesPorId db ids);
     cliente_count := fun u => Sucesso (contarClientes db u);
     receitaItem_groupBy := fun u => Sucesso (produtosVendidosAggCom peso db u);
     produto_findMany := fun ids => Sucesso (produtosPorId db ids);
     receitaItem_findMany := fun ids => Sucesso (receitasComItensDe db ids);
     produto_findMany_ativos := fun u => Sucesso (produtosEmEstoqueDe db u) |}.

Definition prismaDe (db : Dados) : PrismaClient := prismaCom (fun _ => 0%Z) db.

(* ------------------------------------------------------------------ *)
(** ** Vocabulary of the statements *)
(* ------------------------------------------------------------------ *)

Definition prefixo {A : Type} (p l : list A) : Prop := exists r, l = (p ++ r)%list.

(** The aggregates a ranking goes by are counts, numbers of the runtime
    or decimals of the store; each kind is compared by its own test. *)
Record Ordem (K : Type) := {
  menorIgual : K -> K -> bool;
  igual : K -> K -> bool
}.
Arguments menorIgual {K} o x y.
Arguments igual {K} o x y.

Definition ordemInteiro : Ordem Z := {| menorIgual := Z.leb; igual := Z.eqb |}.

Definition ordemNumero : Ordem float :=
  {| menorIgual := PrimFloat.leb; igual := PrimFloat.eqb |}.

Definition ordemDecimal : Ordem Q := {| menorIgual := Qle_bool; igual := Qeq_bool |}.

(** Aggregates never increase along the list. *)
Definition decrescente {A K : Type} (o : Ordem K) (agg : A -> K) (l : list A) : Prop :=
  StronglySorted (fun a b => menorIgual o (agg b) (agg a) = true) l.

Definition empata {A K : Type} (o : Ordem K) (agg : A -> K) (v : K) (a : A) : bool :=
  igual o (agg a) v.

(** [saida] is a ranking of [entrada] by [agg], cut at [n]: at most [n]
    entries, aggregates in descending order, entries of equal aggregate
    in the order they have in [entrada], and nothing left out that beats
    an entry kept. *)
Record TopN {A K : Type} (n : nat) (o : Ordem K) (agg : A -> K)
  (entrada saida : list A) : Prop := {
  limite : (List.length saida <= n)%nat;
  ordem : decrescente o agg saida;
  empates : forall c, In c entrada ->
      prefixo (filter (empata o agg (agg c)) saida)
              (filter (empata o agg (agg c)) entrada);
  escolha : exists resto,
      Permutation entrada (saida ++ resto)%list /\
      forall s r, In s saida -> In r resto -> menorIgual o (agg r) (agg s) = true
}.

(** None of the numbers is [NaN], the one number that is not equal to
    itself and that compares with none: with a [NaN] among the aggregates
    the comparator [(a, b) => b - a] is not consistent, and the outcome
    of [sort] need not be sorted. *)
Definition semNaN (ks : list float) : bool :=
  forallb (fun x => negb (PrimFloat.is_nan x)) ks.

(** A key of a binary64 number that is not [NaN], such that two numbers
    compare as their keys do, component by component: the kind and sign
    first, then the exponent, then the mantissa. *)
Definition chave (x : SpecFloat.spec_float) : Z * Z * Z :=
  match x with
  | SpecFloat.S754_zero _ => (0, 0, 0)%Z
  | SpecFloat.S754_infinity false => (2, 0, 0)%Z
  | SpecFloat.S754_infinity true => (-2, 0, 0)%Z
  | SpecFloat.S754_finite false m e => (1, e, Zpos m)%Z
  | SpecFloat.S754_finite true m e => (-1, - e, Zneg m)%Z
  | SpecFloat.S754_nan => (0, 0, 0)%Z
  end.

Definition lexicografica (a b : Z * Z * Z) : comparison :=
  let '(a1, a2, a3) := a in
  let '(b1, b2, b3) := b in
  match (a1 ?= b1)%Z with
  | Eq => match (a2 ?= b2)%Z with Eq => (a3 ?= b3)%Z | c => c end
  | c => c
  end.

(** The sum of a list of numbers as the runtime takes it with
    [reduce((acc, x) => acc + x, 0)]: from 0, left to right, each addition
    rounded. *)
Definition somaNumeros (l : list float) : float := fold_left PrimFloat.add l 0%float.

(** The keys of a sequence in the order of their first occurrence. *)
Definition primeirasOcorrencias {K : Type} (eqb : K -> K -> bool) (l : list K)
  : list K :=
  fold_left (fun vistos k => if existsb (fun k' => eqb k' k) vistos
                             then vistos else (vistos ++ [k])%list)
            l [].

(** The sum of a list of counts. *)
Definition somaInteiros (l : list Z) : Z := fold_right Z.add 0%Z l.

(** Some retrieval step of the handler throws.  The steps that take the
    result of an earlier one are read at that result. *)
Definition algumaBuscaFalha (prisma : PrismaClient) (usuarioId : string) : Prop :=
  (exists e, receita_findMany prisma usuarioId = Falha e) \/
  (exists e, despesa_findMany prisma usuarioId = Falha e) \/
  (exists rs e, receita_findMany prisma usuarioId = Sucesso rs /\
                cliente_findMany prisma (clientesIds rs) = Falha e) \/
  (exists e, cliente_count prisma usuarioId = Falha e) \/
  (exists e, receitaItem_groupBy prisma usuarioId = Falha e) \/
  (exists agg e, receitaItem_groupBy prisma usuarioId = Sucesso agg /\
                 produto_findMany prisma (idsVendidos agg) = Falha e) \/
  (exists rs e, receita_findMany prisma usuarioId = Sucesso rs /\
                receitaItem_findMany prisma (receitasIds rs) = Falha e) \/
  (exists e, produto_findMany_ativos prisma usuarioId = Falha e).

(** A product object with the given stock quantity and unit tag. *)
Definition produtoCom (id : option Z) (nome categoria : option string)
  (saldoBase : Q) (unidadeBase : option string) : Produto :=
  {| p_id := id; p_nome := nome; p_unidadeBase := unidadeBase;
     p_saldoBase := Some saldoBase; p_categoria := categoria |}.

(** A small data set: owner ["u"] has four revenue entries, two of them
    of a client that is not registered, and a line item on a product that
    does not exist; owner ["v"] has one revenue entry. *)
Definition receitaEx (id : Z) (valor : Q) (categoria : option string)
  (clienteId : option Z) : Receita :=
  {| r_id := id; r_valor := valor; r_categoria := categoria;
     r_anexo := None; r_clienteId := clienteId |}.

Definition despesaEx (valor : Q) (categoria : option string) : Despesa :=
  {| d_valor := valor; d_categoria := categoria; d_anexo := None;
     d_createdAt := 0 |}.

Definition dadosEx : Dados :=
  {| receitaTable :=
       [("u", receitaEx 1 100 (Some "a") None);
        ("u", receitaEx 2 50 (Some "") (Some 7%Z));
        ("v", receitaEx 3 9 (Some "b") None);
        ("u", receitaEx 4 60 (Some "b") (Some 7%Z));
        ("u", receitaEx 5 5 (Some "b") (Some 2%Z))];
     despesaTable :=
       [("u", despesaEx 30 (Some "rent"));
        ("u", despesaEx 3 (Some ""));
        ("u", despesaEx 4 None)];
     clienteTable := [("u", {| c_id := 2; c_nome := "Ana" |})];
     produtoTable :=
       [{| pr_usuarioId := "u"; pr_ativo := true; pr_id := 1;
           pr_nome := "Farinha"; pr_unidadeBase := "G";
           pr_saldoBase := 2500; pr_categoria := Some "graos" |};
        {| pr_usuarioId := "u"; pr_ativo := true; pr_id := 2;
           pr_nome := "Leite"; pr_unidadeBase := "ML";
           pr_saldoBase := 1004; pr_categoria := None |}];
     receitaItemTable :=
       [{| ri_receitaId := 1; ri_produtoId := 1; ri_qtdBase := 5000 |};
        {| ri_receitaId := 2; ri_produtoId := 99; ri_qtdBase := 40 |}] |}.

(** The data set without the revenue entries whose category is absent or
    the empty string. *)
Definition semReceitasSemCategoria (db : Dados) : Dados :=
  {| receitaTable :=
       filter (fun linha => Js.truthy (r_categoria (snd linha))) (receitaTable db);
     despesaTable := despesaTable db;
     clienteTable := clienteTable db;
     produtoTable := produtoTable db;
     receitaItemTable := receitaItemTable db |}.

(** The data set without the products whose category is absent or the
    empty string. *)
Definition semProdutosSemCategoria (db : Dados) : Dados :=
  {| receitaTable := receitaTable db;
     despesaTable := despesaTable db;
     clienteTable := clienteTable db;
     produtoTable := filter (fun p => Js.truthy (pr_categoria p)) (produtoTable db);
     receitaItemTable := receitaItemTable db |}.

(** A category that is absent, empty or made of white space only. *)
Definition emBranco (c : option string) : bool :=
  match c with
  | None => true
  | Some s => Js.trim s =? ""
  end.

(** The expense entries that end up under ["Sem Categoria"]: those without
    a usable category, and those labelled so. *)
Definition naSemCategoria (d : Despesa) : bool :=
  emBranco (d_categoria d) || Js.eqLit (d_categoria d) "Sem Categoria".

(** The reading of the expense ranking under which the entries with the
    empty-string category make up a bucket named [rotulo], counted on
    their own. *)
Definition baldeDosVazios (rotulo : string) (ds : list Despesa)
  (ranking : list CategoriaContagem) : Prop :=
  exists e, In e ranking /\ cc_categoria e = rotulo /\
            cc_contagem e = Js.len (filter (fun d => Js.eqLit (d_categoria d) "") ds).

(** The reading of the sold-products list under which a product that
    cannot be resolved is left out: every entry is that of a product of
    the data set. *)
Definition soProdutosConhecidos (db : Dados) (lista : list ProdutoVendido) : Prop :=
  forall e, In e lista ->
    exists p, In p (produtoTable db) /\ pv_nome e = Some (pr_nome p).

(** [lista] shows, through [mostra], a ranking of [entrada] by [agg] cut
    at [n]. *)
Definition rankingDe {A B K : Type} (n : nat) (o : Ordem K) (agg : A -> K)
  (entrada : list A) (mostra : A -> B) (lista : list B) : Prop :=
  exists top, TopN n o agg entrada top /\ lista = map mostra top.

(** The rankings the handler sorts by a count, over the data set they
    were computed from: each list against the entries it ranks, and the
    order in which those entries were first met. *)
Record RankingsPorContagem (db : Dados) (usuarioId : string) (corpo : Relatorio)
  : Prop := {
  rc_receitas := map snd (filter (doUsuario usuarioId) (receitaTable db));
  rc_despesas := map snd (filter (doUsuario usuarioId) (despesaTable db));
  rc_clientes :=
    clientesMap rc_receitas (clientesPorId db (clientesIds rc_receitas));

  rc_categoriasMaisVendidas :
    rankingDe 3 ordemInteiro snd (categoriasReceitasMap rc_receitas)
      (fun e => {| cc_categoria := fst e; cc_contagem := snd e |})
      (sr_categoriasMaisVendidas (receitas corpo));
  rc_categoriasMaisDespesas :
    rankingDe 3 ordemInteiro (fun e => count (snd e))
      (categoriasDespesasMap rc_despesas)
      (fun e => {| cc_categoria := fst e; cc_contagem := count (snd e) |})
      (sd_categoriasMaisDespesas (despesas corpo));
  rc_clientesComMaisCompras :
    rankingDe 3 ordemInteiro cr_contagem (map snd rc_clientes) (fun e => e)
      (sc_clientesComMaisCompras (clientes corpo));

  rc_ordem_categoriasReceitas :
    map fst (categoriasReceitasMap rc_receitas) =
    primeirasOcorrencias String.eqb
      (map (fun r => r_categoria r ?? "")
           (filter (fun r => Js.truthy (r_categoria r)) rc_receitas));
  rc_ordem_categoriasDespesas :
    map fst (categoriasDespesasMap rc_despesas) =
    primeirasOcorrencias String.eqb (map categoriaDaDespesa rc_despesas);
  rc_ordem_clientes :
    map fst rc_clientes =
    primeirasOcorrencias Z.eqb (map clienteIdDe (receitasComCliente rc_receitas))
}.

(** The aggregates of the rankings the handler sorts by an amount or a
    quantity: the totals of the expense buckets and of the clients, the
    sums of the stock categories and the display quantities of the
    products in stock. *)
Definition agregadosDoRelatorio (db : Dados) (usuarioId : string)
  : list (list float) :=
  let rs := receitasDe db usuarioId in
  let pfs := produtosFormatadosEstoque (produtosEmEstoqueDe db usuarioId) in
  [map (fun e => total (snd e)) (categoriasDespesasMap (despesasDe db usuarioId));
   map (fun e => cr_totalGasto (snd e))
       (clientesMap rs (clientesPorId db (clientesIds rs)));
   map snd (categoriasEstoqueMap pfs);
   map saldoDisplay pfs].

Definition agregadosSemNaN (db : Dados) (usuarioId : string) : bool :=
  forallb semNaN (agregadosDoRelatorio db usuarioId).

(** The rankings the handler sorts by an amount or a quantity. *)
Record RankingsPorValor (db : Dados) (usuarioId : string) (corpo : Relatorio)
  : Prop := {
  rv_receitas := map snd (filter (doUsuario usuarioId) (receitaTable db));
  rv_despesas := map snd (filter (doUsuario usuarioId) (despesaTable db));
  rv_clientes :=
    clientesMap rv_receitas (clientesPorId db (clientesIds rv_receitas));
  rv_estoque := produtosFormatadosEstoque (produtosEmEstoqueDe db usuarioId);

  rv_valorGastoCategorias :
    rankingDe 3 ordemNumero (fun e => total (snd e))
      (categoriasDespesasMap rv_despesas)
      (fun e => {| cv_categoria := fst e; cv_valor := total (snd e) |})
      (sd_valorGastoCategorias (despesas corpo));
  rv_clientesQueMaisGastaram :
    rankingDe 5 ordemNumero cr_totalGasto (map snd rv_clientes) (fun e => e)
      (sc_clientesQueMaisGastaram (clientes corpo));
  rv_categoriasEstoque :
    rankingDe 3 ordemNumero snd (categoriasEstoqueMap rv_estoque)
      (fun e => {| cq_categoria := fst e; cq_quantidade := Js.toFixed 2 (snd e) |})
      (se_categoriasEstoque (estoque corpo));
  rv_maiorQtdUnidade :
    rankingDe 3 ordemNumero saldoDisplay
      (filter (fun p => unidadeDisplay p =? "un") rv_estoque)
      (fun p => {| pe_produto := p_nome (origem p);
                   pe_quantidade := Js.toFixed 0 (saldoDisplay p);
                   pe_unidade := None |})
      (se_maiorQtdUnidade (estoque corpo));
  rv_maiorQtdKg :
    rankingDe 3 ordemNumero saldoDisplay
      (filter (fun p => unidadeDisplay p =? "kg") rv_estoque)
      (fun p => {| pe_produto := p_nome (origem p);
                   pe_quantidade := Js.toFixed 2 (saldoDisplay p);
                   pe_unidade := Some "Kg" |})
      (se_maiorQtdKg (estoque corpo));
  rv_maiorQtdMl :
    rankingDe 3 ordemNumero saldoDisplay
      (filter (fun p => unidadeDisplay p =? "L") rv_estoque)
      (fun p => {| pe_produto := p_nome (origem p);
                   pe_quantidade := Js.toFixed 2 (saldoDisplay p);
                   pe_unidade := Some "L" |})
      (se_maiorQtdMl (estoque corpo));

  rv_ordem_categoriasEstoque :
    map fst (categoriasEstoqueMap rv_estoque) =
    primeirasOcorrencias String.eqb
      (map (fun p => p_categoria (origem p) ?? "")
           (filter (fun p => Js.truthy (p_categoria (origem p))) rv_estoque))
}.

(** The ranking of the sold products, which the handler takes from the
    store as it comes: a ranking, by summed base quantity, of the groups
    as the store lays them out, each shown through the product found for
    it.  The layout holds the groups of the owner's line items, one per
    product id; the ids were first met in the order of the last field. *)
Record RankingDeProdutos (peso : Z -> Z) (db : Dados) (usuarioId : string)
  (corpo : Relatorio) : Prop := {
  rp_itens := filter (itemDoUsuario db usuarioId) (receitaItemTable db);
  rp_grupos := gruposPorProduto db usuarioId;

  rp_produtosMaisVendidos :
    rankingDe 3 ordemDecimal snd (arranjoDoBanco peso rp_grupos)
      (fun g => produtoMaisVendido
                  (produtosPorId db
                     (idsVendidos (produtosVendidosAggCom peso db usuarioId)))
                  {| produtoId := fst g; sum_qtdBase := Some (snd g) |})
      (sr_produtosMaisVendidos (receitas corpo));
  rp_arranjo : Permutation (arranjoDoBanco peso rp_grupos) rp_grupos;
  rp_ordem_produtos :
    map fst rp_grupos = primeirasOcorrencias Z.eqb (map ri_produtoId rp_itens)
}.

(** The reading of the sold-products list under which products of equal
    summed quantity come in the order in which they were first met among
    the line items: the list is a ranking of the groups as first met. *)
Definition empatesComoEncontrados (db : Dados) (usuarioId : string)
  (lista : list ProdutoVendido) : Prop :=
  rankingDe 3 ordemDecimal snd (gruposPorProduto db usuarioId)
    (fun g => produtoMaisVendido
                (produtosPorId db (map fst (gruposPorProduto db usuarioId)))
                {| produtoId := fst g; sum_qtdBase := Some (snd g) |})
    lista.

(** Two products sold in equal quantity, in a store that lays the later
    one out first. *)
Definition dadosEmpate : Dados :=
  {| receitaTable := [("u", receitaEx 1 10 None None)];
     despesaTable := [];
     clienteTable := [];
     produtoTable :=
       [{| pr_usuarioId := "u"; pr_ativo := true; pr_id := 1;
           pr_nome := "A"; pr_unidadeBase := "UN";
           pr_saldoBase := 0; pr_categoria := None |};
        {| pr_usuarioId := "u"; pr_ativo := true; pr_id := 2;
           pr_nome := "B"; pr_unidadeBase := "UN";
           pr_saldoBase := 0; pr_categoria := None |}];
     receitaItemTable :=
       [{| ri_receitaId := 1; ri_produtoId := 1; ri_qtdBase := 5 |};
        {| ri_receitaId := 1; ri_produtoId := 2; ri_qtdBase := 5 |}] |}.

Definition doFimParaOComeco (id : Z) : Z := (- id)%Z.

(** Amounts that are not binary64 numbers: one, two and three tenths. *)
Definition dadosDecimos : Dados :=
  {| receitaTable :=
       [("u", receitaEx 1 (1 # 10) None None); ("u", receitaEx 2 (2 # 10) None None)];
     despesaTable := [("u", despesaEx (3 # 10) None)];
     clienteTable := [];
     produtoTable := [];
     receitaItemTable := [] |}.

(** Two scenarios: an owner with two revenue entries and one expense, and
    an owner whose client "Ana" bought twice. *)
Definition dadosTotais : Dados :=
  {| receitaTable :=
       [("u", receitaEx 1 100 None None); ("u", receitaEx 2 50 None None)];
     despesaTable := [("u", despesaEx 30 (Some "rent"))];
     clienteTable := [];
     produtoTable := [];
     receitaItemTable := [] |}.

Definition dadosAna : Dados :=
  {| receitaTable :=
       [("u", receitaEx 1 40 None (Some 1%Z)); ("u", receitaEx 2 60 None (Some 1%Z))];
     despesaTable := [];
     clienteTable := [("u", {| c_id := 1; c_nome := "Ana" |})];
     produtoTable := [];
     receitaItemTable := [] |}.

(** The client over a data set, with the store failing on the client
    count. *)
Definition prismaSemContagem (db : Dados) : PrismaClient :=
  {| receita_findMany := receita_findMany (prismaDe db);
     despesa_findMany := despesa_findMany (prismaDe db);
     cliente_findMany := cliente_findMany (prismaDe db);
     cliente_count := fun _ => Falha "connection refused";
     receitaItem_groupBy := receitaItem_groupBy (prismaDe db);
     produto_findMany := produto_findMany (prismaDe db);
     receitaItem_findMany := receitaItem_findMany (prismaDe db);
     produto_findMany_ativos := produto_findMany_ativos (prismaDe db) |}.

(* ------------------------------------------------------------------ *)
(** ** The password rules of the users router *)
(* ------------------------------------------------------------------ *)

(** [/[a-z]/.test(char)], [/[A-Z]/.test(char)], [/[0-9]/.test(char)] on
    one character. *)
Definition ehMinuscula (c : ascii) : bool :=
  let n := nat_of_ascii c in ((97 <=? n) && (n <=? 122))%nat.

Definition ehMaiuscula (c : ascii) : bool :=
  let n := nat_of_ascii c in ((65 <=? n) && (n <=? 90))%nat.

Definition ehNumero (c : ascii) : bool :=
  let n := nat_of_ascii c in ((48 <=? n) && (n <=? 57))%nat.

(** The four counters of [validaSenha]. *)
Record Contadores := {
  minusculas : Z;
  maiusculas : Z;
  numeros : Z;
  simbolos : Z
}.

(** The [for (const char of senha)] loop. *)
Fixpoint contaCaracteres (senha : string) (k : Contadores) : Contadores :=
  match senha with
  | EmptyString => k
  | String char resto =>
      contaCaracteres resto
        (if ehMinuscula char then
           {| minusculas := minusculas k + 1; maiusculas := maiusculas k;
              numeros := numeros k; simbolos := simbolos k |}
         else if ehMaiuscula char then
           {| minusculas := minusculas k; maiusculas := maiusculas k + 1;
              numeros := numeros k; simbolos := simbolos k |}
         else if ehNumero char then
           {| minusculas := minusculas k; maiusculas := maiusculas k;
              numeros := numeros k + 1; simbolos := simbolos k |}
         else
           {| minusculas := minusculas k; maiusculas := maiusculas k;
              numeros := numeros k; simbolos := simbolos k + 1 |})%Z
  end.

(** [if (cond) erros.push(msg)] *)
Definition pushSe (cond : bool) (msg : string) (erros : list string) : list string :=
  if cond then (erros ++ [msg])%list else erros.

Definition validaSenha (senha : string) : list string :=
  let erros := pushSe (Z.of_nat (String.length senha) <? 8)%Z
                 "A senha deve possuir, no mínimo, 8 caracteres" [] in
  let k := contaCaracteres senha
             {| minusculas := 0; maiusculas := 0; numeros := 0; simbolos := 0 |} in
  let erros := pushSe (minusculas k =? 0)%Z
                 "A senha deve possuir letra(s) minúscula(s)" erros in
  let erros := pushSe (maiusculas k =? 0)%Z
                 "A senha deve possuir letra(s) maiúscula(s)" erros in
  let erros := pushSe (numeros k =? 0)%Z
                 "A senha deve possuir número(s)" erros in
  let erros := pushSe (simbolos k =? 0)%Z
                 "A senha deve possuir símbolo(s)" erros in
  erros.

(** A character that is neither an ASCII letter nor a digit. *)
Definition ehSimbolo (c : ascii) : bool :=
  negb (ehMinuscula c) && negb (ehMaiuscula c) && negb (ehNumero c).

(** Some character of the string passes the test. *)
Definition temCaractere (p : ascii -> bool) (s : string) : bool :=
  existsb p (list_ascii_of_string s).

(* ------------------------------------------------------------------ *)
(** ** The totals dashboard of the users router *)
(* ------------------------------------------------------------------ *)

(** A row selected with [{ valor: true }]. *)
Record SoValor := { sv_valor : Q }.

(** The two queries of [GET /dashboard/:usuarioId]. *)
Record PrismaTotais := {
  receita_findMany_valor : string -> Resultado (list SoValor);
  despesa_findMany_valor : string -> Resultado (list SoValor)
}.

(** [res.status(200).json({ totalReceitas, totalDespesas, lucroLiquido })]
    or [res.status(500).json({ erro: error })].  What the body of the
    latter shows of the value caught is what [JSON.stringify] keeps of
    it, its own enumerable properties, none for a plain [Error]; the
    answer is kept here by its status alone. *)
Inductive RespostaDashboard :=
| Dashboard200 (t : Totais)
| Dashboard500.

Definition dashboard (prisma : PrismaTotais) (usuarioId : string)
  : RespostaDashboard :=
  match
    (receitas <- receita_findMany_valor prisma usuarioId ;;
     despesas <- despesa_findMany_valor prisma usuarioId ;;
     let totalReceitas :=
       fold_left (fun acc r => (acc + Js.Number (sv_valor r))%float) receitas 0%float in
     let totalDespesas :=
       fold_left (fun acc d => (acc + Js.Number (sv_valor d))%float) despesas 0%float in
     let lucroLiquido := (totalReceitas - totalDespesas)%float in
     Sucesso {| t_totalReceitas := totalReceitas;
                t_totalDespesas := totalDespesas;
                t_lucroLiquido := lucroLiquido |})
  with
  | Sucesso t => Dashboard200 t
  | Falha _ => Dashboard500
  end.

(** The two queries over a data set. *)
Definition prismaTotaisDe (db : Dados) : PrismaTotais :=
  {| receita_findMany_valor :=
       fun u => Sucesso (map (fun r => {| sv_valor := r_valor r |}) (receitasDe db u));
     despesa_findMany_valor :=
       fun u => Sucesso (map (fun d => {| sv_valor := d_valor d |}) (despesasDe db u)) |}.

(* ------------------------------------------------------------------ *)
(** ** The clients router *)
(* ------------------------------------------------------------------ *)

(** A revenue entry as [clienteInfosAdicionais] reads it: [valorTotal]
    and [valor], either of which may be missing. *)
Record ReceitaAny := {
  ra_valorTotal : option Q;
  ra_valor : option Q
}.

(** The client object ([cliente: any]): [receitas] is [None] when the
    field is not an array. *)
Record ClienteAny := {
  ca_id : Z;
  ca_nome : string;
  ca_receitas : option (list ReceitaAny)
}.

(** [{ ...cliente, totalGasto, totalCompras }] *)
Record ClienteComTotais := {
  ct_cliente : ClienteAny;
  ct_totalGasto : float;
  ct_totalCompras : Z
}.

(** [receita.valorTotal ?? receita.valor ?? 0] *)
Definition valorDaReceita (receita : ReceitaAny) : Q :=
  match ra_valorTotal receita with
  | Some v => v
  | None => ra_valor receita ?? 0%Q
  end.

Definition clienteInfosAdicionais (cliente : ClienteAny) : ClienteComTotais :=
  let receitasDoCliente := ca_receitas cliente ?? [] in
  let totalGasto :=
    fold_left
      (fun acumulado receita => (acumulado + Js.Number (valorDaReceita receita))%float)
      receitasDoCliente 0%float in
  let totalCompras := Js.len receitasDoCliente in
  {| ct_cliente := cliente; ct_totalGasto := totalGasto;
     ct_totalCompras := totalCompras |}.

(** The body of [GET /clientes/dashboard/:usuarioId]. *)
Record DashboardClientes := {
  dc_totalClientes : Z;
  dc_totalGastoGeral : float;
  dc_totalComprasGeral : Z;
  dc_clientes : list ClienteComTotais
}.

Inductive RespostaClientes :=
| Clientes200 (corpo : DashboardClientes)
| Clientes500 (erro : string).

(** [cliente_findMany] stands for
    [cliente.findMany({ where: { usuarioId }, include: { receitas },
    orderBy: { updatedAt: "desc" } })]. *)
Definition clientesDashboard
  (cliente_findMany : string -> Resultado (list ClienteAny)) (usuarioId : string)
  : RespostaClientes :=
  match cliente_findMany usuarioId with
  | Sucesso clientes =>
      let clientesComTotais := map clienteInfosAdicionais clientes in
      Clientes200
        {| dc_totalClientes := Js.len clientesComTotais;
           dc_totalGastoGeral :=
             fold_left (fun acc c => (acc + (Some (ct_totalGasto c) ?? 0))%float)
                       clientesComTotais 0%float;
           dc_totalComprasGeral :=
             fold_left (fun acc c => (acc + (Some (ct_totalCompras c) ?? 0))%Z)
                       clientesComTotais 0%Z;
           dc_clientes := clientesComTotais |}
  | Falha _ => Clientes500 "Erro ao buscar dashboard de clientes"
  end.

(** The rows of [GET /clientes/top/10/:usuarioId]: clients with their
    revenue entries and the items of each. *)
Record ItemSubtotal := { subtotal : Q }.
Record ReceitaComItens := { itens : list ItemSubtotal }.
Record ClienteComReceitas := {
  cli_id : Z;
  cli_nome : string;
  cli_receitas : list ReceitaComItens
}.

(** [{ id, nome, totalGasto }] *)
Record ClienteTop := {
  top_id : Z;
  top_nome : string;
  top_totalGasto : float
}.

Inductive RespostaTop10 :=
| Top200 (top10 : list ClienteTop)
| Top500 (erro : string).

Definition totalGastoEmItens (cliente : ClienteComReceitas) : float :=
  fold_left
    (fun acc receita =>
       let somaReceita :=
         fold_left (fun soma item => (soma + Js.Number (subtotal item))%float)
                   (itens receita) 0%float in
       (acc + somaReceita)%float)
    (cli_receitas cliente) 0%float.

Definition clientesComTotaisTop (clientes : list ClienteComReceitas)
  : list ClienteTop :=
  map (fun cliente =>
         {| top_id := cli_id cliente; top_nome := cli_nome cliente;
            top_totalGasto := totalGastoEmItens cliente |})
      clientes.

Definition top10Clientes
  (cliente_findMany : string -> Resultado (list ClienteComReceitas))
  (usuarioId : string) : RespostaTop10 :=
  match cliente_findMany usuarioId with
  | Sucesso clientes =>
      Top200
        (Js.slice0 10
           (Js.sort (fun a b => (top_totalGasto b - top_totalGasto a)%float)
                    (clientesComTotaisTop clientes)))
  | Falha _ => Top500 "Erro ao listar top 10 clientes"
  end.

(* ------------------------------------------------------------------ *)
(** ** Vocabulary of the further statements *)
(* ------------------------------------------------------------------ *)

(** The revenue entry refers to client [id]. *)
Definition doCliente (id : Z) (r : Receita) : bool :=
  match r_clienteId r with
  | Some i => (i =? id)%Z
  | None => false
  end.

(** The revenue entry has no line item in the data set. *)
Definition semItens (db : Dados) (r : Receita) : bool :=
  negb (existsb (fun it => (ri_receitaId it =? r_id r)%Z) (receitaItemTable db)).

(** Two data sets that differ at most in the revenue and expense rows of
    owners other than [usuarioId]. *)
Definition mesmasLinhasDe (usuarioId : string) (db db' : Dados) : Prop :=
  filter (doUsuario usuarioId) (receitaTable db) =
    filter (doUsuario usuarioId) (receitaTable db') /\
  filter (doUsuario usuarioId) (despesaTable db) =
    filter (doUsuario usuarioId) (despesaTable db') /\
  clienteTable db = clienteTable db' /\
  produtoTable db = produtoTable db' /\
  receitaItemTable db = receitaItemTable db'.

(** [dadosEx] without the revenue entry of owner "v", and with an expense
    of that owner. *)
Definition dadosExSemV : Dados :=
  {| receitaTable :=
       [("u", receitaEx 1 100 (Some "a") None);
        ("u", receitaEx 2 50 (Some "") (Some 7%Z));
        ("u", receitaEx 4 60 (Some "b") (Some 7%Z));
        ("u", receitaEx 5 5 (Some "b") (Some 2%Z))];
     despesaTable :=
       [("u", despesaEx 30 (Some "rent"));
        ("v", despesaEx 1000 (Some "rent"));
        ("u", despesaEx 3 (Some ""));
        ("u", despesaEx 4 None)];
     clienteTable := clienteTable dadosEx;
     produtoTable := produtoTable dadosEx;
     receitaItemTable := receitaItemTable dadosEx |}.

(** The report of an owner without records. *)
Definition relatorioVazio : Relatorio :=
  {| totais :=
       {| t_totalReceitas := 0; t_totalDespesas := 0; t_lucroLiquido := 0 |};
     receitas :=
       {| sr_categoriasMaisVendidas := []; sr_produtosMaisVendidos := [];
          sr_totalVendas := 0; sr_valorTotalVendas := 0;
          sr_vendasSemItens := 0; sr_vendasSemAnexo := 0 |};
     despesas :=
       {| sd_categoriasMaisDespesas := []; sd_valorGastoCategorias := [];
          sd_despesasSemAnexo := 0 |};
     clientes :=
       {| sc_clientesQueMaisGastaram := []; sc_clientesComMaisCompras := [];
          sc_totalClientesRegistrados := 0 |};
     estoque :=
       {| se_categoriasEstoque := []; se_maiorQtdUnidade := [];
          se_maiorQtdKg := []; se_maiorQtdMl := [] |} |}.

(* ------------------------------------------------------------------ *)
(** * Properties *)
(* ------------------------------------------------------------------ *)

(** ** Scenarios *)

Example cenario_totais :
  exists corpo,
    relatorio (prismaDe dadosTotais) "u" = Resposta200 corpo /\
    totais corpo =
      {| t_totalReceitas := 150; t_totalDespesas := 30; t_lucroLiquido := 120 |} /\
    sd_categoriasMaisDespesas (despesas corpo) =
      [{| cc_categoria := "rent"; cc_contagem := 1 |}].
Proof. eexists. repeat split. Qed.

Example cenario_Ana :
  exists corpo,
    relatorio (prismaDe dadosAna) "u" = Resposta200 corpo /\
    sc_clientesQueMaisGastaram (clientes corpo) =
      [{| cr_nome := "Ana"; cr_totalGasto := 100; cr_contagem := 2 |}].
Proof. eexists. repeat split. Qed.

(** An owner without records: every total is 0 and every list is empty. *)
Example cenario_vazio :
  relatorio (prismaDe dadosTotais) "ninguem" =
  Resposta200
    {| totais :=
         {| t_totalReceitas := 0; t_totalDespesas := 0; t_lucroLiquido := 0 |};
       receitas :=
         {| sr_categoriasMaisVendidas := []; sr_produtosMaisVendidos := [];
            sr_totalVendas := 0; sr_valorTotalVendas := 0;
            sr_vendasSemItens := 0; sr_vendasSemAnexo := 0 |};
       despesas :=
         {| sd_categoriasMaisDespesas := []; sd_valorGastoCategorias := [];
            sd_despesasSemAnexo := 0 |};
       clientes :=
         {| sc_clientesQueMaisGastaram := []; sc_clientesComMaisCompras := [];
            sc_totalClientesRegistrados := 0 |};
       estoque :=
         {| se_categoriasEstoque := []; se_maiorQtdUnidade := [];
            se_maiorQtdKg := []; se_maiorQtdMl := [] |} |}.
Proof. reflexivity. Qed.

(** Ties keep the order of the input: "a" and "c" both count 1, "b" and
    "d" both count 3. *)
Example sort_empates :
  Js.sort (fun '(_, a) '(_, b) => (b - a)%Z)
          [("a", 1%Z); ("b", 3%Z); ("c", 1%Z); ("d", 3%Z); ("e", 2%Z)] =
  [("b", 3%Z); ("d", 3%Z); ("e", 2%Z); ("a", 1%Z); ("c", 1%Z)].
Proof. reflexivity. Qed.

(** A difference with NaN is NaN, which is not positive: the sort moves
    nothing past or before an entry whose aggregate is not a number. *)
Example sort_NaN :
  Js.sort (fun a b => (b - a)%float) [1%float; PrimFloat.nan; 2%float] =
  [1%float; PrimFloat.nan; 2%float].
Proof. reflexivity. Qed.

(** The store failing on one query: the generic answer, whatever the
    other queries returned. *)
Example cenario_falha :
  relatorio (prismaSemContagem dadosEx) "u" = Resposta500 "Erro ao gerar relatório".
Proof. reflexivity. Qed.

(** The sold products are ranked on the summed base quantity, not on the
    quantity shown: 5000 g before 40 units, shown as 5 kg before 40 un. *)
Example cenario_produtos :
  exists corpo,
    relatorio (prismaDe dadosEx) "u" = Resposta200 corpo /\
    map sum_qtdBase (produtosVendidosAggDe dadosEx "u") = [Some 5000; Some 40] /\
    map pv_quantidade (sr_produtosMaisVendidos (receitas corpo)) = [5; 40]%float /\
    map pv_unidade (sr_produtosMaisVendidos (receitas corpo)) = ["kg"; "un"].
Proof. eexists. repeat split. Qed.

(** The totals are sums of binary64 numbers: one, two and three tenths
    are read as the numbers nearest to them, and the profit of two
    revenue entries of 0.1 and 0.2 against an expense of 0.3 is 2^-54. *)
Example cenario_binary64 :
  exists corpo,
    relatorio (prismaDe dadosDecimos) "u" = Resposta200 corpo /\
    t_totalReceitas (totais corpo) = (Js.Number (1 # 10) + Js.Number (2 # 10))%float /\
    t_totalDespesas (totais corpo) = Js.Number (3 # 10) /\
    t_lucroLiquido (totais corpo) = 0x1p-54%float.
Proof. eexists. repeat split. Qed.

(** [toFixed] rounds the binary64 number, not the decimal it came from:
    1005 g are 1.00 kg and 2675 g are 2.67 kg, while 2500 g are 2.5 kg. *)
Example toFixed_exemplos :
  Js.toFixed 2 (Js.Number 1005 / 1000) = 1%float /\
  Js.toFixed 2 (Js.Number 2675 / 1000) = Js.Number (267 # 100) /\
  Js.toFixed 2 (Js.Number 2500 / 1000) = 2.5%float /\
  Js.toFixed 0 2.5 = 3%float /\
  Js.toFixed 2 (Js.Number (1234 # 1000) + Js.Number (1 # 1000)) = Js.Number (123 # 100).
Proof. repeat split. Qed.

(** ** Binary64 numbers in order *)

(** The comparisons of the runtime are those of the specification of
    binary64 arithmetic; what follows reads off it that numbers other
    than NaN are totally ordered, and that the sign of a difference
    tells which of two numbers is greater, since a difference that is
    not zero is never rounded to zero. *)
Module Binario64.
Import SpecFloat FloatOps.

Local Open Scope Z_scope.

Lemma digits2_pos_limites (m : positive) :
  2 ^ (Zpos (digits2_pos m) - 1) <= Zpos m < 2 ^ Zpos (digits2_pos m).
Proof.
  induction m as [m IH | m IH |]; simpl digits2_pos.
  - rewrite Pos2Z.inj_succ.
    replace (Z.succ (Zpos (digits2_pos m)) - 1) with (Z.succ (Zpos (digits2_pos m) - 1)) by lia.
    rewrite !Z.pow_succ_r by lia. lia.
  - rewrite Pos2Z.inj_succ.
    replace (Z.succ (Zpos (digits2_pos m)) - 1) with (Z.succ (Zpos (digits2_pos m) - 1)) by lia.
    rewrite !Z.pow_succ_r by lia. lia.
  - simpl. lia.
Qed.

Lemma iter_xO (m d : positive) : Zpos (Pos.iter xO m d) = Zpos m * 2 ^ Zpos d.
Proof.
  induction d as [| d IH] using Pos.peano_ind.
  - simpl. lia.
  - rewrite Pos.iter_succ, Pos2Z.inj_succ, Z.pow_succ_r by lia.
    change (Zpos (Pos.iter xO m d)~0) with (2 * Zpos (Pos.iter xO m d)).
    rewrite IH. lia.
Qed.

Lemma shl_align_valor (m : positive) (e e' : Z) :
  e' <= e -> Zpos (fst (shl_align m e e')) = Zpos m * 2 ^ (e - e').
Proof.
  intro H. unfold shl_align.
  destruct (e' - e) as [| p | p] eqn:E; simpl fst.
  - replace (e - e') with 0 by lia. simpl. lia.
  - lia.
  - rewrite iter_xO. f_equal. f_equal. lia.
Qed.

Lemma shl_align_expoente (m : positive) (e e' : Z) :
  snd (shl_align m e e') = Z.min e e'.
Proof.
  unfold shl_align. destruct (e' - e) as [| p | p] eqn:E; simpl snd; lia.
Qed.

(** What validity says of a finite number. *)
Lemma bounded_limites (m : positive) (e : Z) :
  bounded prec emax m e = true ->
  -1074 <= e /\ Zpos (digits2_pos m) <= 53 /\
  (-1074 < e -> Zpos (digits2_pos m) = 53).
Proof.
  unfold bounded, canonical_mantissa, fexp, SpecFloat.emin, prec, emax.
  intro H. apply andb_true_iff in H. destruct H as [H _].
  apply Z.eqb_eq in H. lia.
Qed.

Lemma shr_1_m (r : shr_record) :
  0 <= shr_m r -> shr_m (shr_1 r) = shr_m r / 2.
Proof.
  destruct r as [m r s]. simpl. intro H.
  destruct m as [| [p | p |] | p]; simpl shr_m;
    [ reflexivity
    | apply (Z.div_unique (Zpos p~1) 2 (Zpos p) 1); lia
    | apply (Z.div_unique (Zpos p~0) 2 (Zpos p) 0); lia
    | reflexivity
    | lia ].
Qed.

Lemma iter_shr_m (q : positive) (r : shr_record) :
  0 <= shr_m r ->
  shr_m (iter_pos shr_1 q r) = shr_m r / 2 ^ Zpos q.
Proof.
  revert r. induction q as [q IH | q IH |]; intros r H; simpl iter_pos.
  - assert (0 <= shr_m (shr_1 r)) as H1
        by (rewrite shr_1_m by exact H; apply Z.div_pos; lia).
    assert (0 <= shr_m (iter_pos shr_1 q (shr_1 r))) as H2
        by (rewrite IH by exact H1; apply Z.div_pos; [exact H1 | apply Z.pow_pos_nonneg; lia]).
    rewrite IH by exact H2. rewrite IH by exact H1. rewrite shr_1_m by exact H.
    rewrite !Z.div_div by (try apply Z.pow_pos_nonneg; lia).
    f_equal. replace (Zpos q~1) with (1 + Zpos q + Zpos q) by lia.
    rewrite !Z.pow_add_r by lia. change (2 ^ 1) with 2. lia.
  - assert (0 <= shr_m (iter_pos shr_1 q r)) as H2
        by (rewrite IH by exact H; apply Z.div_pos; [exact H | apply Z.pow_pos_nonneg; lia]).
    rewrite IH by exact H2. rewrite IH by exact H.
    rewrite !Z.div_div by (try apply Z.pow_pos_nonneg; lia).
    f_equal. replace (Zpos q~0) with (Zpos q + Zpos q) by lia.
    rewrite !Z.pow_add_r by lia. lia.
  - rewrite shr_1_m by exact H. reflexivity.
Qed.

Lemma shr_record_of_loc_m (m : Z) (l : location) : shr_m (shr_record_of_loc m l) = m.
Proof. destruct l as [| []]; reflexivity. Qed.

(** Shifting a positive mantissa into place never shifts it away. *)
Lemma shr_fexp_positivo (m : positive) (e : Z) (l : location) :
  -1074 <= e ->
  0 < shr_m (fst (shr_fexp prec emax (Zpos m) e l)) /\
  -1074 <= snd (shr_fexp prec emax (Zpos m) e l).
Proof.
  intro He. unfold shr_fexp, shr, fexp, SpecFloat.emin, prec, emax. simpl Zdigits2.
  destruct (Z.max (Zpos (digits2_pos m) + e - 53) (3 - 1024 - 53) - e) as [| q | q] eqn:E;
    simpl fst; simpl snd.
  - rewrite shr_record_of_loc_m. lia.
  - rewrite iter_shr_m by (rewrite shr_record_of_loc_m; lia).
    rewrite shr_record_of_loc_m. split; [| lia].
    apply Z.div_str_pos. split; [apply Z.pow_pos_nonneg; lia |].
    pose proof (digits2_pos_limites m) as [Hd _].
    apply Z.le_trans with (2 ^ (Zpos (digits2_pos m) - 1)); [| exact Hd].
    apply Z.pow_le_mono_r; lia.
  - rewrite shr_record_of_loc_m. lia.
Qed.

Lemma round_nearest_even_positivo (m : Z) (l : location) :
  0 < m -> 0 < round_nearest_even m l.
Proof.
  intro H. unfold round_nearest_even.
  destruct l as [| []]; try lia. destruct (Z.even m); lia.
Qed.

(** A positive integer is rounded to a positive number or to infinity. *)
Lemma binary_round_aux_sinal (s : bool) (m : positive) (e : Z) (l : location) :
  -1074 <= e ->
  (exists m' e', binary_round_aux prec emax s (Zpos m) e l = S754_finite s m' e') \/
  binary_round_aux prec emax s (Zpos m) e l = S754_infinity s.
Proof.
  intro He. unfold binary_round_aux.
  destruct (shr_fexp_positivo m e l He) as [H1 H1e].
  destruct (shr_fexp prec emax (Zpos m) e l) as [mrs' e'] eqn:E1.
  simpl fst in H1. simpl snd in H1e.
  pose proof (round_nearest_even_positivo _ (loc_of_shr_record mrs') H1) as H2.
  destruct (round_nearest_even (shr_m mrs') (loc_of_shr_record mrs')) as [| m1 |] eqn:E2;
    try lia.
  destruct (shr_fexp_positivo m1 e' loc_Exact H1e) as [H3 _].
  destruct (shr_fexp prec emax (Zpos m1) e' loc_Exact) as [mrs'' e''] eqn:E3.
  simpl fst in H3.
  destruct (shr_m mrs'') as [| m2 |]; try lia.
  destruct (e'' <=? emax - prec); [left; now exists m2, e'' | now right].
Qed.

Lemma binary_round_sinal (s : bool) (m : positive) (e : Z) :
  -1074 <= e ->
  (exists m' e', binary_round prec emax s m e = S754_finite s m' e') \/
  binary_round prec emax s m e = S754_infinity s.
Proof.
  intro He. unfold binary_round.
  pose proof (shl_align_expoente m e (fexp prec emax (Zpos (digits2_pos m) + e))) as Hs.
  destruct (shl_align m e (fexp prec emax (Zpos (digits2_pos m) + e))) as [mz ez].
  simpl snd in Hs. apply binary_round_aux_sinal.
  unfold fexp, SpecFloat.emin, prec, emax in Hs. lia.
Qed.


(** The order of two valid finite numbers is the sign of the difference
    of their mantissas, once brought to the smaller exponent. *)
Lemma SFcompare_alinhado (sx sy : bool) (mx my : positive) (ex ey : Z) :
  bounded prec emax mx ex = true -> bounded prec emax my ey = true ->
  SFcompare (S754_finite sy my ey) (S754_finite sx mx ex) =
  Some (cond_Zopp sy (Zpos (fst (shl_align my ey (Z.min ey ex))))
        - cond_Zopp sx (Zpos (fst (shl_align mx ex (Z.min ey ex)))) ?= 0).
Proof.
  intros Hx Hy.
  apply bounded_limites in Hx. apply bounded_limites in Hy.
  destruct Hx as [Hx1 [Hx2 Hx3]]. destruct Hy as [Hy1 [Hy2 Hy3]].
  pose proof (digits2_pos_limites mx) as [Hmx1 Hmx2].
  pose proof (digits2_pos_limites my) as [Hmy1 Hmy2].
  rewrite !shl_align_valor by lia.
  assert (Zpos mx < 2 ^ 53) as Bx
      by (eapply Z.lt_le_trans; [exact Hmx2 | apply Z.pow_le_mono_r; lia]).
  assert (Zpos my < 2 ^ 53) as By
      by (eapply Z.lt_le_trans; [exact Hmy2 | apply Z.pow_le_mono_r; lia]).
  assert (forall a b, a < b -> 2 <= 2 ^ (b - a)) as Hpow.
  { intros a b H. change 2 with (2 ^ 1) at 1. apply Z.pow_le_mono_r; lia. }
  change (2 ^ 53) with (2 ^ 52 * 2) in Bx, By.
  simpl SFcompare. f_equal.
  destruct (Z.compare_spec ey ex) as [E | E | E].
  - subst ey. rewrite Z.min_id, Z.sub_diag. change (2 ^ 0) with 1.
    rewrite !Z.mul_1_r.
    destruct sy, sx; unfold cond_Zopp; cbv iota; symmetry.
    + rewrite <- Z.compare_sub. change (Z.neg my ?= Z.neg mx) with (CompOpp (my ?= mx)%positive).
      reflexivity.
    + apply Z.compare_lt_iff. lia.
    + apply Z.compare_gt_iff. lia.
    + rewrite <- Z.compare_sub. reflexivity.
  - assert (2 ^ 52 <= Zpos mx) as Lx by (rewrite Hx3 in Hmx1 by lia; exact Hmx1).
    pose proof (Hpow ey ex E) as HP.
    replace (Z.min ey ex) with ey by lia. rewrite Z.sub_diag. change (2 ^ 0) with 1.
    rewrite Z.mul_1_r.
    assert (2 ^ 52 * 2 <= Zpos mx * 2 ^ (ex - ey)) as Hbig
        by (apply Z.mul_le_mono_nonneg; lia).
    destruct sy, sx; unfold cond_Zopp; cbv iota; symmetry;
      first [apply Z.compare_lt_iff; lia | apply Z.compare_gt_iff; lia].
  - assert (2 ^ 52 <= Zpos my) as Ly by (rewrite Hy3 in Hmy1 by lia; exact Hmy1).
    pose proof (Hpow ex ey E) as HP.
    replace (Z.min ey ex) with ex by lia. rewrite Z.sub_diag. change (2 ^ 0) with 1.
    rewrite Z.mul_1_r.
    assert (2 ^ 52 * 2 <= Zpos my * 2 ^ (ey - ex)) as Hbig
        by (apply Z.mul_le_mono_nonneg; lia).
    destruct sy, sx; unfold cond_Zopp; cbv iota; symmetry;
      first [apply Z.compare_lt_iff; lia | apply Z.compare_gt_iff; lia].
Qed.

(** The sign of a difference tells which number is greater. *)
Lemma SFsub_sinal (x y : spec_float) :
  valid_binary prec emax x = true -> valid_binary prec emax y = true ->
  x <> S754_nan -> y <> S754_nan ->
  SFltb (S754_zero false) (SFsub prec emax y x) = negb (SFleb y x).
Proof.
  intros Vx Vy Nx Ny.
  destruct x as [sx | sx | | sx mx ex]; [| | contradiction |];
    (destruct y as [sy | sy | | sy my ey]; [| | contradiction |]);
    try solve [clear; repeat match goal with b : bool |- _ => destruct b end;
               reflexivity].
  simpl in Vx, Vy. unfold SFleb, SFsub.
    rewrite (SFcompare_alinhado sx sy mx my ex ey Vx Vy).
    pose proof (bounded_limites _ _ Vx) as [Hx1 _].
    pose proof (bounded_limites _ _ Vy) as [Hy1 _].
    cbv zeta.
    destruct (cond_Zopp sy (Zpos (fst (shl_align my ey (Z.min ey ex))))
              - cond_Zopp sx (Zpos (fst (shl_align mx ex (Z.min ey ex)))))
    as [| d | d]; simpl binary_normalize.
  - reflexivity.
  - destruct (binary_round_sinal false d (Z.min ey ex)) as [[m' [e' ->]] | ->];
      [lia | reflexivity | reflexivity].
  - destruct (binary_round_sinal true d (Z.min ey ex)) as [[m' [e' ->]] | ->];
      [lia | reflexivity | reflexivity].
Qed.


Lemma SFcompare_lex (x y : spec_float) :
  x <> S754_nan -> y <> S754_nan ->
  SFcompare x y = Some (lexicografica (chave x) (chave y)).
Proof.
  intros Nx Ny.
  destruct x as [sx | sx | | sx mx ex]; [| | contradiction |];
    (destruct y as [sy | sy | | sy my ey]; [| | contradiction |]);
    try solve [clear; repeat match goal with b : bool |- _ => destruct b end;
               reflexivity].
  destruct sx, sy; simpl; f_equal; try reflexivity.
  rewrite Z.compare_opp, (Z.compare_antisym ex ey).
  destruct (ex ?= ey); reflexivity.
Qed.

Lemma lex_menor_igual (a b : Z * Z * Z) :
  lexicografica a b <> Gt <->
  let '(a1, a2, a3) := a in
  let '(b1, b2, b3) := b in
  a1 < b1 \/ (a1 = b1 /\ (a2 < b2 \/ (a2 = b2 /\ a3 <= b3))).
Proof.
  destruct a as [[a1 a2] a3], b as [[b1 b2] b3]. unfold lexicografica.
  destruct (Z.compare_spec a1 b1), (Z.compare_spec a2 b2), (Z.compare_spec a3 b3);
    split; intro Hh; try lia; try discriminate; try (exfalso; now apply Hh).
Qed.

Lemma lex_igual (a b : Z * Z * Z) : lexicografica a b = Eq <-> a = b.
Proof.
  destruct a as [[a1 a2] a3], b as [[b1 b2] b3]. unfold lexicografica.
  destruct (Z.compare_spec a1 b1), (Z.compare_spec a2 b2), (Z.compare_spec a3 b3);
    split; intro Hh; try discriminate; try (injection Hh; intros; lia);
    try reflexivity; subst; reflexivity.
Qed.

Lemma SFleb_lex (x y : spec_float) :
  x <> S754_nan -> y <> S754_nan ->
  SFleb x y = true <-> lexicografica (chave x) (chave y) <> Gt.
Proof.
  intros Nx Ny. unfold SFleb. rewrite (SFcompare_lex x y Nx Ny).
  destruct (lexicografica (chave x) (chave y)); split; intro H;
    try reflexivity; try discriminate; try (exfalso; now apply H).
Qed.

Lemma SFeqb_lex (x y : spec_float) :
  x <> S754_nan -> y <> S754_nan ->
  SFeqb x y = true <-> chave x = chave y.
Proof.
  intros Nx Ny. unfold SFeqb. rewrite (SFcompare_lex x y Nx Ny), <- lex_igual.
  destruct (lexicografica (chave x) (chave y)); split; intro H;
    try reflexivity; discriminate.
Qed.

Lemma SFleb_total (x y : spec_float) :
  x <> S754_nan -> y <> S754_nan ->
  SFleb y x = false -> SFleb x y = true.
Proof.
  intros Nx Ny H. apply (SFleb_lex x y Nx Ny). apply lex_menor_igual.
  assert (~ lexicografica (chave y) (chave x) <> Gt) as Hn.
  { intro Hle. apply (SFleb_lex y x Ny Nx) in Hle. congruence. }
  rewrite lex_menor_igual in Hn.
  destruct (chave x) as [[a1 a2] a3], (chave y) as [[b1 b2] b3]. lia.
Qed.

Lemma SFleb_trans (x y z : spec_float) :
  x <> S754_nan -> y <> S754_nan -> z <> S754_nan ->
  SFleb y x = true -> SFleb z y = true -> SFleb z x = true.
Proof.
  intros Nx Ny Nz H1 H2.
  apply (SFleb_lex y x Ny Nx) in H1. apply (SFleb_lex z y Nz Ny) in H2.
  apply (SFleb_lex z x Nz Nx).
  rewrite lex_menor_igual in *.
  destruct (chave x) as [[a1 a2] a3], (chave y) as [[b1 b2] b3],
    (chave z) as [[c1 c2] c3]. lia.
Qed.

Lemma SFeqb_SFleb (x y z : spec_float) :
  x <> S754_nan -> y <> S754_nan -> z <> S754_nan ->
  SFeqb x z = true -> SFeqb y z = true -> SFleb y x = true.
Proof.
  intros Nx Ny Nz H1 H2.
  apply (SFeqb_lex x z Nx Nz) in H1. apply (SFeqb_lex y z Ny Nz) in H2.
  apply (SFleb_lex y x Ny Nx). rewrite H1, H2.
  apply lex_menor_igual. destruct (chave z) as [[c1 c2] c3]. lia.
Qed.

Lemma naoNaN_Prim2SF (x : float) :
  (x =? x)%float = true -> Prim2SF x <> S754_nan.
Proof.
  rewrite FloatAxioms.eqb_spec. intros H E. rewrite E in H. discriminate H.
Qed.

End Binario64.

(** The comparisons of binary64 numbers, none of them NaN. *)
Lemma leis_binary64 (x y z : float) :
  (x =? x)%float = true -> (y =? y)%float = true -> (z =? z)%float = true ->
  (0 <? y - x)%float = negb (y <=? x)%float /\
  ((y <=? x)%float = false -> (x <=? y)%float = true) /\
  ((y <=? x)%float = true -> (z <=? y)%float = true -> (z <=? x)%float = true) /\
  ((x =? z)%float = true -> (y =? z)%float = true -> (y <=? x)%float = true).
Proof.
  intros Nx Ny Nz.
  apply Binario64.naoNaN_Prim2SF in Nx, Ny, Nz.
  rewrite !FloatAxioms.ltb_spec, !FloatAxioms.leb_spec, !FloatAxioms.eqb_spec,
    FloatAxioms.sub_spec.
  split; [| split; [| split]].
  - apply Binario64.SFsub_sinal; try assumption; apply FloatAxioms.Prim2SF_valid.
  - now apply Binario64.SFleb_total.
  - now apply Binario64.SFleb_trans.
  - now apply Binario64.SFeqb_SFleb.
Qed.

(** ** [sort] rearranges, whatever the comparator *)

Section Rearranjo.
Context {A N : Type} `{Js.Sinal N} (cmp : A -> A -> N).

Lemma insere_perm (x : A) (l : list A) :
  Permutation (Js.insere cmp x l) (x :: l).
Proof.
  induction l as [| y l IH]; simpl.
  - reflexivity.
  - destruct (Js.positivo (cmp x y)).
    + rewrite IH. apply perm_swap.
    + reflexivity.
Qed.

Lemma sort_perm (l : list A) : Permutation (Js.sort cmp l) l.
Proof.
  induction l as [| x l IH]; simpl.
  - reflexivity.
  - rewrite insere_perm. now apply perm_skip.
Qed.

Lemma insere_Forall (P : A -> Prop) (x : A) (l : list A) :
  P x -> Forall P l -> Forall P (Js.insere cmp x l).
Proof.
  intros Hx Hl. induction Hl as [| y l Hy Hl IH]; simpl.
  - now constructor.
  - destruct (Js.positivo (cmp x y)); repeat constructor; assumption.
Qed.

Lemma sort_Forall (P : A -> Prop) (l : list A) :
  Forall P l -> Forall P (Js.sort cmp l).
Proof.
  induction 1 as [| x l Hx Hl IH]; simpl.
  - constructor.
  - now apply insere_Forall.
Qed.

Lemma slice_sort_In (n : nat) (l : list A) (x : A) :
  In x (Js.slice0 n (Js.sort cmp l)) -> In x l.
Proof.
  intro Hin. unfold Js.slice0 in Hin.
  apply (Permutation_in x (sort_perm l)).
  rewrite <- (firstn_skipn n (Js.sort cmp l)). apply in_or_app. now left.
Qed.

Lemma slice_sort_all (n : nat) (l : list A) (x : A) :
  (List.length l <= n)%nat -> In x l -> In x (Js.slice0 n (Js.sort cmp l)).
Proof.
  intros Hlen Hin. unfold Js.slice0. rewrite firstn_all2.
  - apply (Permutation_in x (Permutation_sym (sort_perm l)) Hin).
  - now rewrite (Permutation_length (sort_perm l)).
Qed.

Lemma slice_sort_perm (n : nat) (l : list A) :
  (List.length l <= n)%nat -> Permutation (Js.slice0 n (Js.sort cmp l)) l.
Proof.
  intro Hlen. unfold Js.slice0. rewrite firstn_all2.
  - apply sort_perm.
  - now rewrite (Permutation_length (sort_perm l)).
Qed.

End Rearranjo.

(** ** [sort] followed by [slice(0, n)] is a stable top-[n] *)

(** The comparator [cmp] goes by the aggregate [agg], and on the entries
    that satisfy [P] the order [o] of the aggregates is consistent. *)
Section Ordenacao.
Context {A N K : Type} `{Js.Sinal N}.
Context (o : Ordem K) (agg : A -> K) (cmp : A -> A -> N) (P : A -> Prop).

Hypothesis cmp_sinal : forall a b, P a -> P b ->
  Js.positivo (cmp a b) = negb (menorIgual o (agg b) (agg a)).
Hypothesis ordem_total : forall a b, P a -> P b ->
  menorIgual o (agg b) (agg a) = false -> menorIgual o (agg a) (agg b) = true.
Hypothesis ordem_trans : forall a b c, P a -> P b -> P c ->
  menorIgual o (agg b) (agg a) = true -> menorIgual o (agg c) (agg b) = true ->
  menorIgual o (agg c) (agg a) = true.
Hypothesis ordem_empate : forall a b c, P a -> P b -> P c ->
  igual o (agg a) (agg c) = true -> igual o (agg b) (agg c) = true ->
  menorIgual o (agg b) (agg a) = true.

Lemma insere_decrescente (x : A) (l : list A) :
  P x -> Forall P l ->
  decrescente o agg l -> decrescente o agg (Js.insere cmp x l).
Proof.
  unfold decrescente. intros Hx Hl Hs.
  induction Hs as [| y l Hs IH Hy]; simpl.
  - repeat constructor.
  - inversion Hl as [| ? ? Py Pl]; subst.
    destruct (Js.positivo (cmp x y)) eqn:E.
    + constructor; [now apply IH |].
      apply insere_Forall; [| exact Hy].
      rewrite (cmp_sinal x y Hx Py) in E. apply negb_true_iff in E.
      now apply ordem_total.
    + rewrite (cmp_sinal x y Hx Py) in E. apply negb_false_iff in E.
      constructor; [now constructor |].
      constructor; [exact E |].
      rewrite Forall_forall in *. intros b Hb.
      apply (ordem_trans x y b Hx Py (Pl b Hb) E). now apply Hy.
Qed.

Lemma sort_decrescente (l : list A) :
  Forall P l -> decrescente o agg (Js.sort cmp l).
Proof.
  induction 1 as [| x l Hx Hl IH]; simpl.
  - constructor.
  - apply insere_decrescente; [exact Hx | now apply sort_Forall | exact IH].
Qed.

(** Inserting [x] never moves it past an entry of the same aggregate. *)
Lemma filter_insere (c x : A) (l : list A) :
  P c -> P x -> Forall P l ->
  filter (empata o agg (agg c)) (Js.insere cmp x l) =
  if empata o agg (agg c) x then x :: filter (empata o agg (agg c)) l
  else filter (empata o agg (agg c)) l.
Proof.
  intros Hc Hx Hl. induction Hl as [| y l Py Pl IH]; simpl.
  - reflexivity.
  - destruct (Js.positivo (cmp x y)) eqn:E; simpl.
    + rewrite IH.
      destruct (empata o agg (agg c) x) eqn:Ex; [| reflexivity].
      destruct (empata o agg (agg c) y) eqn:Ey; [exfalso | reflexivity].
      rewrite (cmp_sinal x y Hx Py) in E. apply negb_true_iff in E.
      unfold empata in Ex, Ey.
      rewrite (ordem_empate x y c Hx Py Hc Ex Ey) in E. discriminate E.
    + reflexivity.
Qed.

Lemma sort_estavel (c : A) (l : list A) :
  P c -> Forall P l ->
  filter (empata o agg (agg c)) (Js.sort cmp l) = filter (empata o agg (agg c)) l.
Proof.
  intros Hc Hl. induction Hl as [| x l Hx Hl IH]; simpl.
  - reflexivity.
  - rewrite filter_insere; [| exact Hc | exact Hx | now apply sort_Forall].
    now rewrite IH.
Qed.

End Ordenacao.

Lemma decrescente_firstn {A K : Type} (o : Ordem K) (agg : A -> K) (n : nat)
  (l : list A) :
  decrescente o agg l -> decrescente o agg (firstn n l).
Proof.
  unfold decrescente. intro H. revert n.
  induction H as [| x l Hs IH Hx]; intros [| n]; simpl; try constructor.
  - apply IH.
  - rewrite Forall_forall in *. intros b Hb. apply Hx.
    rewrite <- (firstn_skipn n l). apply in_or_app. now left.
Qed.

Lemma decrescente_app {A K : Type} (o : Ordem K) (agg : A -> K) (l1 l2 : list A) :
  decrescente o agg (l1 ++ l2)%list ->
  forall s r, In s l1 -> In r l2 -> menorIgual o (agg r) (agg s) = true.
Proof.
  unfold decrescente.
  induction l1 as [| x l1 IH]; simpl; intros H s r Hs Hr.
  - contradiction.
  - inversion H as [| ? ? Hss Hx]; subst.
    destruct Hs as [-> | Hs].
    + rewrite Forall_forall in Hx. apply Hx. apply in_or_app. now right.
    + now apply IH.
Qed.

Lemma prefixo_filter_firstn {A : Type} (p : A -> bool) (n : nat) (l : list A) :
  prefixo (filter p (firstn n l)) (filter p l).
Proof.
  exists (filter p (skipn n l)).
  rewrite <- filter_app, firstn_skipn. reflexivity.
Qed.

(** The shape every ranking of the handler has. *)
Lemma TopN_sort_slice {A N K : Type} `{Js.Sinal N} (o : Ordem K) (agg : A -> K)
  (cmp : A -> A -> N) (P : A -> Prop) (n : nat) (l : list A) :
  (forall a b, P a -> P b ->
     Js.positivo (cmp a b) = negb (menorIgual o (agg b) (agg a))) ->
  (forall a b, P a -> P b ->
     menorIgual o (agg b) (agg a) = false -> menorIgual o (agg a) (agg b) = true) ->
  (forall a b c, P a -> P b -> P c ->
     menorIgual o (agg b) (agg a) = true -> menorIgual o (agg c) (agg b) = true ->
     menorIgual o (agg c) (agg a) = true) ->
  (forall a b c, P a -> P b -> P c ->
     igual o (agg a) (agg c) = true -> igual o (agg b) (agg c) = true ->
     menorIgual o (agg b) (agg a) = true) ->
  Forall P l ->
  TopN n o agg l (Js.slice0 n (Js.sort cmp l)).
Proof.
  intros Hcmp Htot Htr Hemp HP. unfold Js.slice0.
  pose proof (sort_decrescente o agg cmp P Hcmp Htot Htr l HP) as Hdec.
  split.
  - apply firstn_le_length.
  - now apply decrescente_firstn.
  - intros c Hc.
    rewrite <- (sort_estavel o agg cmp P Hcmp Hemp c l);
      [apply prefixo_filter_firstn | | exact HP].
    rewrite Forall_forall in HP. now apply HP.
  - exists (skipn n (Js.sort cmp l)). split.
    + rewrite firstn_skipn. symmetry. apply sort_perm.
    + apply decrescente_app. now rewrite firstn_skipn.
Qed.

(** Rankings by a count. *)
Lemma TopN_inteiros {A : Type} (agg : A -> Z) (cmp : A -> A -> Z) (n : nat)
  (l : list A) :
  (forall a b, cmp a b = (agg b - agg a)%Z) ->
  TopN n ordemInteiro agg l (Js.slice0 n (Js.sort cmp l)).
Proof.
  intro Hcmp.
  apply (TopN_sort_slice ordemInteiro agg cmp (fun _ => True)); simpl.
  - intros a b _ _. rewrite Hcmp. unfold Js.positivo, Js.sinalInteiro.
    destruct (Z.ltb_spec 0 (agg b - agg a)), (Z.leb_spec (agg b) (agg a));
      simpl; try reflexivity; lia.
  - intros a b _ _ E. apply Z.leb_gt in E. apply Z.leb_le. lia.
  - intros a b c _ _ _ E1 E2. apply Z.leb_le in E1, E2. apply Z.leb_le. lia.
  - intros a b c _ _ _ E1 E2. apply Z.eqb_eq in E1, E2. apply Z.leb_le. lia.
  - apply Forall_forall. intros; exact I.
Qed.

(** Rankings by a decimal of the store. *)
Lemma TopN_decimais {A : Type} (agg : A -> Q) (cmp : A -> A -> Q) (n : nat)
  (l : list A) :
  (forall a b, cmp a b == agg b - agg a) ->
  TopN n ordemDecimal agg l (Js.slice0 n (Js.sort cmp l)).
Proof.
  intro Hcmp.
  assert (forall x y : Q, Qle_bool (y - x) 0 = Qle_bool y x) as Hsub.
  { intros x y. apply eq_true_iff_eq. rewrite !Qle_bool_iff. split; intro E.
    - apply Qle_minus_iff. apply Qle_minus_iff in E.
      setoid_replace (x + - y) with (0 + - (y - x)) by ring. exact E.
    - apply Qle_minus_iff. apply Qle_minus_iff in E.
      setoid_replace (0 + - (y - x)) with (x + - y) by ring. exact E. }
  apply (TopN_sort_slice ordemDecimal agg cmp (fun _ => True)); simpl.
  - intros a b _ _. unfold Js.positivo, sinalDecimal.
    f_equal. rewrite <- (Hsub (agg a) (agg b)).
    apply eq_true_iff_eq. rewrite !Qle_bool_iff. now rewrite Hcmp.
  - intros a b _ _ E. apply Qle_bool_iff.
    destruct (Qlt_le_dec (agg a) (agg b)) as [Hlt | Hle].
    + now apply Qlt_le_weak.
    + apply Qle_bool_iff in Hle. congruence.
  - intros a b c _ _ _ E1 E2. apply Qle_bool_iff in E1, E2. apply Qle_bool_iff.
    now apply Qle_trans with (agg b).
  - intros a b c _ _ _ E1 E2. apply Qeq_bool_iff in E1, E2. apply Qle_bool_iff.
    rewrite E1, E2. apply Qle_refl.
  - apply Forall_forall. intros; exact I.
Qed.

(** Rankings by a number of the runtime, none of the numbers being
    NaN. *)
Lemma TopN_numeros {A : Type} (agg : A -> float) (cmp : A -> A -> float)
  (ks : list float) (n : nat) (l : list A) :
  (forall a b, cmp a b = (agg b - agg a)%float) ->
  semNaN ks = true ->
  (forall a, In a l -> In (agg a) ks) ->
  TopN n ordemNumero agg l (Js.slice0 n (Js.sort cmp l)).
Proof.
  intros Hcmp Hks Hl.
  assert (forall a, In (agg a) ks -> (agg a =? agg a)%float = true) as Hnan.
  { intros a Ha. unfold semNaN in Hks. rewrite forallb_forall in Hks.
    specialize (Hks _ Ha). unfold PrimFloat.is_nan in Hks.
    now rewrite negb_involutive in Hks. }
  apply (TopN_sort_slice ordemNumero agg cmp (fun a => In (agg a) ks)); simpl.
  - intros a b Ha Hb. rewrite Hcmp.
    apply (leis_binary64 (agg a) (agg b) (agg a)); now apply Hnan.
  - intros a b Ha Hb.
    apply (leis_binary64 (agg a) (agg b) (agg a)); now apply Hnan.
  - intros a b c Ha Hb Hc.
    apply (leis_binary64 (agg a) (agg b) (agg c)); now apply Hnan.
  - intros a b c Ha Hb Hc.
    apply (leis_binary64 (agg a) (agg b) (agg c)); now apply Hnan.
  - apply Forall_forall. exact Hl.
Qed.

(** ** [Map]: lookup after update, and the order of the keys *)

Section MapFacts.
Context {K V : Type} (eqb : K -> K -> bool).
Hypothesis eqb_eq : forall a b, eqb a b = true <-> a = b.

Lemma eqb_refl_K (k : K) : eqb k k = true.
Proof. now apply eqb_eq. Qed.

Lemma eqb_neq_K (a b : K) : a <> b -> eqb a b = false.
Proof.
  intro H. destruct (eqb a b) eqn:E; [| reflexivity].
  apply eqb_eq in E. contradiction.
Qed.

Lemma get_set_eq (m : list (K * V)) (k : K) (v : V) :
  Js.Map.get eqb (Js.Map.set eqb m k v) k = Some v.
Proof.
  induction m as [| [k' v'] m IH]; simpl.
  - now rewrite eqb_refl_K.
  - destruct (eqb k' k) eqn:E; simpl; rewrite E; [reflexivity | exact IH].
Qed.

Lemma get_set_ne (m : list (K * V)) (k k' : K) (v : V) :
  k <> k' ->
  Js.Map.get eqb (Js.Map.set eqb m k v) k' = Js.Map.get eqb m k'.
Proof.
  intro Hne. induction m as [| [k0 v0] m IH]; simpl.
  - now rewrite eqb_neq_K.
  - destruct (eqb k0 k) eqn:E; simpl.
    + apply eqb_eq in E. subst k0. now rewrite (eqb_neq_K _ _ Hne).
    + now rewrite IH.
Qed.

Lemma get_None_keys (m : list (K * V)) (k : K) :
  Js.Map.get eqb m k = None <-> ~ In k (map fst m).
Proof.
  induction m as [| [k' v'] m IH]; simpl.
  - tauto.
  - destruct (eqb k' k) eqn:E.
    + apply eqb_eq in E. split; [discriminate | tauto].
    + rewrite IH. split; [| tauto].
      intros Hn [Heq | Hin]; [| tauto].
      apply eqb_eq in Heq. congruence.
Qed.

Lemma get_In (m : list (K * V)) (k : K) (v : V) :
  Js.Map.get eqb m k = Some v -> In (k, v) m.
Proof.
  induction m as [| [k' v'] m IH]; simpl; [discriminate |].
  destruct (eqb k' k) eqn:E.
  - apply eqb_eq in E. intros [= ->]. left. now subst.
  - intro H. right. now apply IH.
Qed.

Lemma In_get (m : list (K * V)) (k : K) (v : V) :
  NoDup (map fst m) -> In (k, v) m -> Js.Map.get eqb m k = Some v.
Proof.
  induction m as [| [k' v'] m IH]; simpl; [contradiction |].
  intros Hnd [Heq | Hin].
  - injection Heq as -> ->. now rewrite eqb_refl_K.
  - inversion Hnd as [| ? ? Hk' Hnd']; subst.
    destruct (eqb k' k) eqn:E.
    + apply eqb_eq in E. subst k'. exfalso. apply Hk'.
      apply in_map_iff. now exists (k, v).
    + now apply IH.
Qed.

(** [set] leaves the keys where they are and appends a new one. *)
Lemma keys_set (m : list (K * V)) (k : K) (v : V) :
  map fst (Js.Map.set eqb m k v) =
  if existsb (fun k' => eqb k' k) (map fst m)
  then map fst m else (map fst m ++ [k])%list.
Proof.
  induction m as [| [k' v'] m IH]; simpl.
  - reflexivity.
  - destruct (eqb k' k); simpl; [reflexivity |].
    rewrite IH. now destruct (existsb _ (map fst m)).
Qed.

Lemma keys_set_NoDup (m : list (K * V)) (k : K) (v : V) :
  NoDup (map fst m) -> NoDup (map fst (Js.Map.set eqb m k v)).
Proof.
  intro Hnd. rewrite keys_set.
  destruct (existsb _ (map fst m)) eqn:E; [exact Hnd |].
  apply NoDup_rev in Hnd. apply (NoDup_cons k) in Hnd.
  - apply NoDup_rev in Hnd. simpl in Hnd. now rewrite rev_involutive in Hnd.
  - rewrite <- in_rev. intro Hin.
    assert (existsb (fun k' => eqb k' k) (map fst m) = true) as Ht.
    { apply existsb_exists. exists k. split; [exact Hin | apply eqb_refl_K]. }
    congruence.
Qed.

(** A [forEach] that does one [set] per element. *)
Section Fold.
Context {X : Type} (chave : X -> K) (valor : list (K * V) -> X -> V).

Lemma keys_fold (l : list X) (m0 : list (K * V)) :
  map fst (fold_left (fun m x => Js.Map.set eqb m (chave x) (valor m x)) l m0) =
  fold_left (fun vistos k => if existsb (fun k' => eqb k' k) vistos
                             then vistos else (vistos ++ [k])%list)
            (map chave l) (map fst m0).
Proof.
  revert m0. induction l as [| x l IH]; intro m0; simpl.
  - reflexivity.
  - rewrite IH. now rewrite keys_set.
Qed.

Lemma keys_fold_NoDup (l : list X) (m0 : list (K * V)) :
  NoDup (map fst m0) ->
  NoDup (map fst (fold_left (fun m x => Js.Map.set eqb m (chave x) (valor m x)) l m0)).
Proof.
  revert m0. induction l as [| x l IH]; intros m0 H; simpl.
  - exact H.
  - apply IH. now apply keys_set_NoDup.
Qed.

Lemma keys_fold_In (l : list X) (m0 : list (K * V)) (k : K) :
  In k (map fst (fold_left (fun m x => Js.Map.set eqb m (chave x) (valor m x)) l m0)) <->
  In k (map fst m0) \/ In k (map chave l).
Proof.
  revert m0. induction l as [| x l IH]; intro m0; simpl.
  - tauto.
  - rewrite IH. rewrite keys_set.
    destruct (existsb _ (map fst m0)) eqn:E.
    + apply existsb_exists in E. destruct E as [k' [Hk' E]].
      apply eqb_eq in E. subst k'.
      split; [tauto |]. intros [H | [<- | H]]; tauto.
    + rewrite in_app_iff. simpl. tauto.
Qed.

End Fold.
End MapFacts.

(** A [forEach] whose body is guarded does nothing on the elements the
    guard rejects. *)
Lemma fold_left_guard {X M : Type} (p : X -> bool) (g : M -> X -> M)
  (l : list X) (m0 : M) :
  fold_left (fun m x => if p x then g m x else m) l m0 =
  fold_left g (filter p l) m0.
Proof.
  revert m0. induction l as [| x l IH]; intro m0; simpl.
  - reflexivity.
  - rewrite IH. now destruct (p x).
Qed.

Lemma filter_idem {X : Type} (p : X -> bool) (l : list X) :
  filter p (filter p l) = filter p l.
Proof.
  induction l as [| x l IH]; simpl; [reflexivity |].
  destruct (p x) eqn:E; simpl; [rewrite E |]; now rewrite IH.
Qed.

(** ** The handler over a data set, and its two outcomes *)

Lemma relatorio_prismaDe (db : Dados) (usuarioId : string) :
  exists corpo, relatorio (prismaDe db) usuarioId = Resposta200 corpo.
Proof. unfold relatorio, gerarRelatorio. simpl. eexists. reflexivity. Qed.

Lemma relatorio_200 (prisma : PrismaClient) (usuarioId : string)
  (corpo : Relatorio) :
  relatorio prisma usuarioId = Resposta200 corpo ->
  gerarRelatorio prisma usuarioId = Sucesso corpo.
Proof.
  unfold relatorio.
  destruct (gerarRelatorio prisma usuarioId) as [r | e]; intro H.
  - now injection H as ->.
  - discriminate H.
Qed.

(** ** Totals *)

Lemma fold_left_somaNumeros {X : Type} (f : X -> float) (l : list X) (a : float) :
  fold_left (fun acc x => (acc + f x)%float) l a = fold_left PrimFloat.add (map f l) a.
Proof.
  revert a. induction l as [| x l IH]; intro a; simpl.
  - reflexivity.
  - apply IH.
Qed.


(** C9. In every report the handler sends, [valorTotalVendas] of the
    revenue section and [totalReceitas] of the totals are the same
    number. *)
Theorem valorTotalVendas_igual_totalReceitas (prisma : PrismaClient)
  (usuarioId : string) (corpo : Relatorio) :
  relatorio prisma usuarioId = Resposta200 corpo ->
  sr_valorTotalVendas (receitas corpo) = t_totalReceitas (totais corpo).
Proof.
  intro H. apply relatorio_200 in H. unfold gerarRelatorio in H.
  destruct (receita_findMany prisma usuarioId) as [rs |]; [| discriminate H].
  destruct (despesa_findMany prisma usuarioId) as [ds |]; [| discriminate H].
  simpl in H.
  destruct (cliente_findMany prisma (clientesIds rs)) as [cd |]; [| discriminate H].
  destruct (cliente_count prisma usuarioId) as [n |]; [| discriminate H].
  destruct (receitaItem_groupBy prisma usuarioId) as [agg |]; [| discriminate H].
  simpl in H.
  destruct (produto_findMany prisma (idsVendidos agg)) as [info |]; [| discriminate H].
  simpl in H.
  destruct (receitaItem_findMany prisma (receitasIds rs)) as [ci |]; [| discriminate H].
  destruct (produto_findMany_ativos prisma usuarioId) as [pe |]; [| discriminate H].
  simpl in H. injection H as <-. reflexivity.
Qed.

Lemma valorTotalVendas_igual_totalReceitas_witness :
  exists corpo,
    relatorio (prismaDe dadosEx) "u" = Resposta200 corpo /\
    sr_valorTotalVendas (receitas corpo) = t_totalReceitas (totais corpo).
Proof.
  eexists. split; [reflexivity |].
  apply (valorTotalVendas_igual_totalReceitas (prismaDe dadosEx) "u").
  reflexivity.
Defined.

(** ** Failures *)

(** C8. The handler has exactly two outcomes.  If some retrieval step
    throws, the answer is the generic failure and nothing else; otherwise
    it is a complete report. *)
Theorem relatorio_tudo_ou_nada (prisma : PrismaClient) (usuarioId : string) :
  (algumaBuscaFalha prisma usuarioId /\
   relatorio prisma usuarioId = Resposta500 "Erro ao gerar relatório") \/
  (~ algumaBuscaFalha prisma usuarioId /\
   exists corpo, relatorio prisma usuarioId = Resposta200 corpo).
Proof.
  unfold relatorio, gerarRelatorio, algumaBuscaFalha.
  destruct (receita_findMany prisma usuarioId) as [rs | e] eqn:E1; simpl;
    [| left; split; [left; now exists e | reflexivity]].
  destruct (despesa_findMany prisma usuarioId) as [ds | e] eqn:E2; simpl;
    [| left; split; [right; left; now exists e | reflexivity]].
  destruct (cliente_findMany prisma (clientesIds rs)) as [cd | e] eqn:E3; simpl;
    [| left; split; [do 2 right; left; now exists rs, e | reflexivity]].
  destruct (cliente_count prisma usuarioId) as [n | e] eqn:E4; simpl;
    [| left; split; [do 3 right; left; now exists e | reflexivity]].
  destruct (receitaItem_groupBy prisma usuarioId) as [agg | e] eqn:E5; simpl;
    [| left; split; [do 4 right; left; now exists e | reflexivity]].
  destruct (produto_findMany prisma (idsVendidos agg)) as [info | e] eqn:E6; simpl;
    [| left; split; [do 5 right; left; now exists agg, e | reflexivity]].
  destruct (receitaItem_findMany prisma (receitasIds rs)) as [ci | e] eqn:E7; simpl;
    [| left; split; [do 6 right; left; now exists rs, e | reflexivity]].
  destruct (produto_findMany_ativos prisma usuarioId) as [pe | e] eqn:E8; simpl;
    [| left; split; [do 7 right; now exists e | reflexivity]].
  right. split; [| eexists; reflexivity].
  intros [[e H] | [[e H] | [[rs' [e [H1 H]]] | [[e H] | [[e H] |
         [[agg' [e [H1 H]]] | [[rs' [e [H1 H]]] | [e H]]]]]]]];
    try discriminate; injection H1 as <-; congruence.
Qed.

(** ** The unit normalizer *)

Lemma formatar_outra_unidade (p : Produto) :
  p_unidadeBase p <> Some "G" -> p_unidadeBase p <> Some "ML" ->
  formatarProdutoParaExibicao p =
  {| origem := p; saldoDisplay := Js.Number (p_saldoBase p ?? 0%Q);
     unidadeDisplay := "un" |}.
Proof.
  intros Hg Hml. unfold formatarProdutoParaExibicao, Js.eqLit.
  destruct (p_unidadeBase p) as [s |]; [| reflexivity].
  destruct (s =? "G") eqn:Eg.
  - apply String.eqb_eq in Eg. congruence.
  - destruct (s =? "ML") eqn:Eml; [| reflexivity].
    apply String.eqb_eq in Eml. congruence.
Qed.

(** C3. 2500 with the gram tag is shown as 2.5 "kg", 2500 with the
    millilitre tag as 2.5 "L", 7 with the count tag as 7 "un"; and with
    any tag other than the gram and millilitre ones, or with none, the
    quantity is passed through unchanged under the label "un", exactly as
    with the count tag.  The source object comes back untouched. *)
Theorem formatarProdutoParaExibicao_unidades
  (id : option Z) (nome categoria : option string) (q : Q)
  (unidadeBase : option string) :
  unidadeBase <> Some "G" -> unidadeBase <> Some "ML" ->
  let f := fun saldo tag =>
             formatarProdutoParaExibicao (produtoCom id nome categoria saldo tag) in
  (saldoDisplay (f 2500 (Some "G")) = 2.5%float /\
   unidadeDisplay (f 2500 (Some "G")) = "kg") /\
  (saldoDisplay (f 2500 (Some "ML")) = 2.5%float /\
   unidadeDisplay (f 2500 (Some "ML")) = "L") /\
  (saldoDisplay (f 7 (Some "UN")) = 7%float /\
   unidadeDisplay (f 7 (Some "UN")) = "un") /\
  (saldoDisplay (f q unidadeBase) = Js.Number q /\
   unidadeDisplay (f q unidadeBase) = "un") /\
  (saldoDisplay (f q unidadeBase) = saldoDisplay (f q (Some "UN")) /\
   unidadeDisplay (f q unidadeBase) = unidadeDisplay (f q (Some "UN"))) /\
  origem (f q unidadeBase) = produtoCom id nome categoria q unidadeBase.
Proof.
  intros Hg Hml f. subst f. cbv beta.
  rewrite (formatar_outra_unidade (produtoCom id nome categoria q unidadeBase))
    by assumption.
  repeat split; reflexivity.
Qed.

Lemma formatarProdutoParaExibicao_unidades_witness :
  let f := fun saldo tag =>
             formatarProdutoParaExibicao (produtoCom None None None saldo tag) in
  (saldoDisplay (f 2500 (Some "G")) = 2.5%float /\
   unidadeDisplay (f 2500 (Some "G")) = "kg") /\
  (saldoDisplay (f 2500 (Some "ML")) = 2.5%float /\
   unidadeDisplay (f 2500 (Some "ML")) = "L") /\
  (saldoDisplay (f 7 (Some "UN")) = 7%float /\
   unidadeDisplay (f 7 (Some "UN")) = "un") /\
  (saldoDisplay (f 3 None) = 3%float /\
   unidadeDisplay (f 3 None) = "un") /\
  (saldoDisplay (f 3 None) = saldoDisplay (f 3 (Some "UN")) /\
   unidadeDisplay (f 3 None) = unidadeDisplay (f 3 (Some "UN"))) /\
  origem (f 3 None) = produtoCom None None None 3 None.
Proof.
  apply (formatarProdutoParaExibicao_unidades None None None 3 None);
    discriminate.
Defined.

(** ** Entries without a category *)

Lemma truthy_Some (c : option string) :
  Js.truthy c = true -> c = Some (c ?? "") /\ (c ?? "") <> "".
Proof.
  destruct c as [s |]; simpl; [| discriminate].
  intro H. apply negb_true_iff in H. apply String.eqb_neq in H. now split.
Qed.

(** Every bucket of the revenue-category map is the non-empty category of
    some entry. *)
Lemma categoriasReceitasMap_keys (rs : list Receita) (cat : string) :
  In cat (map fst (categoriasReceitasMap rs)) ->
  cat <> "" /\ exists r, In r rs /\ r_categoria r = Some cat.
Proof.
  unfold categoriasReceitasMap.
  rewrite (fold_left_guard (fun r => Js.truthy (r_categoria r))
             (fun m r => Js.Map.set String.eqb m (r_categoria r ?? "")
                           ((Js.Map.get String.eqb m (r_categoria r ?? "") ?? 0 + 1)%Z))).
  intro H.
  apply (keys_fold_In String.eqb String.eqb_eq (fun r => r_categoria r ?? "")) in H.
  destruct H as [[] | H].
  apply in_map_iff in H. destruct H as [r [<- Hr]].
  apply filter_In in Hr. destruct Hr as [Hin Ht].
  apply truthy_Some in Ht. destruct Ht as [Hc Hne].
  split; [exact Hne | now exists r].
Qed.

Lemma receitasDe_semCategoria (db : Dados) (usuarioId : string) :
  receitasDe (semReceitasSemCategoria db) usuarioId =
  filter (fun r => Js.truthy (r_categoria r)) (receitasDe db usuarioId).
Proof.
  unfold receitasDe, semReceitasSemCategoria. simpl.
  induction (receitaTable db) as [| [dono r] tbl IH]; simpl; [reflexivity |].
  destruct (Js.truthy (r_categoria r)) eqn:Ec; simpl;
    destruct (doUsuario usuarioId (dono, r)) eqn:Eo; simpl;
    rewrite ?Ec; now rewrite IH.
Qed.

Lemma categoriasReceitasMap_filter (rs : list Receita) :
  categoriasReceitasMap (filter (fun r => Js.truthy (r_categoria r)) rs) =
  categoriasReceitasMap rs.
Proof.
  unfold categoriasReceitasMap.
  rewrite !(fold_left_guard (fun r => Js.truthy (r_categoria r))
              (fun m r => Js.Map.set String.eqb m (r_categoria r ?? "")
                            ((Js.Map.get String.eqb m (r_categoria r ?? "") ?? 0 + 1)%Z))).
  now rewrite filter_idem.
Qed.

(** C6. Revenue entries whose category is absent or the empty string
    feed no bucket of [categoriasMaisVendidas]: the ranking is the one
    computed once those entries are removed, and every bucket it shows
    carries the non-empty category of some entry of the owner. *)
Theorem categoriasMaisVendidas_ignora_sem_categoria (db : Dados)
  (usuarioId : string) :
  exists corpo corpo',
    relatorio (prismaDe db) usuarioId = Resposta200 corpo /\
    relatorio (prismaDe (semReceitasSemCategoria db)) usuarioId =
      Resposta200 corpo' /\
    sr_categoriasMaisVendidas (receitas corpo) =
      sr_categoriasMaisVendidas (receitas corpo') /\
    forall e, In e (sr_categoriasMaisVendidas (receitas corpo)) ->
      cc_categoria e <> "" /\
      exists r, In (usuarioId, r) (receitaTable db) /\
                r_categoria r = Some (cc_categoria e).
Proof.
  do 2 eexists. split; [reflexivity |]. split; [reflexivity |]. simpl.
  split.
  - unfold categoriasMaisVendidas.
    now rewrite receitasDe_semCategoria, categoriasReceitasMap_filter.
  - intros e He. unfold categoriasMaisVendidas in He.
    apply in_map_iff in He. destruct He as [[cat n] [<- He]]. simpl.
    apply slice_sort_In in He. unfold Js.Map.entries in He.
    destruct (categoriasReceitasMap_keys (receitasDe db usuarioId) cat)
      as [Hne [r [Hr Hc]]].
    { apply in_map_iff. now exists (cat, n). }
    split; [exact Hne |]. exists r. split; [| exact Hc].
    unfold receitasDe in Hr. apply in_map_iff in Hr.
    destruct Hr as [[dono r'] [Heq Hin]]. simpl in Heq. subst r'.
    apply filter_In in Hin. destruct Hin as [Hin Ho].
    unfold doUsuario in Ho. simpl in Ho. apply String.eqb_eq in Ho. now subst.
Qed.

Lemma origem_formatar (p : Produto) :
  origem (formatarProdutoParaExibicao p) = p.
Proof.
  unfold formatarProdutoParaExibicao.
  destruct (Js.eqLit (p_unidadeBase p) "G"); [reflexivity |].
  destruct (Js.eqLit (p_unidadeBase p) "ML"); reflexivity.
Qed.

Lemma categoriasEstoqueMap_keys (pfs : list ProdutoFormatado) (cat : string) :
  In cat (map fst (categoriasEstoqueMap pfs)) ->
  cat <> "" /\ exists p, In p pfs /\ p_categoria (origem p) = Some cat.
Proof.
  unfold categoriasEstoqueMap.
  rewrite (fold_left_guard (fun p => Js.truthy (p_categoria (origem p)))
             (fun m p => Js.Map.set String.eqb m (p_categoria (origem p) ?? "")
                           ((Js.Map.get String.eqb m (p_categoria (origem p) ?? "") ?? 0
                             + saldoDisplay p)%float))).
  intro H.
  apply (keys_fold_In String.eqb String.eqb_eq
           (fun p => p_categoria (origem p) ?? "")) in H.
  destruct H as [[] | H].
  apply in_map_iff in H. destruct H as [p [<- Hp]].
  apply filter_In in Hp. destruct Hp as [Hin Ht].
  apply truthy_Some in Ht. destruct Ht as [Hc Hne].
  split; [exact Hne | now exists p].
Qed.

Lemma categoriasEstoqueMap_semCategoria (db : Dados) (usuarioId : string) :
  categoriasEstoqueMap
    (produtosFormatadosEstoque
       (produtosEmEstoqueDe (semProdutosSemCategoria db) usuarioId)) =
  categoriasEstoqueMap
    (produtosFormatadosEstoque (produtosEmEstoqueDe db usuarioId)).
Proof.
  unfold categoriasEstoqueMap, produtosFormatadosEstoque, produtosEmEstoqueDe,
    produtosAtivos, semProdutosSemCategoria. simpl.
  generalize (@nil (string * float)).
  induction (produtoTable db) as [| p tbl IH]; intro m0; simpl; [reflexivity |].
  destruct (Js.truthy (pr_categoria p)) eqn:Ec; simpl;
    destruct ((pr_usuarioId p =? usuarioId) && pr_ativo p) eqn:Eo; simpl;
    rewrite ?origem_formatar; simpl; rewrite ?Ec; apply IH.
Qed.

(** C10. Active products whose category is absent or the empty string
    stay out of [categoriasEstoque]: the ranking is the one computed once
    those products are removed, so their quantities enter no sum, and
    every bucket carries the non-empty category of some active product of
    the owner, so no bucket is made up for them. *)
Theorem categoriasEstoque_ignora_sem_categoria (db : Dados)
  (usuarioId : string) :
  exists corpo corpo',
    relatorio (prismaDe db) usuarioId = Resposta200 corpo /\
    relatorio (prismaDe (semProdutosSemCategoria db)) usuarioId =
      Resposta200 corpo' /\
    se_categoriasEstoque (estoque corpo) = se_categoriasEstoque (estoque corpo') /\
    forall e, In e (se_categoriasEstoque (estoque corpo)) ->
      cq_categoria e <> "" /\
      exists p, In p (produtoTable db) /\
                pr_usuarioId p = usuarioId /\ pr_ativo p = true /\
                pr_categoria p = Some (cq_categoria e).
Proof.
  do 2 eexists. split; [reflexivity |]. split; [reflexivity |]. simpl.
  split.
  - unfold categoriasEstoque. now rewrite categoriasEstoqueMap_semCategoria.
  - intros e He. unfold categoriasEstoque in He.
    apply in_map_iff in He. destruct He as [[cat q] [<- He]]. simpl.
    apply slice_sort_In in He. unfold Js.Map.entries in He.
    destruct (categoriasEstoqueMap_keys
                (produtosFormatadosEstoque (produtosEmEstoqueDe db usuarioId)) cat)
      as [Hne [pf [Hpf Hc]]].
    { apply in_map_iff. now exists (cat, q). }
    split.
    + exact Hne.
    + unfold produtosFormatadosEstoque, produtosEmEstoqueDe in Hpf.
      rewrite map_map in Hpf. apply in_map_iff in Hpf.
      destruct Hpf as [p [<- Hp]]. rewrite origem_formatar in Hc. simpl in Hc.
      unfold produtosAtivos in Hp. apply filter_In in Hp.
      destruct Hp as [Hin Ho]. apply andb_true_iff in Ho.
      destruct Ho as [Ho Ha]. apply String.eqb_eq in Ho.
      exists p. repeat split; assumption.
Qed.

(** ** Counting maps *)

Section Contagem.
Context {K V X : Type} (eqb : K -> K -> bool).
Hypothesis eqb_eq : forall a b, eqb a b = true <-> a = b.
Context (chave : X -> K) (valor : list (K * V) -> X -> V) (proj : V -> Z).

(** The count stored under [k], [0] when [k] has no entry. *)
Let contado (m : list (K * V)) (k : K) : Z :=
  match Js.Map.get eqb m k with
  | Some v => proj v
  | None => 0%Z
  end.

Hypothesis valor_conta :
  forall m x, proj (valor m x) = (contado m (chave x) + 1)%Z.

Lemma fold_conta (l : list X) (m0 : list (K * V)) (k : K) :
  contado (fold_left (fun m x => Js.Map.set eqb m (chave x) (valor m x)) l m0) k =
  (contado m0 k + Js.len (filter (fun x => eqb (chave x) k) l))%Z.
Proof.
  revert m0. induction l as [| x l IH]; intro m0; simpl.
  - unfold Js.len. simpl. lia.
  - rewrite IH. destruct (eqb (chave x) k) eqn:E.
    + apply eqb_eq in E. subst k. unfold contado at 1.
      rewrite (get_set_eq eqb eqb_eq), valor_conta.
      unfold Js.len. simpl. lia.
    + unfold contado at 1. rewrite (get_set_ne eqb eqb_eq).
      * reflexivity.
      * intro Heq. apply eqb_eq in Heq. congruence.
Qed.

End Contagem.

(** ** Expenses without a category *)

Lemma categoriaDaDespesa_sem (d : Despesa) :
  (categoriaDaDespesa d =? "Sem Categoria") = naSemCategoria d.
Proof.
  unfold categoriaDaDespesa, naSemCategoria, emBranco, Js.truthy, Js.eqLit.
  destruct (d_categoria d) as [s |]; simpl; [| reflexivity].
  destruct (s =? "") eqn:Es; simpl.
  - apply String.eqb_eq in Es. subst s. reflexivity.
  - destruct (Js.trim s =? ""); simpl; reflexivity.
Qed.

Lemma categoriasDespesasMap_NoDup (ds : list Despesa) :
  NoDup (map fst (categoriasDespesasMap ds)).
Proof.
  unfold categoriasDespesasMap.
  apply (keys_fold_NoDup String.eqb String.eqb_eq categoriaDaDespesa
           (fun m d =>
              {| count := (count (Js.Map.get String.eqb m (categoriaDaDespesa d)
                                    ?? {| count := 0; total := 0 |}) + 1)%Z;
                 total := (total (Js.Map.get String.eqb m (categoriaDaDespesa d)
                                    ?? {| count := 0; total := 0 |}) + Js.Number (d_valor d))%float |})).
  constructor.
Qed.

(** The count kept under a label is the number of entries carrying it. *)
Lemma categoriasDespesasMap_count (ds : list Despesa) (cat : string) (data : CountTotal) :
  Js.Map.get String.eqb (categoriasDespesasMap ds) cat = Some data ->
  count data = Js.len (filter (fun d => categoriaDaDespesa d =? cat) ds).
Proof.
  intro H.
  pose proof (fold_conta String.eqb String.eqb_eq categoriaDaDespesa
                (fun m d =>
                   {| count := (count (Js.Map.get String.eqb m (categoriaDaDespesa d)
                                         ?? {| count := 0; total := 0 |}) + 1)%Z;
                      total := (total (Js.Map.get String.eqb m (categoriaDaDespesa d)
                                         ?? {| count := 0; total := 0 |}) + Js.Number (d_valor d))%float |})
                count) as Hc.
  cbv beta zeta in Hc.
  specialize (Hc (fun m d => ltac:(simpl; now destruct (Js.Map.get String.eqb m _)))
                 ds [] cat).
  unfold categoriasDespesasMap in H. cbv zeta in H. rewrite H in Hc.
  simpl in Hc. exact Hc.
Qed.

Lemma categoriasDespesasMap_get (ds : list Despesa) (d : Despesa) :
  In d ds ->
  exists data,
    Js.Map.get String.eqb (categoriasDespesasMap ds) (categoriaDaDespesa d) = Some data.
Proof.
  intro Hin.
  destruct (Js.Map.get String.eqb (categoriasDespesasMap ds) (categoriaDaDespesa d))
    as [data |] eqn:E; [now exists data | exfalso].
  apply (get_None_keys String.eqb String.eqb_eq) in E. apply E.
  unfold categoriasDespesasMap.
  apply (keys_fold_In String.eqb String.eqb_eq categoriaDaDespesa
           (fun m d =>
              {| count := (count (Js.Map.get String.eqb m (categoriaDaDespesa d)
                                    ?? {| count := 0; total := 0 |}) + 1)%Z;
                 total := (total (Js.Map.get String.eqb m (categoriaDaDespesa d)
                                    ?? {| count := 0; total := 0 |}) + Js.Number (d_valor d))%float |})).
  right. now apply in_map.
Qed.

Lemma NoDup_firstn {X : Type} (n : nat) (l : list X) :
  NoDup l -> NoDup (firstn n l).
Proof.
  intro H. rewrite <- (firstn_skipn n l) in H.
  now apply NoDup_app_remove_r in H.
Qed.

Lemma slice_sort_keys_NoDup {K V N : Type} `{Js.Sinal N}
  (cmp : K * V -> K * V -> N) (n : nat) (m : list (K * V)) :
  NoDup (map fst m) -> NoDup (map fst (Js.slice0 n (Js.sort cmp m))).
Proof.
  intro Hnd. unfold Js.slice0. rewrite <- firstn_map. apply NoDup_firstn.
  eapply Permutation_NoDup; [| exact Hnd].
  apply Permutation_map. symmetry. apply sort_perm.
Qed.

(** C5, as the code has it. Expense entries whose category is absent,
    the empty string or white space only are folded, together with the
    entries labelled so, into the single bucket "Sem Categoria"; wherever
    the expense ranking shows that bucket, its count is the number of all
    such entries, no label occurs twice, and the bucket is shown whenever
    the expenses have at most three buckets. *)
Theorem categoriasMaisDespesas_sem_categoria (db : Dados) (usuarioId : string) :
  exists corpo,
    relatorio (prismaDe db) usuarioId = Resposta200 corpo /\
    let ds := map snd (filter (doUsuario usuarioId) (despesaTable db)) in
    let ranking := sd_categoriasMaisDespesas (despesas corpo) in
    let n := Js.len (filter naSemCategoria ds) in
    (forall d, d_categoria d = Some "" -> naSemCategoria d = true) /\
    (forall e, In e ranking -> cc_categoria e = "Sem Categoria" ->
               cc_contagem e = n) /\
    NoDup (map cc_categoria ranking) /\
    ((0 < n)%Z -> (List.length (categoriasDespesasMap ds) <= 3)%nat ->
     In {| cc_categoria := "Sem Categoria"; cc_contagem := n |} ranking).
Proof.
  eexists. split; [reflexivity |]. simpl.
  change (map snd (filter (doUsuario usuarioId) (despesaTable db)))
    with (despesasDe db usuarioId).
  set (ds := despesasDe db usuarioId).
  assert (forall data,
             Js.Map.get String.eqb (categoriasDespesasMap ds) "Sem Categoria" = Some data ->
             count data = Js.len (filter naSemCategoria ds)) as Hcount.
  { intros data H. rewrite (categoriasDespesasMap_count ds _ data H).
    f_equal. apply filter_ext. intro d. apply categoriaDaDespesa_sem. }
  split; [| split; [| split]].
  - intros d Hd. unfold naSemCategoria. now rewrite Hd.
  - intros e He Hcat. unfold categoriasMaisDespesas in He.
    apply in_map_iff in He. destruct He as [[cat data] [<- He]].
    simpl in Hcat. subst cat. simpl.
    apply slice_sort_In in He. apply Hcount.
    apply (In_get String.eqb String.eqb_eq);
      [apply categoriasDespesasMap_NoDup | exact He].
  - unfold categoriasMaisDespesas. rewrite map_map.
    rewrite (map_ext _ fst) by (now intros [cat data]).
    apply slice_sort_keys_NoDup, categoriasDespesasMap_NoDup.
  - intros Hn Hlen.
    destruct (filter naSemCategoria ds) as [| d rest] eqn:Ef;
      [unfold Js.len in Hn; simpl in Hn; lia |].
    assert (In d (filter naSemCategoria ds)) as Hd by (rewrite Ef; now left).
    apply filter_In in Hd. destruct Hd as [Hin Hsem].
    destruct (categoriasDespesasMap_get ds d Hin) as [data Hget].
    rewrite <- categoriaDaDespesa_sem in Hsem. apply String.eqb_eq in Hsem.
    rewrite Hsem in Hget.
    unfold categoriasMaisDespesas. apply in_map_iff.
    exists ("Sem Categoria", data). split.
    + simpl. f_equal. now apply Hcount.
    + apply slice_sort_all; [exact Hlen |].
      now apply (get_In String.eqb String.eqb_eq).
Qed.

(** C5, as stated, fails on the example data set: one expense of owner
    "u" has the empty-string category, but the ranking has no bucket
    "Uncategorized", and the bucket "Sem Categoria" counts two entries,
    the empty-string one and the one without a category. *)
Lemma categoriasMaisDespesas_nao_Uncategorized :
  exists corpo,
    relatorio (prismaDe dadosEx) "u" = Resposta200 corpo /\
    sd_categoriasMaisDespesas (despesas corpo) =
      [{| cc_categoria := "Sem Categoria"; cc_contagem := 2 |};
       {| cc_categoria := "rent"; cc_contagem := 1 |}] /\
    Js.len (filter (fun d => Js.eqLit (d_categoria d) "")
                   (map snd (filter (doUsuario "u") (despesaTable dadosEx)))) = 1%Z /\
    ~ baldeDosVazios "Uncategorized"
        (map snd (filter (doUsuario "u") (despesaTable dadosEx)))
        (sd_categoriasMaisDespesas (despesas corpo)) /\
    ~ baldeDosVazios "Sem Categoria"
        (map snd (filter (doUsuario "u") (despesaTable dadosEx)))
        (sd_categoriasMaisDespesas (despesas corpo)).
Proof.
  eexists. split; [reflexivity |].
  split; [reflexivity |]. split; [reflexivity |].
  split; intros [e [He [Hcat Hn]]]; vm_compute in He, Hn;
    destruct He as [<- | [<- | []]]; simpl in Hcat, Hn; discriminate.
Qed.

(** ** Clients that cannot be resolved *)

Lemma clienteNomeMap_None (cd : list Cliente) (id : Z) :
  (forall c, In c cd -> c_id c <> id) ->
  Js.Map.get Z.eqb (clienteNomeMap cd) id = None.
Proof.
  intro H. apply (get_None_keys Z.eqb Z.eqb_eq). intro Hin.
  unfold clienteNomeMap in Hin.
  apply (keys_fold_In Z.eqb Z.eqb_eq c_id (fun _ c => c_nome c)) in Hin.
  destruct Hin as [[] | Hin].
  apply in_map_iff in Hin. destruct Hin as [c [Hc Hin]].
  exact (H c Hin Hc).
Qed.

Lemma clientesMap_NoDup (rs : list Receita) (cd : list Cliente) :
  NoDup (map fst (clientesMap rs cd)).
Proof.
  unfold clientesMap.
  apply (keys_fold_NoDup Z.eqb Z.eqb_eq clienteIdDe
           (fun m r =>
              let atual :=
                Js.Map.get Z.eqb m (clienteIdDe r)
                  ?? {| cr_nome :=
                          Js.Map.get Z.eqb (clienteNomeMap cd) (clienteIdDe r)
                            ?? ("Cliente ID " ++ Js.numToString (clienteIdDe r));
                        cr_totalGasto := 0; cr_contagem := 0 |} in
              {| cr_nome := cr_nome atual;
                 cr_totalGasto := (cr_totalGasto atual + Js.Number (r_valor r))%float;
                 cr_contagem := (cr_contagem atual + 1)%Z |})).
  constructor.
Qed.

Lemma clientesMap_keys (rs : list Receita) (cd : list Cliente) (id : Z) :
  In id (map fst (clientesMap rs cd)) <->
  In id (map clienteIdDe (receitasComCliente rs)).
Proof.
  unfold clientesMap.
  rewrite (keys_fold_In Z.eqb Z.eqb_eq clienteIdDe
             (fun m r =>
                let atual :=
                  Js.Map.get Z.eqb m (clienteIdDe r)
                    ?? {| cr_nome :=
                            Js.Map.get Z.eqb (clienteNomeMap cd) (clienteIdDe r)
                              ?? ("Cliente ID " ++ Js.numToString (clienteIdDe r));
                          cr_totalGasto := 0; cr_contagem := 0 |} in
                {| cr_nome := cr_nome atual;
                   cr_totalGasto := (cr_totalGasto atual + Js.Number (r_valor r))%float;
                   cr_contagem := (cr_contagem atual + 1)%Z |})).
  simpl. tauto.
Qed.

(** The name kept for a client is the one found at its first revenue
    entry: the registered name, or the synthesized one. *)
Lemma clientesMap_nome (rs : list Receita) (cd : list Cliente) (id : Z)
  (e : ClienteResumo) :
  Js.Map.get Z.eqb (clientesMap rs cd) id = Some e ->
  cr_nome e =
    Js.Map.get Z.eqb (clienteNomeMap cd) id ?? ("Cliente ID " ++ Js.numToString id).
Proof.
  unfold clientesMap. generalize (receitasComCliente rs). intro l.
  assert (forall id e, Js.Map.get Z.eqb (@nil (Z * ClienteResumo)) id = Some e ->
                       cr_nome e =
                         Js.Map.get Z.eqb (clienteNomeMap cd) id
                           ?? ("Cliente ID " ++ Js.numToString id)) as Hinv
      by (intros ? ? H; discriminate H).
  revert id e. revert Hinv. generalize (@nil (Z * ClienteResumo)).
  induction l as [| r l IH]; intros m0 Hinv id e; simpl.
  - apply Hinv.
  - apply IH. clear id e. intros id e.
    destruct (Z.eq_dec (clienteIdDe r) id) as [<- | Hne].
    + rewrite (get_set_eq Z.eqb Z.eqb_eq). intros [= <-]. simpl.
      destruct (Js.Map.get Z.eqb m0 (clienteIdDe r)) as [a |] eqn:Ea; simpl.
      * now apply Hinv.
      * reflexivity.
    + rewrite (get_set_ne Z.eqb Z.eqb_eq) by exact Hne. apply Hinv.
Qed.

Lemma clientesPorId_In (db : Dados) (ids : list Z) (c : Cliente) :
  In c (clientesPorId db ids) -> exists dono, In (dono, c) (clienteTable db).
Proof.
  unfold clientesPorId. intro H. apply filter_In in H. destruct H as [H _].
  apply in_map_iff in H. destruct H as [[dono c'] [Heq Hin]].
  simpl in Heq. subst c'. now exists dono.
Qed.

(** C7, as the code has it. A revenue entry of the owner that refers to
    a client id no client carries (the id is not 0, which the handler
    reads as no client) still has its client in the client section,
    under the synthesized name "Cliente ID " followed by the id; every
    entry of the two client rankings is the entry of some client, and
    when at most three clients have purchases this one is in both. *)
Theorem clientes_nome_sintetizado (db : Dados) (usuarioId : string)
  (r : Receita) (id : Z) :
  In (usuarioId, r) (receitaTable db) ->
  r_clienteId r = Some id -> id <> 0%Z ->
  (forall dono c, In (dono, c) (clienteTable db) -> c_id c <> id) ->
  exists corpo,
    relatorio (prismaDe db) usuarioId = Resposta200 corpo /\
    let rs := map snd (filter (doUsuario usuarioId) (receitaTable db)) in
    let m := clientesMap rs (clientesPorId db (clientesIds rs)) in
    (exists e,
        In (id, e) m /\
        cr_nome e = "Cliente ID " ++ Js.numToString id /\
        (forall e', In (id, e') m -> e' = e) /\
        ((List.length m <= 3)%nat ->
         In e (sc_clientesQueMaisGastaram (clientes corpo)) /\
         In e (sc_clientesComMaisCompras (clientes corpo)))) /\
    (forall e',
        In e' (sc_clientesQueMaisGastaram (clientes corpo)) \/
        In e' (sc_clientesComMaisCompras (clientes corpo)) ->
        exists id', In (id', e') m).
Proof.
  intros Hr Hid Hnz Hnone.
  eexists. split; [reflexivity |]. simpl.
  change (map snd (filter (doUsuario usuarioId) (receitaTable db)))
    with (receitasDe db usuarioId).
  set (rs := receitasDe db usuarioId).
  set (cd := clientesPorId db (clientesIds rs)).
  assert (In id (map fst (clientesMap rs cd))) as Hkey.
  { apply clientesMap_keys. apply in_map_iff. exists r. split.
    - unfold clienteIdDe. now rewrite Hid.
    - unfold receitasComCliente. apply filter_In. split.
      + unfold rs, receitasDe. apply in_map_iff. exists (usuarioId, r).
        split; [reflexivity |]. apply filter_In. split; [exact Hr |].
        unfold doUsuario. simpl. apply String.eqb_refl.
      + unfold Js.truthyNum. rewrite Hid. apply negb_true_iff.
        now apply Z.eqb_neq. }
  destruct (Js.Map.get Z.eqb (clientesMap rs cd) id) as [e |] eqn:Eg;
    [| apply (get_None_keys Z.eqb Z.eqb_eq) in Eg; contradiction].
  split.
  - exists e. split; [now apply (get_In Z.eqb Z.eqb_eq) |].
    split; [| split].
    + rewrite (clientesMap_nome rs cd id e Eg).
      rewrite clienteNomeMap_None; [reflexivity |].
      intros c Hc. apply clientesPorId_In in Hc. destruct Hc as [dono Hc].
      exact (Hnone dono c Hc).
    + intros e' He'.
      apply (In_get Z.eqb Z.eqb_eq _ _ _ (clientesMap_NoDup rs cd)) in He'.
      congruence.
    + intro Hlen.
      assert (In e (Js.Map.values (clientesMap rs cd))) as Hv.
      { unfold Js.Map.values. apply in_map_iff. exists (id, e).
        split; [reflexivity | now apply (get_In Z.eqb Z.eqb_eq)]. }
      assert (List.length (Js.Map.values (clientesMap rs cd)) <= 3)%nat as Hl
          by (unfold Js.Map.values; now rewrite length_map).
      split.
      * apply slice_sort_all; [lia | exact Hv].
      * apply slice_sort_all; [exact Hl | exact Hv].
  - intros e' [He' | He']; apply slice_sort_In in He';
      unfold Js.Map.values in He'; apply in_map_iff in He';
      destruct He' as [[id' e''] [Heq Hin]]; simpl in Heq; subst e'';
      now exists id'.
Qed.

Lemma clientes_nome_sintetizado_witness :
  exists corpo,
    relatorio (prismaDe dadosEx) "u" = Resposta200 corpo /\
    let rs := map snd (filter (doUsuario "u") (receitaTable dadosEx)) in
    let m := clientesMap rs (clientesPorId dadosEx (clientesIds rs)) in
    (exists e,
        In (7%Z, e) m /\
        cr_nome e = "Cliente ID 7" /\
        (forall e', In (7%Z, e') m -> e' = e) /\
        ((List.length m <= 3)%nat ->
         In e (sc_clientesQueMaisGastaram (clientes corpo)) /\
         In e (sc_clientesComMaisCompras (clientes corpo)))) /\
    (forall e',
        In e' (sc_clientesQueMaisGastaram (clientes corpo)) \/
        In e' (sc_clientesComMaisCompras (clientes corpo)) ->
        exists id', In (id', e') m).
Proof.
  apply (clientes_nome_sintetizado dadosEx "u"
           (receitaEx 4 60 (Some "b") (Some 7%Z)) 7%Z).
  - simpl. tauto.
  - reflexivity.
  - discriminate.
  - intros dono c [H | []]. injection H as _ <-. discriminate.
Defined.

(** C7, as stated, fails on the example data set: client 7 of owner "u"
    is not registered, and both client rankings name it "Cliente ID 7";
    no entry is named "Client ID 7". *)
Lemma clientes_nao_Client_ID :
  exists corpo,
    relatorio (prismaDe dadosEx) "u" = Resposta200 corpo /\
    map cr_nome (sc_clientesQueMaisGastaram (clientes corpo)) =
      ["Cliente ID 7"; "Ana"] /\
    map cr_nome (sc_clientesComMaisCompras (clientes corpo)) =
      ["Cliente ID 7"; "Ana"] /\
    ~ exists e,
        (In e (sc_clientesQueMaisGastaram (clientes corpo)) \/
         In e (sc_clientesComMaisCompras (clientes corpo))) /\
        cr_nome e = "Client ID 7".
Proof.
  eexists. split; [reflexivity |].
  split; [reflexivity |]. split; [reflexivity |].
  intros [e [He Hn]]. vm_compute in He.
  destruct He as [[<- | [<- | []]] | [<- | [<- | []]]]; discriminate Hn.
Qed.

(** ** Sold products that cannot be resolved *)

Lemma find_temId_None (info : list Produto) (id : Z) :
  (forall p, In p info -> p_id p <> Some id) ->
  find (temId id) info = None.
Proof.
  intro H. destruct (find (temId id) info) as [p |] eqn:E; [exfalso | reflexivity].
  apply find_some in E. destruct E as [Hin Ht]. apply (H p Hin).
  unfold temId in Ht. destruct (p_id p) as [i |]; [| discriminate].
  apply Z.eqb_eq in Ht. now subst.
Qed.

Lemma produtosPorId_In (db : Dados) (ids : list Z) (p : Produto) :
  In p (produtosPorId db ids) ->
  exists linha, In linha (produtoTable db) /\ p_id p = Some (pr_id linha).
Proof.
  unfold produtosPorId. intro H. apply in_map_iff in H.
  destruct H as [linha [<- H]]. apply filter_In in H.
  exists linha. split; [tauto | reflexivity].
Qed.

(** An item whose product is not found is rendered through the default
    branch of the normalizer, and nothing supplies a name. *)
Lemma produtoMaisVendido_desconhecido (info : list Produto) (id : Z) (q : Q) :
  (forall p, In p info -> p_id p <> Some id) ->
  produtoMaisVendido info {| produtoId := id; sum_qtdBase := Some q |} =
  {| pv_nome := None; pv_quantidade := Js.Number q; pv_unidade := "un" |}.
Proof.
  intro H. unfold produtoMaisVendido. simpl.
  rewrite (find_temId_None info id H). reflexivity.
Qed.

Lemma arranjoDoBanco_perm (peso : Z -> Z) (grupos : list (Z * Q)) :
  Permutation (arranjoDoBanco peso grupos) grupos.
Proof. apply sort_perm. Qed.

Lemma gruposPorProduto_keys (db : Dados) (usuarioId : string) (id : Z) :
  In id (map fst (gruposPorProduto db usuarioId)) <->
  exists it, In it (receitaItemTable db) /\
             itemDoUsuario db usuarioId it = true /\ ri_produtoId it = id.
Proof.
  unfold gruposPorProduto.
  rewrite (keys_fold_In Z.eqb Z.eqb_eq ri_produtoId
             (fun m it => (Js.Map.get Z.eqb m (ri_produtoId it) ?? 0 + ri_qtdBase it)%Q)).
  simpl. rewrite in_map_iff. split.
  - intros [[] | [it [Hid Hin]]]. apply filter_In in Hin. exists it. tauto.
  - intros [it [Hin [Hu Hid]]]. right. exists it. split; [exact Hid |].
    apply filter_In. tauto.
Qed.

(** C4, as the code has it. When a line item of the owner refers to a
    product id that no product carries, the report is still produced, and
    the product is not left out of [produtosMaisVendidos]: the list has
    one entry per group of the top three, and the group of that id, where
    it is among them, is shown with no name, its summed quantity as it
    is, and the unit "un". With at most three products sold it is always
    among them. *)
Theorem produtosMaisVendidos_produto_desconhecido (db : Dados)
  (usuarioId : string) (it : ReceitaItemRow) :
  In it (receitaItemTable db) ->
  itemDoUsuario db usuarioId it = true ->
  (forall p, In p (produtoTable db) -> pr_id p <> ri_produtoId it) ->
  exists corpo,
    relatorio (prismaDe db) usuarioId = Resposta200 corpo /\
    let lista := sr_produtosMaisVendidos (receitas corpo) in
    let agg := produtosVendidosAggDe db usuarioId in
    List.length lista = List.length agg /\
    (forall i q,
        nth_error agg i =
          Some {| produtoId := ri_produtoId it; sum_qtdBase := Some q |} ->
        nth_error lista i =
          Some {| pv_nome := None; pv_quantidade := Js.Number q;
                  pv_unidade := "un" |}) /\
    ((List.length (gruposPorProduto db usuarioId) <= 3)%nat ->
     exists q, In {| pv_nome := None; pv_quantidade := Js.Number q;
                     pv_unidade := "un" |} lista).
Proof.
  intros Hin Hu Hnone.
  eexists. split; [reflexivity |]. simpl.
  change (produtosVendidosAggCom (fun _ : Z => 0%Z) db usuarioId)
    with (produtosVendidosAggDe db usuarioId).
  set (agg := produtosVendidosAggDe db usuarioId).
  assert (forall q,
             produtoMaisVendido (produtosPorId db (idsVendidos agg))
               {| produtoId := ri_produtoId it; sum_qtdBase := Some q |} =
             {| pv_nome := None; pv_quantidade := Js.Number q;
                pv_unidade := "un" |}) as Hdesc.
  { intro q. apply produtoMaisVendido_desconhecido. intros p Hp Hid.
    apply produtosPorId_In in Hp. destruct Hp as [linha [Hl Hpid]].
    rewrite Hpid in Hid. injection Hid as Hid. exact (Hnone linha Hl Hid). }
  unfold produtosMaisVendidos. split; [| split].
  - apply length_map.
  - intros i q Hi. rewrite nth_error_map, Hi. simpl. now rewrite Hdesc.
  - intro Hlen.
    assert (In (ri_produtoId it) (map fst (gruposPorProduto db usuarioId))) as Hk.
    { apply gruposPorProduto_keys. now exists it. }
    apply in_map_iff in Hk. destruct Hk as [[id q] [Hid Hg]]. simpl in Hid. subst id.
    exists q. rewrite <- Hdesc. apply in_map.
    unfold agg, produtosVendidosAggDe, produtosVendidosAggCom.
    apply in_map_iff. exists (ri_produtoId it, q). split; [reflexivity |].
    apply (slice_sort_all _ 3).
    + pose proof (Permutation_length
                    (arranjoDoBanco_perm (fun _ => 0%Z)
                       (gruposPorProduto db usuarioId))) as Hp.
      lia.
    + apply (Permutation_in _ (Permutation_sym (arranjoDoBanco_perm _ _))).
      exact Hg.
Qed.

Lemma produtosMaisVendidos_produto_desconhecido_witness :
  exists corpo,
    relatorio (prismaDe dadosEx) "u" = Resposta200 corpo /\
    let lista := sr_produtosMaisVendidos (receitas corpo) in
    let agg := produtosVendidosAggDe dadosEx "u" in
    List.length lista = List.length agg /\
    (forall i q,
        nth_error agg i = Some {| produtoId := 99; sum_qtdBase := Some q |} ->
        nth_error lista i =
          Some {| pv_nome := None; pv_quantidade := Js.Number q;
                  pv_unidade := "un" |}) /\
    ((List.length (gruposPorProduto dadosEx "u") <= 3)%nat ->
     exists q, In {| pv_nome := None; pv_quantidade := Js.Number q;
                     pv_unidade := "un" |} lista).
Proof.
  apply (produtosMaisVendidos_produto_desconhecido dadosEx "u"
           {| ri_receitaId := 2; ri_produtoId := 99; ri_qtdBase := 40 |}).
  - simpl. tauto.
  - reflexivity.
  - intros p [<- | [<- | []]]; discriminate.
Defined.

(** C4, as stated, fails on the example data set: owner "u" sold product
    1 and a product 99 that does not exist, and the list still has an
    entry for the latter, without a name. *)
Lemma produtosMaisVendidos_nao_exclui :
  exists corpo,
    relatorio (prismaDe dadosEx) "u" = Resposta200 corpo /\
    sr_produtosMaisVendidos (receitas corpo) =
      [{| pv_nome := Some "Farinha"; pv_quantidade := 5;
          pv_unidade := "kg" |};
       {| pv_nome := None; pv_quantidade := 40; pv_unidade := "un" |}] /\
    ~ soProdutosConhecidos dadosEx (sr_produtosMaisVendidos (receitas corpo)).
Proof.
  eexists. split; [reflexivity |]. split; [reflexivity |].
  intro H.
  destruct (H {| pv_nome := None; pv_quantidade := 40; pv_unidade := "un" |})
    as [p [_ Hp]].
  - right. now left.
  - discriminate Hp.
Qed.

(** ** The rankings of the report *)

Lemma rankingDe_inteiros {A B : Type} (n : nat) (agg : A -> Z)
  (cmp : A -> A -> Z) (mostra mostra' : A -> B) (l : list A) :
  (forall a b, cmp a b = (agg b - agg a)%Z) ->
  (forall a, mostra' a = mostra a) ->
  rankingDe n ordemInteiro agg l mostra (map mostra' (Js.slice0 n (Js.sort cmp l))).
Proof.
  intros Hcmp Hm. exists (Js.slice0 n (Js.sort cmp l)). split.
  - now apply TopN_inteiros.
  - apply map_ext, Hm.
Qed.

Lemma rankingDe_decimais {A B : Type} (n : nat) (agg : A -> Q)
  (cmp : A -> A -> Q) (mostra mostra' : A -> B) (l : list A) :
  (forall a b, cmp a b == agg b - agg a) ->
  (forall a, mostra' a = mostra a) ->
  rankingDe n ordemDecimal agg l mostra (map mostra' (Js.slice0 n (Js.sort cmp l))).
Proof.
  intros Hcmp Hm. exists (Js.slice0 n (Js.sort cmp l)). split.
  - now apply TopN_decimais.
  - apply map_ext, Hm.
Qed.

Lemma rankingDe_numeros {A B : Type} (n : nat) (agg : A -> float)
  (cmp : A -> A -> float) (ks : list float) (mostra mostra' : A -> B)
  (l : list A) :
  (forall a b, cmp a b = (agg b - agg a)%float) ->
  (forall a, mostra' a = mostra a) ->
  semNaN ks = true ->
  (forall a, In a l -> In (agg a) ks) ->
  rankingDe n ordemNumero agg l mostra (map mostra' (Js.slice0 n (Js.sort cmp l))).
Proof.
  intros Hcmp Hm Hks Hl. exists (Js.slice0 n (Js.sort cmp l)). split.
  - now apply (TopN_numeros agg cmp ks).
  - apply map_ext, Hm.
Qed.

(** The keys of a map filled by one [set] per element are the keys of the
    elements, each where it was first met. *)
Lemma keys_primeirasOcorrencias {K V X : Type} (eqb : K -> K -> bool)
  (chave : X -> K) (valor : list (K * V) -> X -> V) (l : list X) :
  map fst (fold_left (fun m x => Js.Map.set eqb m (chave x) (valor m x)) l []) =
  primeirasOcorrencias eqb (map chave l).
Proof. unfold primeirasOcorrencias. now rewrite keys_fold. Qed.

Lemma rankings_por_contagem (peso : Z -> Z) (db : Dados) (usuarioId : string)
  (corpo : Relatorio) :
  relatorio (prismaCom peso db) usuarioId = Resposta200 corpo ->
  RankingsPorContagem db usuarioId corpo.
Proof.
  intro H. apply relatorio_200 in H. injection H as <-. constructor; simpl.
  - apply rankingDe_inteiros; [| now intros [c n]].
    intros [c a] [c' b]. reflexivity.
  - apply rankingDe_inteiros; [| now intros [c d]].
    intros [c a] [c' b]. reflexivity.
  - unfold clientesComMaisCompras. rewrite <- (map_id (Js.slice0 3 _)).
    apply rankingDe_inteiros; [| reflexivity].
    intros a b. reflexivity.
  - unfold categoriasReceitasMap.
    rewrite (fold_left_guard (fun r => Js.truthy (r_categoria r))
               (fun m r => Js.Map.set String.eqb m (r_categoria r ?? "")
                             ((Js.Map.get String.eqb m (r_categoria r ?? "") ?? 0 + 1)%Z))).
    apply (keys_primeirasOcorrencias String.eqb (fun r => r_categoria r ?? "")
             (fun m r => (Js.Map.get String.eqb m (r_categoria r ?? "") ?? 0 + 1)%Z)).
  - apply (keys_primeirasOcorrencias String.eqb categoriaDaDespesa
             (fun m d =>
                {| count := (count (Js.Map.get String.eqb m (categoriaDaDespesa d)
                                      ?? {| count := 0; total := 0 |}) + 1)%Z;
                   total := (total (Js.Map.get String.eqb m (categoriaDaDespesa d)
                                      ?? {| count := 0; total := 0 |}) + Js.Number (d_valor d))%float |})).
  - apply (keys_primeirasOcorrencias Z.eqb clienteIdDe
             (fun m r =>
                let atual :=
                  Js.Map.get Z.eqb m (clienteIdDe r)
                    ?? {| cr_nome :=
                            Js.Map.get Z.eqb
                              (clienteNomeMap
                                 (clientesPorId db (clientesIds (receitasDe db usuarioId))))
                              (clienteIdDe r)
                              ?? ("Cliente ID " ++ Js.numToString (clienteIdDe r));
                          cr_totalGasto := 0; cr_contagem := 0 |} in
                {| cr_nome := cr_nome atual;
                   cr_totalGasto := (cr_totalGasto atual + Js.Number (r_valor r))%float;
                   cr_contagem := (cr_contagem atual + 1)%Z |})).
Qed.

Lemma ranking_de_produtos (peso : Z -> Z) (db : Dados) (usuarioId : string)
  (corpo : Relatorio) :
  relatorio (prismaCom peso db) usuarioId = Resposta200 corpo ->
  RankingDeProdutos peso db usuarioId corpo.
Proof.
  intro H. apply relatorio_200 in H. injection H as <-. constructor; simpl.
  - unfold produtosMaisVendidos. unfold produtosVendidosAggCom at 3.
    rewrite map_map.
    apply rankingDe_decimais; [| now intros [id q]].
    intros [c a] [c' b]. reflexivity.
  - apply arranjoDoBanco_perm.
  - apply (keys_primeirasOcorrencias Z.eqb ri_produtoId
             (fun m it => (Js.Map.get Z.eqb m (ri_produtoId it) ?? 0 + ri_qtdBase it)%Q)).
Qed.

Lemma rankings_por_valor (peso : Z -> Z) (db : Dados) (usuarioId : string)
  (corpo : Relatorio) :
  relatorio (prismaCom peso db) usuarioId = Resposta200 corpo ->
  agregadosSemNaN db usuarioId = true ->
  RankingsPorValor db usuarioId corpo.
Proof.
  intros H Hord. apply relatorio_200 in H. injection H as <-.
  unfold agregadosSemNaN, agregadosDoRelatorio in Hord. simpl in Hord.
  apply andb_true_iff in Hord. destruct Hord as [Hdesp Hord].
  apply andb_true_iff in Hord. destruct Hord as [Hcli Hord].
  apply andb_true_iff in Hord. destruct Hord as [Hcat Hord].
  apply andb_true_iff in Hord. destruct Hord as [Hprod _].
  assert (forall u casas un,
             rankingDe 3 ordemNumero saldoDisplay
               (filter (fun p => unidadeDisplay p =? u)
                  (produtosFormatadosEstoque (produtosEmEstoqueDe db usuarioId)))
               (fun p => {| pe_produto := p_nome (origem p);
                            pe_quantidade := Js.toFixed casas (saldoDisplay p);
                            pe_unidade := un |})
               (map (fun p => {| pe_produto := p_nome (origem p);
                                 pe_quantidade := Js.toFixed casas (saldoDisplay p);
                                 pe_unidade := un |})
                    (maioresPorUnidade u
                       (produtosFormatadosEstoque (produtosEmEstoqueDe db usuarioId)))))
    as Hun.
  { intros u casas un. unfold maioresPorUnidade.
    eapply rankingDe_numeros; [| reflexivity | exact Hprod |].
    - intros a b. reflexivity.
    - intros a Ha. apply filter_In in Ha. apply in_map. tauto. }
  constructor; simpl.
  - unfold valorGastoCategorias.
    eapply rankingDe_numeros; [| now intros [c d] | exact Hdesp |].
    + intros [c a] [c' b]. reflexivity.
    + intros a Ha. now apply (in_map (fun e => total (snd e))).
  - unfold clientesQueMaisGastaram. rewrite <- (map_id (Js.slice0 5 _)).
    eapply rankingDe_numeros; [| reflexivity | exact Hcli |].
    + intros a b. reflexivity.
    + intros a Ha. unfold Js.Map.values in Ha. apply in_map_iff in Ha.
      destruct Ha as [e [<- He]]. now apply (in_map (fun e => cr_totalGasto (snd e))).
  - unfold categoriasEstoque.
    eapply rankingDe_numeros; [| now intros [c q] | exact Hcat |].
    + intros [c a] [c' b]. reflexivity.
    + intros a Ha. now apply in_map.
  - apply Hun.
  - apply Hun.
  - apply Hun.
  - unfold categoriasEstoqueMap.
    rewrite (fold_left_guard (fun p => Js.truthy (p_categoria (origem p)))
               (fun m p => Js.Map.set String.eqb m (p_categoria (origem p) ?? "")
                             ((Js.Map.get String.eqb m (p_categoria (origem p) ?? "") ?? 0
                               + saldoDisplay p)%float))).
    apply (keys_primeirasOcorrencias String.eqb
             (fun p => p_categoria (origem p) ?? "")
             (fun m p => (Js.Map.get String.eqb m (p_categoria (origem p) ?? "") ?? 0
                          + saldoDisplay p)%float)).
Qed.




(* ------------------------------------------------------------------ *)
(** * Further properties of the routers *)
(* ------------------------------------------------------------------ *)

(** ** The password rules *)

Lemma contaCaracteres_minusculas (s : string) (k : Contadores) :
  (minusculas k <= minusculas (contaCaracteres s k))%Z /\
  (minusculas (contaCaracteres s k) = minusculas k <-> temCaractere ehMinuscula s = false).
Proof.
  revert k. induction s as [| c s IH]; intro k; simpl.
  - unfold temCaractere. simpl. split; [lia | tauto].
  - unfold temCaractere in *. simpl.
    destruct (ehMinuscula c) eqn:E1; [| destruct (ehMaiuscula c); [| destruct (ehNumero c)]];
      match goal with |- context [contaCaracteres s ?k'] =>
        destruct (IH k') as [Hle Hiff]; simpl in Hle, Hiff end;
      simpl; split; try lia; try exact Hiff.
Qed.

Lemma contaCaracteres_maiusculas (s : string) (k : Contadores) :
  (maiusculas k <= maiusculas (contaCaracteres s k))%Z /\
  (maiusculas (contaCaracteres s k) = maiusculas k <->
   temCaractere (fun c => negb (ehMinuscula c) && ehMaiuscula c) s = false).
Proof.
  revert k. induction s as [| c s IH]; intro k; simpl.
  - unfold temCaractere. simpl. split; [lia | tauto].
  - unfold temCaractere in *. simpl.
    destruct (ehMinuscula c) eqn:E1; [| destruct (ehMaiuscula c); [| destruct (ehNumero c)]];
      match goal with |- context [contaCaracteres s ?k'] =>
        destruct (IH k') as [Hle Hiff]; simpl in Hle, Hiff end;
      simpl; split; try lia; try exact Hiff.
Qed.

Lemma contaCaracteres_numeros (s : string) (k : Contadores) :
  (numeros k <= numeros (contaCaracteres s k))%Z /\
  (numeros (contaCaracteres s k) = numeros k <->
   temCaractere (fun c => negb (ehMinuscula c) && negb (ehMaiuscula c) && ehNumero c) s
   = false).
Proof.
  revert k. induction s as [| c s IH]; intro k; simpl.
  - unfold temCaractere. simpl. split; [lia | tauto].
  - unfold temCaractere in *. simpl.
    destruct (ehMinuscula c) eqn:E1; [| destruct (ehMaiuscula c); [| destruct (ehNumero c)]];
      match goal with |- context [contaCaracteres s ?k'] =>
        destruct (IH k') as [Hle Hiff]; simpl in Hle, Hiff end;
      simpl; split; try lia; try exact Hiff.
Qed.

Lemma contaCaracteres_simbolos (s : string) (k : Contadores) :
  (simbolos k <= simbolos (contaCaracteres s k))%Z /\
  (simbolos (contaCaracteres s k) = simbolos k <-> temCaractere ehSimbolo s = false).
Proof.
  revert k. induction s as [| c s IH]; intro k; simpl.
  - unfold temCaractere. simpl. split; [lia | tauto].
  - unfold temCaractere, ehSimbolo in *. simpl.
    destruct (ehMinuscula c) eqn:E1; [| destruct (ehMaiuscula c); [| destruct (ehNumero c)]];
      match goal with |- context [contaCaracteres s ?k'] =>
        destruct (IH k') as [Hle Hiff]; simpl in Hle, Hiff end;
      simpl; split; try lia; try exact Hiff.
Qed.

Lemma classes_disjuntas (c : ascii) :
  (negb (ehMinuscula c) && ehMaiuscula c = ehMaiuscula c) /\
  (negb (ehMinuscula c) && negb (ehMaiuscula c) && ehNumero c = ehNumero c).
Proof.
  unfold ehMinuscula, ehMaiuscula, ehNumero. cbv zeta.
  generalize (nat_of_ascii c). intro n.
  destruct (Nat.leb_spec 97 n), (Nat.leb_spec n 122), (Nat.leb_spec 65 n),
    (Nat.leb_spec n 90), (Nat.leb_spec 48 n), (Nat.leb_spec n 57);
    simpl; split; try reflexivity; lia.
Qed.

Lemma temCaractere_ext (p q : ascii -> bool) (s : string) :
  (forall c, p c = q c) -> temCaractere p s = temCaractere q s.
Proof.
  intro H. unfold temCaractere.
  induction (list_ascii_of_string s) as [| c l IH]; simpl; [reflexivity |].
  now rewrite H, IH.
Qed.

Lemma temCaractere_append (p : ascii -> bool) (s t : string) :
  temCaractere p (s ++ t) = temCaractere p s || temCaractere p t.
Proof.
  unfold temCaractere. induction s as [| c s IH]; simpl; [reflexivity |].
  now rewrite IH, orb_assoc.
Qed.

Lemma length_append_string (s t : string) :
  String.length (s ++ t) = (String.length s + String.length t)%nat.
Proof. induction s as [| c s IH]; simpl; [reflexivity | now rewrite IH]. Qed.

(** What each counter says once the loop is over. *)
Lemma contadores_zero (s : string) :
  let k := contaCaracteres s
             {| minusculas := 0; maiusculas := 0; numeros := 0; simbolos := 0 |} in
  (minusculas k =? 0)%Z = negb (temCaractere ehMinuscula s) /\
  (maiusculas k =? 0)%Z = negb (temCaractere ehMaiuscula s) /\
  (numeros k =? 0)%Z = negb (temCaractere ehNumero s) /\
  (simbolos k =? 0)%Z = negb (temCaractere ehSimbolo s).
Proof.
  set (k0 := {| minusculas := 0; maiusculas := 0; numeros := 0; simbolos := 0 |}).
  cbv zeta.
  destruct (contaCaracteres_minusculas s k0) as [_ H1].
  destruct (contaCaracteres_maiusculas s k0) as [_ H2].
  destruct (contaCaracteres_numeros s k0) as [_ H3].
  destruct (contaCaracteres_simbolos s k0) as [_ H4].
  rewrite (temCaractere_ext _ ehMaiuscula s) in H2
    by (intro c; apply (classes_disjuntas c)).
  rewrite (temCaractere_ext _ ehNumero s) in H3
    by (intro c; apply (classes_disjuntas c)).
  simpl in H1, H2, H3, H4.
  repeat split.
  - destruct (temCaractere ehMinuscula s); simpl;
      [apply Z.eqb_neq; intro E; apply H1 in E; discriminate
      | apply Z.eqb_eq; now apply H1].
  - destruct (temCaractere ehMaiuscula s); simpl;
      [apply Z.eqb_neq; intro E; apply H2 in E; discriminate
      | apply Z.eqb_eq; now apply H2].
  - destruct (temCaractere ehNumero s); simpl;
      [apply Z.eqb_neq; intro E; apply H3 in E; discriminate
      | apply Z.eqb_eq; now apply H3].
  - destruct (temCaractere ehSimbolo s); simpl;
      [apply Z.eqb_neq; intro E; apply H4 in E; discriminate
      | apply Z.eqb_eq; now apply H4].
Qed.

(** The errors are the messages of the rules the password breaks, in the
    order of the rules. *)
Lemma validaSenha_regras (senha : string) :
  validaSenha senha =
  map snd
    (filter fst
       [((String.length senha <? 8)%nat,
         "A senha deve possuir, no mínimo, 8 caracteres");
        (negb (temCaractere ehMinuscula senha),
         "A senha deve possuir letra(s) minúscula(s)");
        (negb (temCaractere ehMaiuscula senha),
         "A senha deve possuir letra(s) maiúscula(s)");
        (negb (temCaractere ehNumero senha),
         "A senha deve possuir número(s)");
        (negb (temCaractere ehSimbolo senha),
         "A senha deve possuir símbolo(s)")]).
Proof.
  unfold validaSenha. cbv zeta.
  destruct (contadores_zero senha) as [H1 [H2 [H3 H4]]]. cbv zeta in H1, H2, H3, H4.
  rewrite H1, H2, H3, H4.
  assert ((Z.of_nat (String.length senha) <? 8)%Z = (String.length senha <? 8)%nat) as Hl.
  { destruct (Nat.ltb_spec (String.length senha) 8);
      [apply Z.ltb_lt | apply Z.ltb_ge]; lia. }
  rewrite Hl.
  destruct (String.length senha <? 8)%nat, (temCaractere ehMinuscula senha),
    (temCaractere ehMaiuscula senha), (temCaractere ehNumero senha),
    (temCaractere ehSimbolo senha); reflexivity.
Qed.

(** X1. [validaSenha] accepts a password, returning no error, exactly
    when it has at least 8 characters and at least one lower-case letter,
    one upper-case letter, one digit and one other character. *)
Theorem validaSenha_aceita (senha : string) :
  validaSenha senha = [] <->
  (8 <= String.length senha)%nat /\
  temCaractere ehMinuscula senha = true /\
  temCaractere ehMaiuscula senha = true /\
  temCaractere ehNumero senha = true /\
  temCaractere ehSimbolo senha = true.
Proof.
  rewrite validaSenha_regras.
  destruct (Nat.ltb_spec (String.length senha) 8) as [Hl | Hl];
    destruct (temCaractere ehMinuscula senha), (temCaractere ehMaiuscula senha),
      (temCaractere ehNumero senha), (temCaractere ehSimbolo senha); simpl;
    split; try discriminate; try tauto;
    try (intros [H _]; lia);
    try (intros [_ [H1 [H2 [H3 H4]]]]; discriminate);
    try (intros _; repeat split; try reflexivity; exact Hl).
Qed.

(** X3. Typing more characters never adds an error: every error of a
    password extended at its end is already an error of the password. *)
Theorem validaSenha_extensao (senha resto : string) :
  incl (validaSenha (senha ++ resto)) (validaSenha senha).
Proof.
  rewrite !validaSenha_regras, !temCaractere_append.
  assert ((String.length (senha ++ resto) <? 8)%nat = true ->
          (String.length senha <? 8)%nat = true) as Hl.
  { rewrite length_append_string. intro H. apply Nat.ltb_lt in H.
    apply Nat.ltb_lt. lia. }
  destruct (String.length (senha ++ resto) <? 8)%nat;
    [rewrite (Hl eq_refl) | clear Hl;
       destruct (String.length senha <? 8)%nat];
    destruct (temCaractere ehMinuscula senha), (temCaractere ehMaiuscula senha),
      (temCaractere ehNumero senha), (temCaractere ehSimbolo senha);
    destruct (temCaractere ehMinuscula resto), (temCaractere ehMaiuscula resto),
      (temCaractere ehNumero resto), (temCaractere ehSimbolo resto);
    intros m Hm; simpl in *; tauto.
Qed.

(** X2. Each of the five messages of [validaSenha] is returned exactly
    when its rule is broken: fewer than 8 characters, no lower-case
    letter, no upper-case letter, no digit, no other character; no
    message is returned twice, so there are at most five. *)
Theorem validaSenha_mensagens (senha : string) :
  (In "A senha deve possuir, no mínimo, 8 caracteres" (validaSenha senha) <->
   (String.length senha < 8)%nat) /\
  (In "A senha deve possuir letra(s) minúscula(s)" (validaSenha senha) <->
   temCaractere ehMinuscula senha = false) /\
  (In "A senha deve possuir letra(s) maiúscula(s)" (validaSenha senha) <->
   temCaractere ehMaiuscula senha = false) /\
  (In "A senha deve possuir número(s)" (validaSenha senha) <->
   temCaractere ehNumero senha = false) /\
  (In "A senha deve possuir símbolo(s)" (validaSenha senha) <->
   temCaractere ehSimbolo senha = false) /\
  NoDup (validaSenha senha) /\
  (List.length (validaSenha senha) <= 5)%nat.
Proof.
  rewrite validaSenha_regras.
  destruct (Nat.ltb_spec (String.length senha) 8) as [Hl | Hl];
    destruct (temCaractere ehMinuscula senha), (temCaractere ehMaiuscula senha),
      (temCaractere ehNumero senha), (temCaractere ehSimbolo senha); simpl;
    (split; [| split; [| split; [| split; [| split; [| split]]]]]);
    try lia;
    try (repeat constructor; simpl; intuition discriminate);
    try (split; intro H; try reflexivity; try exact Hl; try discriminate H;
         try (exfalso; lia); try (now left); try (right; now left);
         try (do 2 right; now left); try (do 3 right; now left);
         try (do 4 right; now left);
         repeat (destruct H as [H | H]; try discriminate H); try contradiction).
Qed.

Example validaSenha_exemplos :
  validaSenha "Abcdef1!" = [] /\
  validaSenha "Abc 1234" = [] /\
  validaSenha "abcdefgh" =
    ["A senha deve possuir letra(s) maiúscula(s)";
     "A senha deve possuir número(s)";
     "A senha deve possuir símbolo(s)"] /\
  List.length (validaSenha "") = 5%nat.
Proof. repeat split. Qed.

(** ** The unit normalizer on any product *)

(** X4. Whatever the product object, the normalizer returns it untouched
    beside a unit label that is "kg" exactly for the tag "G", "L" exactly
    for the tag "ML" and "un" otherwise; the quantity shown is the base
    quantity read as a number, 0 when there is none, divided by 1000
    under "kg" and "L" and as it is under "un". *)
Theorem formatarProdutoParaExibicao_geral (p : Produto) :
  let f := formatarProdutoParaExibicao p in
  let base := Js.Number (p_saldoBase p ?? 0%Q) in
  origem f = p /\
  (unidadeDisplay f = "kg" <-> p_unidadeBase p = Some "G") /\
  (unidadeDisplay f = "L" <-> p_unidadeBase p = Some "ML") /\
  (unidadeDisplay f = "un" <->
   p_unidadeBase p <> Some "G" /\ p_unidadeBase p <> Some "ML") /\
  saldoDisplay f =
    (if unidadeDisplay f =? "un" then base else (base / 1000)%float) /\
  (p_saldoBase p = None -> saldoDisplay f = 0%float).
Proof.
  cbv zeta. unfold formatarProdutoParaExibicao, Js.eqLit.
  destruct (p_unidadeBase p) as [u |].
  - destruct (u =? "G") eqn:Eg.
    + apply String.eqb_eq in Eg. subst u. simpl.
      repeat split; try discriminate; try tauto; try (intros [H _]; congruence).
      intros ->. reflexivity.
    + destruct (u =? "ML") eqn:Eml.
      * apply String.eqb_eq in Eml. subst u. simpl.
        repeat split; try discriminate; try tauto; try (intros [_ H]; congruence).
        intros ->. reflexivity.
      * apply String.eqb_neq in Eg, Eml. simpl.
        repeat split; try discriminate; try tauto; try congruence.
        intros ->. reflexivity.
  - simpl. repeat split; try discriminate; try tauto.
    intros ->. reflexivity.
Qed.

(** ** What a map filled by a [forEach] holds *)

Section Acumula.
Context {K V X W : Type} (eqb : K -> K -> bool).
Hypothesis eqb_eq : forall a b, eqb a b = true <-> a = b.
Context (chave : X -> K) (valor : list (K * V) -> X -> V).
Context (proj : V -> W) (w0 : W) (passo : W -> X -> W).

Hypothesis valor_passo :
  forall m x,
    proj (valor m x) =
    passo (match Js.Map.get eqb m (chave x) with Some v => proj v | None => w0 end) x.

(** What is kept under [k] is what the elements of key [k] leave, taken
    one after the other in the order of the list. *)
Lemma fold_acumula (l : list X) (m0 : list (K * V)) (k : K) :
  match Js.Map.get eqb
          (fold_left (fun m x => Js.Map.set eqb m (chave x) (valor m x)) l m0) k
  with Some v => proj v | None => w0 end =
  fold_left passo (filter (fun x => eqb (chave x) k) l)
    (match Js.Map.get eqb m0 k with Some v => proj v | None => w0 end).
Proof.
  revert m0. induction l as [| x l IH]; intro m0; simpl.
  - reflexivity.
  - rewrite IH. destruct (eqb (chave x) k) eqn:E; simpl.
    + apply eqb_eq in E. subst k.
      now rewrite (get_set_eq eqb eqb_eq), valor_passo.
    + rewrite (get_set_ne eqb eqb_eq).
      * reflexivity.
      * intro Heq. apply eqb_eq in Heq. congruence.
Qed.

End Acumula.

Section ContagemTotal.
Context {K V X : Type} (eqb : K -> K -> bool).
Context (chave : X -> K) (valor : list (K * V) -> X -> V) (proj : V -> Z).

Hypothesis valor_conta :
  forall m x,
    proj (valor m x) =
    (match Js.Map.get eqb m (chave x) with Some v => proj v | None => 0 end + 1)%Z.

Lemma set_somaInteiros (m : list (K * V)) (k : K) (v : V) :
  somaInteiros (map proj (map snd (Js.Map.set eqb m k v))) =
  (somaInteiros (map proj (map snd m))
   - match Js.Map.get eqb m k with Some v' => proj v' | None => 0 end + proj v)%Z.
Proof.
  induction m as [| [k' v'] m IH]; simpl.
  - lia.
  - destruct (eqb k' k); simpl.
    + lia.
    + rewrite IH. lia.
Qed.

(** The counts of all the keys add up to the number of elements. *)
Lemma fold_conta_total (l : list X) (m0 : list (K * V)) :
  somaInteiros (map proj (map snd
    (fold_left (fun m x => Js.Map.set eqb m (chave x) (valor m x)) l m0))) =
  (somaInteiros (map proj (map snd m0)) + Js.len l)%Z.
Proof.
  revert m0. induction l as [| x l IH]; intro m0; simpl.
  - unfold Js.len. simpl. lia.
  - rewrite IH, set_somaInteiros, valor_conta. unfold Js.len.
    cbn [List.length]. destruct (Js.Map.get eqb m0 (chave x)); lia.
Qed.

End ContagemTotal.

Lemma filter_filter {X : Type} (p q : X -> bool) (l : list X) :
  filter p (filter q l) = filter (fun x => q x && p x) l.
Proof.
  induction l as [| x l IH]; simpl; [reflexivity |].
  destruct (q x); simpl; [destruct (p x) |]; now rewrite IH.
Qed.

Lemma somaInteiros_perm (l l' : list Z) :
  Permutation l l' -> somaInteiros l = somaInteiros l'.
Proof.
  unfold somaInteiros.
  induction 1 as [| x l l' _ IH | x y l | l l' l'' _ IH1 _ IH2];
    cbn [fold_right]; lia.
Qed.

(** ** What the expense buckets hold *)

Lemma categoriasDespesasMap_total (ds : list Despesa) (cat : string) :
  match Js.Map.get String.eqb (categoriasDespesasMap ds) cat with
  | Some data => total data
  | None => 0%float
  end =
  somaNumeros (map (fun d => Js.Number (d_valor d))
                   (filter (fun d => categoriaDaDespesa d =? cat) ds)).
Proof.
  unfold categoriasDespesasMap, somaNumeros. cbv zeta.
  rewrite <- (fold_left_somaNumeros (fun d => Js.Number (d_valor d))).
  apply (fold_acumula String.eqb String.eqb_eq categoriaDaDespesa
           (fun m d =>
              {| count := (count (Js.Map.get String.eqb m (categoriaDaDespesa d)
                                    ?? {| count := 0; total := 0 |}) + 1)%Z;
                 total := (total (Js.Map.get String.eqb m (categoriaDaDespesa d)
                                    ?? {| count := 0; total := 0 |}) + Js.Number (d_valor d))%float |})
           total 0%float (fun w d => (w + Js.Number (d_valor d))%float)).
  intros m d. simpl. now destruct (Js.Map.get String.eqb m _).
Qed.

Lemma categoriasDespesasMap_keys (ds : list Despesa) (cat : string) :
  In cat (map fst (categoriasDespesasMap ds)) <->
  exists d, In d ds /\ categoriaDaDespesa d = cat.
Proof.
  unfold categoriasDespesasMap.
  rewrite (keys_fold_In String.eqb String.eqb_eq categoriaDaDespesa
             (fun m d =>
                {| count := (count (Js.Map.get String.eqb m (categoriaDaDespesa d)
                                      ?? {| count := 0; total := 0 |}) + 1)%Z;
                   total := (total (Js.Map.get String.eqb m (categoriaDaDespesa d)
                                      ?? {| count := 0; total := 0 |}) + Js.Number (d_valor d))%float |})).
  simpl. rewrite in_map_iff. split.
  - intros [[] | [d [H1 H2]]]. now exists d.
  - intros [d [H1 H2]]. right. now exists d.
Qed.

Lemma len_filter_pos {X : Type} (p : X -> bool) (l : list X) (x : X) :
  In x l -> p x = true -> (0 < Js.len (filter p l))%Z.
Proof.
  intros Hin Hp.
  assert (In x (filter p l)) as H by (apply filter_In; now split).
  unfold Js.len. destruct (filter p l); [contradiction | simpl; lia].
Qed.

(** X5. Every entry of the two expense rankings reports its bucket: the
    count is the number of the owner's expenses that fall under the label
    (at least one), and the amount is the sum of their values, added as
    numbers in the order of the rows. *)
Theorem despesas_por_categoria (db : Dados) (usuarioId : string) :
  exists corpo,
    relatorio (prismaDe db) usuarioId = Resposta200 corpo /\
    let ds := map snd (filter (doUsuario usuarioId) (despesaTable db)) in
    (forall e, In e (sd_categoriasMaisDespesas (despesas corpo)) ->
       cc_contagem e =
         Js.len (filter (fun d => categoriaDaDespesa d =? cc_categoria e) ds) /\
       (0 < cc_contagem e)%Z) /\
    (forall e, In e (sd_valorGastoCategorias (despesas corpo)) ->
       cv_valor e =
         somaNumeros
           (map (fun d => Js.Number (d_valor d))
                (filter (fun d => categoriaDaDespesa d =? cv_categoria e) ds))).
Proof.
  eexists. split; [reflexivity |]. simpl.
  change (map snd (filter (doUsuario usuarioId) (despesaTable db)))
    with (despesasDe db usuarioId).
  set (ds := despesasDe db usuarioId).
  assert (forall cat data, In (cat, data) (categoriasDespesasMap ds) ->
            Js.Map.get String.eqb (categoriasDespesasMap ds) cat = Some data) as Hget.
  { intros cat data H.
    apply (In_get String.eqb String.eqb_eq); [apply categoriasDespesasMap_NoDup | exact H]. }
  split.
  - intros e He. unfold categoriasMaisDespesas in He.
    apply in_map_iff in He. destruct He as [[cat data] [<- He]]. simpl.
    apply slice_sort_In in He. unfold Js.Map.entries in He.
    assert (count data =
            Js.len (filter (fun d => categoriaDaDespesa d =? cat) ds)) as Hc
        by (apply categoriasDespesasMap_count; now apply Hget).
    split; [exact Hc |]. rewrite Hc.
    assert (In cat (map fst (categoriasDespesasMap ds))) as Hk
        by (apply in_map_iff; now exists (cat, data)).
    apply categoriasDespesasMap_keys in Hk. destruct Hk as [d [Hd Hcat]].
    apply (len_filter_pos _ _ d Hd). subst cat. apply String.eqb_refl.
  - intros e He. unfold valorGastoCategorias in He.
    apply in_map_iff in He. destruct He as [[cat data] [<- He]]. simpl.
    apply slice_sort_In in He. unfold Js.Map.entries in He.
    rewrite <- categoriasDespesasMap_total. now rewrite (Hget cat data He).
Qed.

(** X6. Every expense falls in exactly one bucket: over all buckets the
    counts add up to the number of the owner's expenses, and so do the
    counts of the ranking by count when there are at most three
    buckets. *)
Theorem despesas_categorias_somam (db : Dados) (usuarioId : string) :
  exists corpo,
    relatorio (prismaDe db) usuarioId = Resposta200 corpo /\
    let ds := map snd (filter (doUsuario usuarioId) (despesaTable db)) in
    somaInteiros (map (fun e => count (snd e)) (categoriasDespesasMap ds)) =
      Js.len ds /\
    ((List.length (categoriasDespesasMap ds) <= 3)%nat ->
     somaInteiros (map cc_contagem (sd_categoriasMaisDespesas (despesas corpo))) =
       Js.len ds).
Proof.
  eexists. split; [reflexivity |]. simpl.
  change (map snd (filter (doUsuario usuarioId) (despesaTable db)))
    with (despesasDe db usuarioId).
  set (ds := despesasDe db usuarioId).
  assert (somaInteiros (map (fun e => count (snd e)) (categoriasDespesasMap ds)) =
          Js.len ds) as Hc.
  { rewrite <- (map_map snd count).
    unfold categoriasDespesasMap. cbv zeta.
    rewrite (fold_conta_total String.eqb categoriaDaDespesa
               (fun m d =>
                  {| count := (count (Js.Map.get String.eqb m (categoriaDaDespesa d)
                                        ?? {| count := 0; total := 0 |}) + 1)%Z;
                     total := (total (Js.Map.get String.eqb m (categoriaDaDespesa d)
                                        ?? {| count := 0; total := 0 |}) + Js.Number (d_valor d))%float |})
               count).
    - reflexivity.
    - intros m d. simpl. now destruct (Js.Map.get String.eqb m _). }
  split; [exact Hc |].
  intro Hlen. rewrite <- Hc. unfold categoriasMaisDespesas. rewrite map_map.
  rewrite (map_ext _ (fun e => count (snd e))) by (now intros [c d]).
  apply somaInteiros_perm, Permutation_map. now apply slice_sort_perm.
Qed.

(** ** What the revenue buckets hold *)

Lemma categoriasReceitasMap_count (rs : list Receita) (cat : string) :
  cat <> "" ->
  Js.Map.get String.eqb (categoriasReceitasMap rs) cat ?? 0%Z =
  Js.len (filter (fun r => Js.eqLit (r_categoria r) cat) rs).
Proof.
  intro Hne. unfold categoriasReceitasMap.
  rewrite (fold_left_guard (fun r => Js.truthy (r_categoria r))
             (fun m r => Js.Map.set String.eqb m (r_categoria r ?? "")
                           ((Js.Map.get String.eqb m (r_categoria r ?? "") ?? 0 + 1)%Z))).
  pose proof (fold_conta String.eqb String.eqb_eq (fun r => r_categoria r ?? "")
                (fun m r => (Js.Map.get String.eqb m (r_categoria r ?? "") ?? 0 + 1)%Z)
                (fun n => n)) as Hc.
  cbv beta zeta in Hc.
  specialize (Hc (fun m r => eq_refl)
                 (filter (fun r => Js.truthy (r_categoria r)) rs) [] cat).
  unfold Js.ouSe at 1. rewrite Hc. simpl.
  rewrite filter_filter. f_equal. apply filter_ext. intro r.
  unfold Js.truthy, Js.eqLit. destruct (r_categoria r) as [c |]; simpl; [| reflexivity].
  destruct (c =? "") eqn:E; simpl; [| reflexivity].
  apply String.eqb_eq in E. subst c. symmetry. apply String.eqb_neq.
  intro H. now apply Hne.
Qed.

(** X7. Every entry of [categoriasMaisVendidas] counts exactly the
    owner's revenue entries whose category is its label, compared as it
    is written, and there is at least one. *)
Theorem categoriasMaisVendidas_contagem (db : Dados) (usuarioId : string) :
  exists corpo,
    relatorio (prismaDe db) usuarioId = Resposta200 corpo /\
    let rs := map snd (filter (doUsuario usuarioId) (receitaTable db)) in
    forall e, In e (sr_categoriasMaisVendidas (receitas corpo)) ->
      cc_contagem e =
        Js.len (filter (fun r => Js.eqLit (r_categoria r) (cc_categoria e)) rs) /\
      (0 < cc_contagem e)%Z.
Proof.
  eexists. split; [reflexivity |]. simpl.
  change (map snd (filter (doUsuario usuarioId) (receitaTable db)))
    with (receitasDe db usuarioId).
  set (rs := receitasDe db usuarioId).
  intros e He. unfold categoriasMaisVendidas in He.
  apply in_map_iff in He. destruct He as [[cat n] [<- He]]. simpl.
  apply slice_sort_In in He. unfold Js.Map.entries in He.
  assert (In cat (map fst (categoriasReceitasMap rs))) as Hk
      by (apply in_map_iff; now exists (cat, n)).
  destruct (categoriasReceitasMap_keys rs cat Hk) as [Hne [r [Hr Hc]]].
  assert (Js.Map.get String.eqb (categoriasReceitasMap rs) cat = Some n) as Hg.
  { apply (In_get String.eqb String.eqb_eq); [| exact He].
    unfold categoriasReceitasMap.
    rewrite (fold_left_guard (fun r => Js.truthy (r_categoria r))
               (fun m r => Js.Map.set String.eqb m (r_categoria r ?? "")
                             ((Js.Map.get String.eqb m (r_categoria r ?? "") ?? 0 + 1)%Z))).
    apply (keys_fold_NoDup String.eqb String.eqb_eq (fun r => r_categoria r ?? "")
             (fun m r => (Js.Map.get String.eqb m (r_categoria r ?? "") ?? 0 + 1)%Z)).
    constructor. }
  pose proof (categoriasReceitasMap_count rs cat Hne) as Hn.
  rewrite Hg in Hn. simpl in Hn. split; [exact Hn |].
  rewrite Hn. apply (len_filter_pos _ _ r Hr).
  unfold Js.eqLit. rewrite Hc. apply String.eqb_refl.
Qed.

(** ** What the client entries hold *)

Lemma filter_doCliente (rs : list Receita) (id : Z) :
  id <> 0%Z ->
  filter (fun r => (clienteIdDe r =? id)%Z) (receitasComCliente rs) =
  filter (doCliente id) rs.
Proof.
  intro Hnz. unfold receitasComCliente. rewrite filter_filter.
  apply filter_ext. intro r.
  unfold Js.truthyNum, clienteIdDe, doCliente, Js.ouSe.
  destruct (r_clienteId r) as [i |]; simpl; [| reflexivity].
  destruct (i =? 0)%Z eqn:E; simpl; [| reflexivity].
  apply Z.eqb_eq in E. subst i. symmetry. apply Z.eqb_neq. congruence.
Qed.

Lemma clientesMap_agrega (rs : list Receita) (cd : list Cliente) (id : Z)
  (e : ClienteResumo) :
  Js.Map.get Z.eqb (clientesMap rs cd) id = Some e ->
  id <> 0%Z /\
  cr_contagem e = Js.len (filter (doCliente id) rs) /\
  (0 < cr_contagem e)%Z /\
  cr_totalGasto e =
    somaNumeros (map (fun r => Js.Number (r_valor r)) (filter (doCliente id) rs)).
Proof.
  intro Hg.
  assert (In id (map clienteIdDe (receitasComCliente rs))) as Hk.
  { apply (clientesMap_keys rs cd). apply in_map_iff. exists (id, e).
    split; [reflexivity | now apply (get_In Z.eqb Z.eqb_eq)]. }
  apply in_map_iff in Hk. destruct Hk as [r [Hid Hr]].
  assert (id <> 0%Z) as Hnz.
  { unfold receitasComCliente in Hr. apply filter_In in Hr. destruct Hr as [_ Ht].
    unfold clienteIdDe in Hid. unfold Js.truthyNum in Ht.
    destruct (r_clienteId r) as [i |]; [| discriminate]. simpl in Hid. subst i.
    apply negb_true_iff in Ht. now apply Z.eqb_neq. }
  split; [exact Hnz |].
  rewrite <- (filter_doCliente rs id Hnz).
  assert (cr_contagem e =
          Js.len (filter (fun r => (clienteIdDe r =? id)%Z) (receitasComCliente rs)))
    as Hc.
  { pose proof (fold_conta Z.eqb Z.eqb_eq clienteIdDe
                  (fun m r =>
                     let atual :=
                       Js.Map.get Z.eqb m (clienteIdDe r)
                         ?? {| cr_nome :=
                                 Js.Map.get Z.eqb (clienteNomeMap cd) (clienteIdDe r)
                                   ?? ("Cliente ID " ++ Js.numToString (clienteIdDe r));
                               cr_totalGasto := 0; cr_contagem := 0 |} in
                     {| cr_nome := cr_nome atual;
                        cr_totalGasto := (cr_totalGasto atual + Js.Number (r_valor r))%float;
                        cr_contagem := (cr_contagem atual + 1)%Z |})
                  cr_contagem) as H.
    cbv beta zeta in H.
    specialize (H (fun m r => ltac:(simpl; now destruct (Js.Map.get Z.eqb m _)))
                  (receitasComCliente rs) [] id).
    unfold clientesMap in Hg. cbv zeta in Hg. rewrite Hg in H. simpl in H. exact H. }
  split; [exact Hc |]. split.
  - rewrite Hc. apply (len_filter_pos _ _ r Hr). now apply Z.eqb_eq.
  - pose proof (fold_acumula Z.eqb Z.eqb_eq clienteIdDe
                  (fun m r =>
                     let atual :=
                       Js.Map.get Z.eqb m (clienteIdDe r)
                         ?? {| cr_nome :=
                                 Js.Map.get Z.eqb (clienteNomeMap cd) (clienteIdDe r)
                                   ?? ("Cliente ID " ++ Js.numToString (clienteIdDe r));
                               cr_totalGasto := 0; cr_contagem := 0 |} in
                     {| cr_nome := cr_nome atual;
                        cr_totalGasto := (cr_totalGasto atual + Js.Number (r_valor r))%float;
                        cr_contagem := (cr_contagem atual + 1)%Z |})
                  cr_totalGasto 0%float
                  (fun w r => (w + Js.Number (r_valor r))%float)) as H.
    cbv beta zeta in H.
    specialize (H (fun m r => ltac:(simpl; now destruct (Js.Map.get Z.eqb m _)))
                  (receitasComCliente rs) [] id).
    unfold clientesMap in Hg. cbv zeta in Hg. rewrite Hg in H. simpl in H.
    rewrite H. unfold somaNumeros.
    now rewrite (fold_left_somaNumeros (fun r => Js.Number (r_valor r))).
Qed.

(** X8. Every entry of the two client rankings is the record of one
    client id, never 0: its purchase count is the number of the owner's
    revenue entries that refer to that client (at least one) and its
    amount spent is the sum of their values, added as numbers in the
    order of the rows. *)
Theorem clientes_agregados (db : Dados) (usuarioId : string) :
  exists corpo,
    relatorio (prismaDe db) usuarioId = Resposta200 corpo /\
    let rs := map snd (filter (doUsuario usuarioId) (receitaTable db)) in
    forall e,
      In e (sc_clientesQueMaisGastaram (clientes corpo)) \/
      In e (sc_clientesComMaisCompras (clientes corpo)) ->
      exists id,
        id <> 0%Z /\
        cr_contagem e = Js.len (filter (doCliente id) rs) /\
        (0 < cr_contagem e)%Z /\
        cr_totalGasto e =
          somaNumeros
            (map (fun r => Js.Number (r_valor r)) (filter (doCliente id) rs)).
Proof.
  eexists. split; [reflexivity |]. simpl.
  change (map snd (filter (doUsuario usuarioId) (receitaTable db)))
    with (receitasDe db usuarioId).
  set (rs := receitasDe db usuarioId).
  set (cd := clientesPorId db (clientesIds rs)).
  intros e He.
  assert (In e (Js.Map.values (clientesMap rs cd))) as Hv
      by (destruct He as [He | He]; now apply slice_sort_In in He).
  unfold Js.Map.values in Hv. apply in_map_iff in Hv.
  destruct Hv as [[id e'] [Heq Hin]]. simpl in Heq. subst e'.
  exists id. apply (clientesMap_agrega rs cd).
  apply (In_get Z.eqb Z.eqb_eq); [apply clientesMap_NoDup | exact Hin].
Qed.

(** ** The client ids looked up *)

Lemma indexOfDe_pre (pre l : list Z) (x i0 : Z) :
  (~ In x pre ->
   Js.indexOfDe i0 (pre ++ x :: l) x = (i0 + Z.of_nat (List.length pre))%Z) /\
  (In x pre ->
   (Js.indexOfDe i0 (pre ++ x :: l) x < i0 + Z.of_nat (List.length pre))%Z).
Proof.
  revert i0. induction pre as [| p pre IH]; intro i0; simpl.
  - rewrite Z.eqb_refl. split; [intros _; lia | tauto].
  - destruct (IH (i0 + 1)%Z) as [IH1 IH2].
    destruct (p =? x)%Z eqn:E.
    + apply Z.eqb_eq in E. split; [intro H; exfalso; apply H; now left | intros _; lia].
    + apply Z.eqb_neq in E. split.
      * intro H. rewrite IH1 by tauto. lia.
      * intros [H | H]; [contradiction |]. specialize (IH2 H). lia.
Qed.

(** [filter((v, i, a) => a.indexOf(v) === i)] keeps the first occurrence
    of each value. *)
Lemma filteri_indexOf (l pre vistos : list Z) :
  (forall x, In x vistos <-> In x pre) ->
  fold_left (fun vistos k => if existsb (fun k' => (k' =? k)%Z) vistos
                             then vistos else (vistos ++ [k])%list) l vistos =
  (vistos ++
   Js.filteriDe (Z.of_nat (List.length pre))
     (fun v i => (Js.indexOfDe 0 (pre ++ l) v =? i)%Z) l)%list.
Proof.
  revert pre vistos. induction l as [| x l IH]; intros pre vistos Hv; simpl.
  - now rewrite app_nil_r.
  - destruct (indexOfDe_pre pre l x 0) as [H1 H2].
    assert (pre ++ x :: l = (pre ++ [x]) ++ l)%list as Happ
        by (now rewrite <- app_assoc).
    assert (Z.of_nat (List.length pre) + 1 = Z.of_nat (List.length (pre ++ [x])))%Z
      as Hlen by (rewrite length_app; simpl; lia).
    destruct (existsb (fun k' => (k' =? x)%Z) vistos) eqn:E.
    + assert (In x pre) as Hin.
      { apply existsb_exists in E. destruct E as [k [Hk Hkx]].
        apply Z.eqb_eq in Hkx. subst k. now apply Hv. }
      specialize (H2 Hin).
      replace (Js.indexOfDe 0 (pre ++ x :: l) x =? Z.of_nat (List.length pre))%Z
        with false by (symmetry; apply Z.eqb_neq; lia).
      rewrite Happ, Hlen. apply IH.
      intro y. rewrite in_app_iff. simpl. rewrite Hv.
      split; [tauto |]. intros [H | [<- | []]]; tauto.
    + assert (~ In x pre) as Hnin.
      { intro Hin. apply Hv in Hin.
        assert (existsb (fun k' => (k' =? x)%Z) vistos = true) as Ht
            by (apply existsb_exists; exists x; split; [exact Hin | apply Z.eqb_refl]).
        congruence. }
      rewrite (H1 Hnin). rewrite Z.eqb_refl.
      rewrite Happ, Hlen.
      rewrite (IH (pre ++ [x])%list (vistos ++ [x])%list).
      * now rewrite <- app_assoc.
      * intro y. rewrite !in_app_iff. now rewrite Hv.
Qed.

Lemma clientesIds_primeiras (rs : list Receita) :
  clientesIds rs =
  primeirasOcorrencias Z.eqb (map clienteIdDe (receitasComCliente rs)).
Proof.
  unfold clientesIds, primeirasOcorrencias, Js.filteri, Js.indexOf. cbv zeta.
  rewrite (filteri_indexOf _ [] []); [reflexivity | tauto].
Qed.

Lemma primeirasOcorrencias_keys (l : list Z) :
  primeirasOcorrencias Z.eqb l =
  map fst (fold_left (fun m x => Js.Map.set Z.eqb m x tt) l []).
Proof.
  rewrite (keys_primeirasOcorrencias (V := unit) Z.eqb (fun x : Z => x)
             (fun _ _ => tt) l).
  now rewrite map_id.
Qed.

Lemma clientesIds_In (rs : list Receita) (id : Z) :
  In id (clientesIds rs) <->
  id <> 0%Z /\ exists r, In r rs /\ r_clienteId r = Some id.
Proof.
  rewrite clientesIds_primeiras, primeirasOcorrencias_keys.
  rewrite (keys_fold_In Z.eqb Z.eqb_eq (fun x : Z => x) (fun _ _ => tt)).
  rewrite map_id. simpl. rewrite in_map_iff. split.
  - intros [[] | [r [Hid Hr]]].
    unfold receitasComCliente in Hr. apply filter_In in Hr. destruct Hr as [Hr Ht].
    unfold clienteIdDe in Hid. unfold Js.truthyNum in Ht.
    destruct (r_clienteId r) as [i |] eqn:Ei; [| discriminate].
    simpl in Hid. subst i. apply negb_true_iff in Ht. apply Z.eqb_neq in Ht.
    split; [exact Ht | now exists r].
  - intros [Hnz [r [Hr Hid]]]. right. exists r. split.
    + unfold clienteIdDe. now rewrite Hid.
    + unfold receitasComCliente. apply filter_In. split; [exact Hr |].
      unfold Js.truthyNum. rewrite Hid. apply negb_true_iff. now apply Z.eqb_neq.
Qed.

(** X9. The client ids the handler looks up are the ids of the owner's
    revenue entries that have a client, each once, in the order in which
    they are first met; 0 is never among them. *)
Theorem clientesIds_sem_repeticao (rs : list Receita) :
  clientesIds rs =
    primeirasOcorrencias Z.eqb (map clienteIdDe (receitasComCliente rs)) /\
  NoDup (clientesIds rs) /\
  forall id, In id (clientesIds rs) <->
             id <> 0%Z /\ exists r, In r rs /\ r_clienteId r = Some id.
Proof.
  split; [apply clientesIds_primeiras |]. split; [| apply clientesIds_In].
  rewrite clientesIds_primeiras, primeirasOcorrencias_keys.
  apply (keys_fold_NoDup Z.eqb Z.eqb_eq (fun x : Z => x) (fun _ _ => tt)).
  constructor.
Qed.

(** ** Clients that are registered *)

Lemma clienteNomeMap_Some (cd : list Cliente) (id : Z) (nome : string) :
  (exists c, In c cd /\ c_id c = id) ->
  (forall c, In c cd -> c_id c = id -> c_nome c = nome) ->
  Js.Map.get Z.eqb (clienteNomeMap cd) id = Some nome.
Proof.
  unfold clienteNomeMap. generalize (@nil (Z * string)).
  induction cd as [| c cd IH]; intros m0 [c0 [Hin Hid]] Hall; simpl.
  - contradiction.
  - destruct (existsb (fun c' => (c_id c' =? id)%Z) cd) eqn:E.
    + apply IH.
      * apply existsb_exists in E. destruct E as [c' [Hc' Hid']].
        apply Z.eqb_eq in Hid'. now exists c'.
      * intros c' Hc'. apply Hall. now right.
    + assert (c_id c = id) as Hc.
      { destruct Hin as [<- | Hin]; [exact Hid | exfalso].
        assert (existsb (fun c' => (c_id c' =? id)%Z) cd = true) as Ht
            by (apply existsb_exists; exists c0; split;
                [exact Hin | now apply Z.eqb_eq]).
        congruence. }
      assert (forall m, Js.Map.get Z.eqb m id = Some nome ->
                Js.Map.get Z.eqb
                  (fold_left (fun m c => Js.Map.set Z.eqb m (c_id c) (c_nome c)) cd m) id
                = Some nome) as Hkeep.
      { clear -E. induction cd as [| c' cd IH']; intros m Hm; simpl; [exact Hm |].
        simpl in E. apply orb_false_iff in E. destruct E as [E1 E2].
        apply IH'; [exact E2 |].
        rewrite (get_set_ne Z.eqb Z.eqb_eq); [exact Hm |].
        now apply Z.eqb_neq. }
      apply Hkeep. rewrite <- Hc at 1. rewrite (get_set_eq Z.eqb Z.eqb_eq).
      f_equal. apply Hall; [now left | exact Hc].
Qed.

(** X10. A revenue entry of the owner that refers to a registered client
    has that client in the client section under its registered name,
    whoever owns the client row (the lookup goes by id alone), as long as
    the rows of that id agree on the name. *)
Theorem clientes_nome_registrado (db : Dados) (usuarioId dono : string)
  (r : Receita) (c : Cliente) :
  In (usuarioId, r) (receitaTable db) ->
  r_clienteId r = Some (c_id c) -> c_id c <> 0%Z ->
  In (dono, c) (clienteTable db) ->
  (forall dono' c', In (dono', c') (clienteTable db) ->
                    c_id c' = c_id c -> c_nome c' = c_nome c) ->
  exists corpo,
    relatorio (prismaDe db) usuarioId = Resposta200 corpo /\
    let rs := map snd (filter (doUsuario usuarioId) (receitaTable db)) in
    let m := clientesMap rs (clientesPorId db (clientesIds rs)) in
    exists e,
      In (c_id c, e) m /\ cr_nome e = c_nome c /\
      ((List.length m <= 3)%nat ->
       In e (sc_clientesQueMaisGastaram (clientes corpo)) /\
       In e (sc_clientesComMaisCompras (clientes corpo))).
Proof.
  intros Hr Hid Hnz Hc Hall.
  eexists. split; [reflexivity |]. simpl.
  change (map snd (filter (doUsuario usuarioId) (receitaTable db)))
    with (receitasDe db usuarioId).
  set (rs := receitasDe db usuarioId).
  set (cd := clientesPorId db (clientesIds rs)).
  assert (In r rs) as Hrs.
  { unfold rs, receitasDe. apply in_map_iff. exists (usuarioId, r).
    split; [reflexivity |]. apply filter_In. split; [exact Hr |].
    unfold doUsuario. simpl. apply String.eqb_refl. }
  assert (In (c_id c) (clientesIds rs)) as Hids.
  { apply clientesIds_In. split; [exact Hnz | now exists r]. }
  assert (In (c_id c) (map fst (clientesMap rs cd))) as Hkey.
  { apply clientesMap_keys. apply in_map_iff. exists r. split.
    - unfold clienteIdDe. now rewrite Hid.
    - unfold receitasComCliente. apply filter_In. split; [exact Hrs |].
      unfold Js.truthyNum. rewrite Hid. apply negb_true_iff. now apply Z.eqb_neq. }
  destruct (Js.Map.get Z.eqb (clientesMap rs cd) (c_id c)) as [e |] eqn:Eg;
    [| apply (get_None_keys Z.eqb Z.eqb_eq) in Eg; contradiction].
  exists e. split; [now apply (get_In Z.eqb Z.eqb_eq) |]. split.
  - rewrite (clientesMap_nome rs cd _ e Eg).
    rewrite (clienteNomeMap_Some cd (c_id c) (c_nome c)); [reflexivity | |].
    + exists c. split; [| reflexivity]. unfold cd, clientesPorId.
      apply filter_In. split.
      * apply in_map_iff. now exists (dono, c).
      * apply existsb_exists. exists (c_id c). split; [exact Hids | apply Z.eqb_refl].
    + intros c' Hc' Hid'. apply clientesPorId_In in Hc'.
      destruct Hc' as [dono' Hc']. exact (Hall dono' c' Hc' Hid').
  - intro Hlen.
    assert (In e (Js.Map.values (clientesMap rs cd))) as Hv.
    { unfold Js.Map.values. apply in_map_iff. exists (c_id c, e).
      split; [reflexivity | now apply (get_In Z.eqb Z.eqb_eq)]. }
    assert (List.length (Js.Map.values (clientesMap rs cd)) <= 3)%nat as Hl
        by (unfold Js.Map.values; now rewrite length_map).
    split; apply slice_sort_all; try exact Hv; lia.
Qed.

Lemma clientes_nome_registrado_witness :
  exists corpo,
    relatorio (prismaDe dadosEx) "u" = Resposta200 corpo /\
    let rs := map snd (filter (doUsuario "u") (receitaTable dadosEx)) in
    let m := clientesMap rs (clientesPorId dadosEx (clientesIds rs)) in
    exists e,
      In (2%Z, e) m /\ cr_nome e = "Ana" /\
      ((List.length m <= 3)%nat ->
       In e (sc_clientesQueMaisGastaram (clientes corpo)) /\
       In e (sc_clientesComMaisCompras (clientes corpo))).
Proof.
  apply (clientes_nome_registrado dadosEx "u" "u"
           (receitaEx 5 5 (Some "b") (Some 2%Z)) {| c_id := 2; c_nome := "Ana" |}).
  - simpl. tauto.
  - reflexivity.
  - discriminate.
  - simpl. tauto.
  - intros dono' c' [H | []] _. now injection H as _ <-.
Defined.

(** ** What the stock section holds *)

Lemma categoriasEstoqueMap_soma (pfs : list ProdutoFormatado) (cat : string) :
  cat <> "" ->
  Js.Map.get String.eqb (categoriasEstoqueMap pfs) cat ?? 0%float =
  somaNumeros (map saldoDisplay
                 (filter (fun p => Js.eqLit (p_categoria (origem p)) cat) pfs)).
Proof.
  intro Hne. unfold categoriasEstoqueMap.
  rewrite (fold_left_guard (fun p => Js.truthy (p_categoria (origem p)))
             (fun m p => Js.Map.set String.eqb m (p_categoria (origem p) ?? "")
                           ((Js.Map.get String.eqb m (p_categoria (origem p) ?? "") ?? 0
                             + saldoDisplay p)%float))).
  pose proof (fold_acumula String.eqb String.eqb_eq
                (fun p => p_categoria (origem p) ?? "")
                (fun m p => (Js.Map.get String.eqb m (p_categoria (origem p) ?? "") ?? 0
                             + saldoDisplay p)%float)
                (fun q => q) 0%float (fun w p => (w + saldoDisplay p)%float)) as H.
  cbv beta in H.
  specialize (H (fun m p => ltac:(unfold Js.ouSe; reflexivity))
                (filter (fun p => Js.truthy (p_categoria (origem p))) pfs) [] cat).
  unfold Js.ouSe at 1. rewrite H. simpl.
  rewrite filter_filter.
  rewrite (filter_ext _ (fun p => Js.eqLit (p_categoria (origem p)) cat)).
  - unfold somaNumeros. now rewrite (fold_left_somaNumeros saldoDisplay).
  - intro p. unfold Js.truthy, Js.eqLit.
    destruct (p_categoria (origem p)) as [c |]; simpl; [| reflexivity].
    destruct (c =? "") eqn:E; simpl; [| reflexivity].
    apply String.eqb_eq in E. subst c. symmetry. apply String.eqb_neq.
    intro H'. now apply Hne.
Qed.

(** X11. Every entry of [categoriasEstoque] shows, passed through
    [toFixed(2)], the sum of the display quantities (kilograms, litres
    or units, added as they are, as numbers and in the order of the
    rows) of the owner's active products whose category is its label. *)
Theorem categoriasEstoque_soma (db : Dados) (usuarioId : string) :
  exists corpo,
    relatorio (prismaDe db) usuarioId = Resposta200 corpo /\
    let pfs := map formatarProdutoParaExibicao
                   (map selecionaEstoque (produtosAtivos db usuarioId)) in
    forall e, In e (se_categoriasEstoque (estoque corpo)) ->
      cq_quantidade e =
        Js.toFixed 2
          (somaNumeros
             (map saldoDisplay
                  (filter (fun p => Js.eqLit (p_categoria (origem p)) (cq_categoria e))
                          pfs))).
Proof.
  eexists. split; [reflexivity |]. simpl.
  change (map formatarProdutoParaExibicao
            (map selecionaEstoque (produtosAtivos db usuarioId)))
    with (produtosFormatadosEstoque (produtosEmEstoqueDe db usuarioId)).
  set (pfs := produtosFormatadosEstoque (produtosEmEstoqueDe db usuarioId)).
  intros e He. unfold categoriasEstoque in He.
  apply in_map_iff in He. destruct He as [[cat q] [<- He]]. simpl.
  apply slice_sort_In in He. unfold Js.Map.entries in He.
  assert (In cat (map fst (categoriasEstoqueMap pfs))) as Hk
      by (apply in_map_iff; now exists (cat, q)).
  destruct (categoriasEstoqueMap_keys pfs cat Hk) as [Hne _].
  rewrite <- (categoriasEstoqueMap_soma pfs cat Hne).
  assert (Js.Map.get String.eqb (categoriasEstoqueMap pfs) cat = Some q) as Hg.
  { apply (In_get String.eqb String.eqb_eq); [| exact He].
    unfold categoriasEstoqueMap.
    rewrite (fold_left_guard (fun p => Js.truthy (p_categoria (origem p)))
               (fun m p => Js.Map.set String.eqb m (p_categoria (origem p) ?? "")
                             ((Js.Map.get String.eqb m (p_categoria (origem p) ?? "") ?? 0
                               + saldoDisplay p)%float))).
    apply (keys_fold_NoDup String.eqb String.eqb_eq
             (fun p => p_categoria (origem p) ?? "")
             (fun m p => (Js.Map.get String.eqb m (p_categoria (origem p) ?? "") ?? 0
                          + saldoDisplay p)%float)).
    constructor. }
  rewrite Hg. reflexivity.
Qed.

Lemma maioresPorUnidade_In (db : Dados) (usuarioId u : string)
  (p : ProdutoFormatado) :
  In p (maioresPorUnidade u
          (produtosFormatadosEstoque (produtosEmEstoqueDe db usuarioId))) ->
  exists linha,
    In linha (produtoTable db) /\
    pr_usuarioId linha = usuarioId /\ pr_ativo linha = true /\
    p = formatarProdutoParaExibicao (selecionaEstoque linha) /\
    unidadeDisplay p = u.
Proof.
  intro H. unfold maioresPorUnidade in H. apply slice_sort_In in H.
  apply filter_In in H. destruct H as [H Hu]. apply String.eqb_eq in Hu.
  unfold produtosFormatadosEstoque, produtosEmEstoqueDe in H.
  rewrite map_map in H. apply in_map_iff in H. destruct H as [linha [<- Hl]].
  unfold produtosAtivos in Hl. apply filter_In in Hl. destruct Hl as [Hin Ho].
  apply andb_true_iff in Ho. destruct Ho as [Ho Ha]. apply String.eqb_eq in Ho.
  exists linha. repeat split; assumption.
Qed.

(** X12. The three per-unit stock lists sort the owner's active products
    by their unit tag: [maiorQtdKg] holds only products tagged "G", with
    the stock in grams divided by 1000 and passed through [toFixed(2)],
    [maiorQtdMl] only products tagged "ML", likewise in litres, and
    [maiorQtdUnidade] only products with any other tag, with the stock
    passed through [toFixed(0)]. *)
Theorem estoque_por_unidade (db : Dados) (usuarioId : string) :
  exists corpo,
    relatorio (prismaDe db) usuarioId = Resposta200 corpo /\
    (forall e, In e (se_maiorQtdKg (estoque corpo)) ->
       exists linha,
         In linha (produtoTable db) /\
         pr_usuarioId linha = usuarioId /\ pr_ativo linha = true /\
         pr_unidadeBase linha = "G" /\
         e = {| pe_produto := Some (pr_nome linha);
                pe_quantidade :=
                  Js.toFixed 2 (Js.Number (pr_saldoBase linha) / 1000);
                pe_unidade := Some "Kg" |}) /\
    (forall e, In e (se_maiorQtdMl (estoque corpo)) ->
       exists linha,
         In linha (produtoTable db) /\
         pr_usuarioId linha = usuarioId /\ pr_ativo linha = true /\
         pr_unidadeBase linha = "ML" /\
         e = {| pe_produto := Some (pr_nome linha);
                pe_quantidade :=
                  Js.toFixed 2 (Js.Number (pr_saldoBase linha) / 1000);
                pe_unidade := Some "L" |}) /\
    (forall e, In e (se_maiorQtdUnidade (estoque corpo)) ->
       exists linha,
         In linha (produtoTable db) /\
         pr_usuarioId linha = usuarioId /\ pr_ativo linha = true /\
         pr_unidadeBase linha <> "G" /\ pr_unidadeBase linha <> "ML" /\
         e = {| pe_produto := Some (pr_nome linha);
                pe_quantidade := Js.toFixed 0 (Js.Number (pr_saldoBase linha));
                pe_unidade := None |}).
Proof.
  eexists. split; [reflexivity |]. simpl.
  assert (forall linha u,
            unidadeDisplay (formatarProdutoParaExibicao (selecionaEstoque linha)) = u ->
            (u = "kg" -> pr_unidadeBase linha = "G" /\
               formatarProdutoParaExibicao (selecionaEstoque linha) =
               {| origem := selecionaEstoque linha;
                  saldoDisplay := (Js.Number (pr_saldoBase linha) / 1000)%float;
                  unidadeDisplay := "kg" |}) /\
            (u = "L" -> pr_unidadeBase linha = "ML" /\
               formatarProdutoParaExibicao (selecionaEstoque linha) =
               {| origem := selecionaEstoque linha;
                  saldoDisplay := (Js.Number (pr_saldoBase linha) / 1000)%float;
                  unidadeDisplay := "L" |}) /\
            (u = "un" -> pr_unidadeBase linha <> "G" /\ pr_unidadeBase linha <> "ML" /\
               formatarProdutoParaExibicao (selecionaEstoque linha) =
               {| origem := selecionaEstoque linha;
                  saldoDisplay := Js.Number (pr_saldoBase linha);
                  unidadeDisplay := "un" |})) as Hf.
  { intros linha u. unfold formatarProdutoParaExibicao, Js.eqLit. simpl.
    destruct (pr_unidadeBase linha =? "G") eqn:Eg;
      [| destruct (pr_unidadeBase linha =? "ML") eqn:Eml]; simpl; intros <-;
      repeat split; try discriminate.
    - now apply String.eqb_eq.
    - now apply String.eqb_eq.
    - now apply String.eqb_neq.
    - now apply String.eqb_neq. }
  split; [| split].
  - intros e He. unfold estoquePorKg in He. apply in_map_iff in He.
    destruct He as [p [<- Hp]]. apply maioresPorUnidade_In in Hp.
    destruct Hp as [linha [Hin [Ho [Ha [-> Hu]]]]].
    destruct (Hf linha _ Hu) as [[Hg Heq] _]; [reflexivity |].
    exists linha. rewrite Heq. simpl.
    do 4 (split; [assumption |]). reflexivity.
  - intros e He. unfold estoquePorL in He. apply in_map_iff in He.
    destruct He as [p [<- Hp]]. apply maioresPorUnidade_In in Hp.
    destruct Hp as [linha [Hin [Ho [Ha [-> Hu]]]]].
    destruct (Hf linha _ Hu) as [_ [[Hg Heq] _]]; [reflexivity |].
    exists linha. rewrite Heq. simpl.
    do 4 (split; [assumption |]). reflexivity.
  - intros e He. unfold estoquePorUnidade in He. apply in_map_iff in He.
    destruct He as [p [<- Hp]]. apply maioresPorUnidade_In in Hp.
    destruct Hp as [linha [Hin [Ho [Ha [-> Hu]]]]].
    destruct (Hf linha _ Hu) as [_ [_ [Hg [Hml Heq]]]]; [reflexivity |].
    exists linha. rewrite Heq. simpl.
    do 5 (split; [assumption |]). reflexivity.
Qed.

(** ** The data-quality counters *)

Lemma len_filter_le {X : Type} (p : X -> bool) (l : list X) :
  (0 <= Js.len (filter p l) <= Js.len l)%Z.
Proof.
  unfold Js.len. pose proof (filter_length_le p l). lia.
Qed.

Lemma filter_map_comm {X Y : Type} (f : X -> Y) (q : Y -> bool) (l : list X) :
  filter q (map f l) = map f (filter (fun x => q (f x)) l).
Proof.
  induction l as [| x l IH]; simpl; [reflexivity |].
  destruct (q (f x)); simpl; now rewrite IH.
Qed.

Lemma semAnexo_emBranco (anexo : option string) : semAnexo anexo = emBranco anexo.
Proof.
  unfold semAnexo, emBranco, Js.truthy. destruct anexo as [s |]; [| reflexivity].
  simpl. destruct (s =? "") eqn:E; [| reflexivity].
  apply String.eqb_eq in E. now subst s.
Qed.

(** X13. Over a data set, [totalVendas] is the number of the owner's
    revenue entries, [vendasSemItens] the number of those to which no
    line item refers, and [vendasSemAnexo] and [despesasSemAnexo] the
    numbers of entries whose attachment is absent, empty or white space
    only; these counters stay between 0 and the number of entries. *)
Theorem contadores_de_vendas (db : Dados) (usuarioId : string) :
  exists corpo,
    relatorio (prismaDe db) usuarioId = Resposta200 corpo /\
    let rs := map snd (filter (doUsuario usuarioId) (receitaTable db)) in
    let ds := map snd (filter (doUsuario usuarioId) (despesaTable db)) in
    sr_totalVendas (receitas corpo) = Js.len rs /\
    sr_vendasSemItens (receitas corpo) = Js.len (filter (semItens db) rs) /\
    (0 <= sr_vendasSemItens (receitas corpo) <= sr_totalVendas (receitas corpo))%Z /\
    sr_vendasSemAnexo (receitas corpo) =
      Js.len (filter (fun r => emBranco (r_anexo r)) rs) /\
    sd_despesasSemAnexo (despesas corpo) =
      Js.len (filter (fun d => emBranco (d_anexo d)) ds) /\
    (0 <= sr_vendasSemAnexo (receitas corpo) <= sr_totalVendas (receitas corpo))%Z /\
    (0 <= sd_despesasSemAnexo (despesas corpo) <= Js.len ds)%Z.
Proof.
  eexists. split; [reflexivity |]. simpl.
  change (map snd (filter (doUsuario usuarioId) (receitaTable db)))
    with (receitasDe db usuarioId).
  change (map snd (filter (doUsuario usuarioId) (despesaTable db)))
    with (despesasDe db usuarioId).
  set (rs := receitasDe db usuarioId).
  assert (vendasSemItens rs (receitasComItensDe db (receitasIds rs)) =
          Js.len (filter (semItens db) rs)) as Hsem.
  { unfold vendasSemItens, Js.len. f_equal.
    rewrite (filter_ext_in _
               (fun id => negb (existsb (fun it => (ri_receitaId it =? id)%Z)
                                        (receitaItemTable db)))).
    - unfold receitasIds. rewrite filter_map_comm. now rewrite length_map.
    - intros id Hid. f_equal. apply eq_true_iff_eq. rewrite !existsb_exists. split.
      + intros [id' [Hin Heq]]. apply Z.eqb_eq in Heq. subst id'.
        unfold receitasComItensDe in Hin. apply nodup_In in Hin.
        apply filter_In in Hin. destruct Hin as [Hin _].
        apply in_map_iff in Hin. destruct Hin as [it [Hit Hin]].
        exists it. split; [exact Hin | now apply Z.eqb_eq].
      + intros [it [Hin Heq]]. apply Z.eqb_eq in Heq.
        exists id. split; [| apply Z.eqb_refl].
        unfold receitasComItensDe. apply nodup_In. apply filter_In. split.
        * apply in_map_iff. now exists it.
        * apply existsb_exists. exists id. split; [exact Hid | apply Z.eqb_refl]. }
  assert (forall (X : Type) (f : X -> option string) (l : list X),
            filter (fun x => semAnexo (f x)) l = filter (fun x => emBranco (f x)) l)
    as Hanexo by (intros X f l; apply filter_ext; intro x; apply semAnexo_emBranco).
  split; [reflexivity |]. split; [exact Hsem |].
  split; [rewrite Hsem; apply len_filter_le |].
  split; [unfold vendasSemAnexo; now rewrite Hanexo |].
  split; [unfold despesasSemAnexo; now rewrite Hanexo |].
  split; apply len_filter_le.
Qed.

(** ** Sold products that are registered *)

(** X14. A group of the top three whose product id belongs to exactly one
    product row is shown under that product's name, with the summed
    quantity normalized by that product's unit tag, whoever owns the
    product row. *)
Theorem produtosMaisVendidos_produto_conhecido (db : Dados) (usuarioId : string)
  (linha : ProdutoRow) (i : nat) (q : Q) :
  In linha (produtoTable db) ->
  (forall linha', In linha' (produtoTable db) ->
                  pr_id linha' = pr_id linha -> linha' = linha) ->
  nth_error (produtosVendidosAggDe db usuarioId) i =
    Some {| produtoId := pr_id linha; sum_qtdBase := Some q |} ->
  exists corpo,
    relatorio (prismaDe db) usuarioId = Resposta200 corpo /\
    let f := formatarProdutoParaExibicao
               (produtoCom (Some (pr_id linha)) (Some (pr_nome linha)) None q
                           (Some (pr_unidadeBase linha))) in
    nth_error (sr_produtosMaisVendidos (receitas corpo)) i =
      Some {| pv_nome := Some (pr_nome linha);
              pv_quantidade := saldoDisplay f;
              pv_unidade := unidadeDisplay f |}.
Proof.
  intros Hin Huniq Hi.
  eexists. split; [reflexivity |]. simpl.
  change (produtosVendidosAggCom (fun _ : Z => 0%Z) db usuarioId)
    with (produtosVendidosAggDe db usuarioId).
  set (agg := produtosVendidosAggDe db usuarioId) in *.
  unfold produtosMaisVendidos. rewrite nth_error_map, Hi. simpl. f_equal.
  unfold produtoMaisVendido. simpl.
  assert (find (temId (pr_id linha)) (produtosPorId db (idsVendidos agg)) =
          Some (selecionaInfo linha)) as Hfind.
  { assert (In (selecionaInfo linha) (produtosPorId db (idsVendidos agg))) as Hp.
    { unfold produtosPorId. apply in_map. apply filter_In. split; [exact Hin |].
      apply existsb_exists. exists (pr_id linha). split; [| apply Z.eqb_refl].
      unfold idsVendidos. apply nth_error_In in Hi.
      apply (in_map produtoId) in Hi. exact Hi. }
    destruct (find (temId (pr_id linha)) (produtosPorId db (idsVendidos agg)))
      as [p |] eqn:E.
    - apply find_some in E. destruct E as [Hpin Ht].
      unfold produtosPorId in Hpin. apply in_map_iff in Hpin.
      destruct Hpin as [linha' [<- Hl']]. apply filter_In in Hl'.
      unfold temId in Ht. simpl in Ht. apply Z.eqb_eq in Ht.
      now rewrite (Huniq linha' (proj1 Hl') Ht).
    - exfalso. apply (find_none _ _ E) in Hp.
      unfold temId in Hp. simpl in Hp. now rewrite Z.eqb_refl in Hp. }
  rewrite Hfind. unfold formatarProdutoParaExibicao, Js.eqLit. simpl.
  destruct (pr_unidadeBase linha =? "G"); [reflexivity |].
  destruct (pr_unidadeBase linha =? "ML"); reflexivity.
Qed.

Lemma produtosMaisVendidos_produto_conhecido_witness :
  exists corpo,
    relatorio (prismaDe dadosEx) "u" = Resposta200 corpo /\
    let f := formatarProdutoParaExibicao
               (produtoCom (Some 1%Z) (Some "Farinha") None 5000 (Some "G")) in
    nth_error (sr_produtosMaisVendidos (receitas corpo)) 0 =
      Some {| pv_nome := Some "Farinha";
              pv_quantidade := saldoDisplay f;
              pv_unidade := unidadeDisplay f |}.
Proof.
  apply (produtosMaisVendidos_produto_conhecido dadosEx "u"
           {| pr_usuarioId := "u"; pr_ativo := true; pr_id := 1;
              pr_nome := "Farinha"; pr_unidadeBase := "G";
              pr_saldoBase := 2500; pr_categoria := Some "graos" |} 0%nat 5000).
  - simpl. tauto.
  - intros linha' [<- | [<- | []]]; [reflexivity | discriminate].
  - reflexivity.
Defined.

(** ** Rows of other owners *)

(** X15. The report of an owner depends on the revenue and expense
    tables only through the rows of that owner: two data sets that agree
    on those rows and on the other tables give the same answer. *)
Theorem relatorio_so_do_usuario (db db' : Dados) (usuarioId : string) :
  mesmasLinhasDe usuarioId db db' ->
  relatorio (prismaDe db) usuarioId = relatorio (prismaDe db') usuarioId.
Proof.
  intros [Hr [Hd [Hc [Hp Hi]]]].
  assert (receitasDe db usuarioId = receitasDe db' usuarioId) as Hrs
      by (unfold receitasDe; now rewrite Hr).
  assert (despesasDe db usuarioId = despesasDe db' usuarioId) as Hds
      by (unfold despesasDe; now rewrite Hd).
  assert (forall ids, clientesPorId db ids = clientesPorId db' ids) as Hcl
      by (intro ids; unfold clientesPorId; now rewrite Hc).
  assert (contarClientes db usuarioId = contarClientes db' usuarioId) as Hn
      by (unfold contarClientes; now rewrite Hc).
  assert (produtosVendidosAggDe db usuarioId = produtosVendidosAggDe db' usuarioId)
    as Hagg.
  { unfold produtosVendidosAggDe, produtosVendidosAggCom, gruposPorProduto.
    rewrite Hi.
    rewrite (filter_ext (itemDoUsuario db usuarioId) (itemDoUsuario db' usuarioId));
      [reflexivity |].
    intro it. unfold itemDoUsuario. now rewrite Hrs. }
  assert (forall ids, produtosPorId db ids = produtosPorId db' ids) as Hpi
      by (intro ids; unfold produtosPorId; now rewrite Hp).
  assert (forall ids, receitasComItensDe db ids = receitasComItensDe db' ids) as Hci
      by (intro ids; unfold receitasComItensDe; now rewrite Hi).
  assert (produtosEmEstoqueDe db usuarioId = produtosEmEstoqueDe db' usuarioId) as Hpe
      by (unfold produtosEmEstoqueDe, produtosAtivos; now rewrite Hp).
  unfold relatorio, gerarRelatorio. simpl.
  change (produtosVendidosAggCom (fun _ : Z => 0%Z) db usuarioId)
    with (produtosVendidosAggDe db usuarioId).
  change (produtosVendidosAggCom (fun _ : Z => 0%Z) db' usuarioId)
    with (produtosVendidosAggDe db' usuarioId).
  now rewrite Hrs, Hds, Hcl, Hn, Hagg, Hpi, Hci, Hpe.
Qed.

Lemma relatorio_so_do_usuario_witness :
  relatorio (prismaDe dadosEx) "u" = relatorio (prismaDe dadosExSemV) "u".
Proof.
  apply (relatorio_so_do_usuario dadosEx dadosExSemV "u").
  repeat split.
Defined.

(** ** The totals dashboard *)

Lemma fold_left_map_valor {X : Type} (f : X -> Q) (l : list X) (a : float) :
  fold_left (fun acc r => (acc + Js.Number (sv_valor r))%float)
            (map (fun x => {| sv_valor := f x |}) l) a =
  fold_left (fun acc x => (acc + Js.Number (f x))%float) l a.
Proof.
  revert a. induction l as [| x l IH]; intro a; simpl; [reflexivity | apply IH].
Qed.


(** X17. The totals dashboard answers 500 as soon as one of its two
    queries throws, the revenue query first; otherwise it answers 200
    with the two totals, each the sum of the values read, added as
    numbers in the order of the rows, and with their difference as the
    net profit. *)
Theorem dashboard_resultados (prisma : PrismaTotais) (usuarioId : string) :
  match receita_findMany_valor prisma usuarioId,
        despesa_findMany_valor prisma usuarioId with
  | Falha _, _ => dashboard prisma usuarioId = Dashboard500
  | Sucesso _, Falha _ => dashboard prisma usuarioId = Dashboard500
  | Sucesso rs, Sucesso ds =>
      exists t,
        dashboard prisma usuarioId = Dashboard200 t /\
        t_totalReceitas t = somaNumeros (map (fun r => Js.Number (sv_valor r)) rs) /\
        t_totalDespesas t = somaNumeros (map (fun d => Js.Number (sv_valor d)) ds) /\
        t_lucroLiquido t = (t_totalReceitas t - t_totalDespesas t)%float
  end.
Proof.
  unfold dashboard.
  destruct (receita_findMany_valor prisma usuarioId) as [rs | e]; simpl;
    [| reflexivity].
  destruct (despesa_findMany_valor prisma usuarioId) as [ds | e]; simpl;
    [| reflexivity].
  eexists. split; [reflexivity |]. simpl. unfold somaNumeros.
  rewrite (fold_left_somaNumeros (fun r => Js.Number (sv_valor r)) rs).
  rewrite (fold_left_somaNumeros (fun d => Js.Number (sv_valor d)) ds).
  repeat split.
Qed.

(** ** The clients router *)

(** X18. [clienteInfosAdicionais] keeps the client object and adds the
    number of its revenue entries and the sum of their values, added as
    numbers in the order given, where an entry counts by [valorTotal] if
    it has one, else by [valor], else as 0; a client whose [receitas] is
    not an array has 0 purchases and has spent 0. *)
Theorem clienteInfosAdicionais_totais (cliente : ClienteAny) :
  let r := clienteInfosAdicionais cliente in
  ct_cliente r = cliente /\
  ct_totalCompras r = Js.len (ca_receitas cliente ?? []) /\
  ct_totalGasto r =
    somaNumeros (map (fun receita => Js.Number (valorDaReceita receita))
                     (ca_receitas cliente ?? [])) /\
  (ca_receitas cliente = None ->
   ct_totalCompras r = 0%Z /\ ct_totalGasto r = 0%float) /\
  (forall receita v, ra_valorTotal receita = Some v -> valorDaReceita receita = v) /\
  (forall receita, ra_valorTotal receita = None ->
                   valorDaReceita receita = ra_valor receita ?? 0).
Proof.
  cbv zeta. unfold clienteInfosAdicionais. simpl.
  split; [reflexivity |]. split; [reflexivity |]. split.
  - unfold somaNumeros.
    now rewrite (fold_left_somaNumeros (fun receita => Js.Number (valorDaReceita receita))).
  - split; [| split].
    + intros ->. split; reflexivity.
    + intros receita v H. unfold valorDaReceita. now rewrite H.
    + intros receita H. unfold valorDaReceita. now rewrite H.
Qed.

(** X19. The clients dashboard answers the generic failure when the
    query throws; otherwise it lists every client returned, in the order
    returned, each with its own totals, and its overall figures are the
    number of clients, the number of all their revenue entries and the
    sum of the amounts spent by the clients, added as numbers in the
    order of the list. *)
Theorem clientesDashboard_totais
  (cliente_findMany : string -> Resultado (list ClienteAny)) (usuarioId : string) :
  match cliente_findMany usuarioId with
  | Falha _ =>
      clientesDashboard cliente_findMany usuarioId =
      Clientes500 "Erro ao buscar dashboard de clientes"
  | Sucesso cs =>
      exists corpo,
        clientesDashboard cliente_findMany usuarioId = Clientes200 corpo /\
        let todas := List.concat (map (fun c => ca_receitas c ?? []) cs) in
        dc_clientes corpo = map clienteInfosAdicionais cs /\
        map ct_cliente (dc_clientes corpo) = cs /\
        dc_totalClientes corpo = Js.len cs /\
        dc_totalComprasGeral corpo = Js.len todas /\
        dc_totalGastoGeral corpo = somaNumeros (map ct_totalGasto (dc_clientes corpo))
  end.
Proof.
  unfold clientesDashboard.
  destruct (cliente_findMany usuarioId) as [cs | e]; [| reflexivity].
  eexists. split; [reflexivity |]. simpl.
  split; [reflexivity |]. split; [| split; [| split]].
  - rewrite map_map. simpl. apply map_id.
  - unfold Js.len. now rewrite length_map.
  - unfold Js.len.
    assert (forall a, fold_left (fun acc c => (acc + ct_totalCompras c)%Z)
                        (map clienteInfosAdicionais cs) a =
                      (a + Z.of_nat (List.length
                             (List.concat (map (fun c => ca_receitas c ?? []) cs))))%Z) as H.
    { induction cs as [| c cs IH]; intro a; simpl; [lia |].
      rewrite IH, length_app. unfold Js.len. lia. }
    apply (H 0%Z).
  - unfold somaNumeros. now rewrite (fold_left_somaNumeros ct_totalGasto).
Qed.

Lemma totalGastoEmItens_soma (c : ClienteComReceitas) :
  totalGastoEmItens c =
  somaNumeros
    (map (fun receita =>
            somaNumeros (map (fun item => Js.Number (subtotal item)) (itens receita)))
         (cli_receitas c)).
Proof.
  unfold totalGastoEmItens, somaNumeros.
  rewrite (fold_left_somaNumeros
             (fun receita =>
                fold_left (fun soma item => (soma + Js.Number (subtotal item))%float)
                          (itens receita) 0%float)).
  f_equal. apply map_ext. intro receita.
  now rewrite (fold_left_somaNumeros (fun item => Js.Number (subtotal item))).
Qed.

(** X20. The top-10 route answers the generic failure when the query
    throws; otherwise its list has at most 10 entries, each carrying the
    id and the name of one of the clients returned and, as the amount,
    the sum over that client's revenue entries of the sums of the
    subtotals of their items, added as numbers in the order given; and
    as long as none of these amounts is NaN, the list is a top 10 of the
    clients by amount: amounts descending, equal amounts in the order
    returned, no client left out that beats one listed. *)
Theorem top10Clientes_ranking
  (cliente_findMany : string -> Resultado (list ClienteComReceitas))
  (usuarioId : string) :
  match cliente_findMany usuarioId with
  | Falha _ =>
      top10Clientes cliente_findMany usuarioId =
      Top500 "Erro ao listar top 10 clientes"
  | Sucesso cs =>
      exists top10,
        top10Clientes cliente_findMany usuarioId = Top200 top10 /\
        (List.length top10 <= 10)%nat /\
        map top_id (clientesComTotaisTop cs) = map cli_id cs /\
        (forall e, In e top10 ->
           exists c, In c cs /\ top_id e = cli_id c /\ top_nome e = cli_nome c /\
                     top_totalGasto e =
                       somaNumeros
                         (map (fun receita =>
                                 somaNumeros
                                   (map (fun item => Js.Number (subtotal item))
                                        (itens receita)))
                              (cli_receitas c))) /\
        (semNaN (map top_totalGasto (clientesComTotaisTop cs)) = true ->
         TopN 10 ordemNumero top_totalGasto (clientesComTotaisTop cs) top10)
  end.
Proof.
  unfold top10Clientes.
  destruct (cliente_findMany usuarioId) as [cs | e]; [| reflexivity].
  eexists. split; [reflexivity |]. split; [| split; [| split]].
  - apply firstn_le_length.
  - unfold clientesComTotaisTop. rewrite map_map. reflexivity.
  - intros e He. apply slice_sort_In in He.
    unfold clientesComTotaisTop in He. apply in_map_iff in He.
    destruct He as [c [<- Hc]]. exists c. simpl.
    repeat split; try assumption. apply totalGastoEmItens_soma.
  - intro Hord.
    apply (TopN_numeros top_totalGasto _
             (map top_totalGasto (clientesComTotaisTop cs)));
      [reflexivity | exact Hord |].
    intros a Ha. now apply in_map.
Qed.

(** ** An owner without records *)

Lemma filter_nenhum {X : Type} (p : X -> bool) (l : list X) :
  (forall x, p x = false) -> filter p l = [].
Proof.
  intro H. induction l as [| x l IH]; simpl; [reflexivity |]. now rewrite H.
Qed.

(** X21. For an owner with no revenue entry, no expense, no client and
    no active product, whatever the other owners have, the report is
    produced with every total and counter 0 and every list empty. *)
Theorem relatorio_sem_registros (db : Dados) (usuarioId : string) :
  filter (doUsuario usuarioId) (receitaTable db) = [] ->
  filter (doUsuario usuarioId) (despesaTable db) = [] ->
  filter (doUsuario usuarioId) (clienteTable db) = [] ->
  produtosAtivos db usuarioId = [] ->
  relatorio (prismaDe db) usuarioId = Resposta200 relatorioVazio.
Proof.
  intros Hr Hd Hc Hp.
  assert (receitasDe db usuarioId = []) as Hrs by (unfold receitasDe; now rewrite Hr).
  assert (despesasDe db usuarioId = []) as Hds by (unfold despesasDe; now rewrite Hd).
  assert (contarClientes db usuarioId = 0%Z) as Hn
      by (unfold contarClientes; now rewrite Hc).
  assert (produtosVendidosAggDe db usuarioId = []) as Hagg.
  { unfold produtosVendidosAggDe, produtosVendidosAggCom, gruposPorProduto.
    rewrite (filter_nenhum (itemDoUsuario db usuarioId)); [reflexivity |].
    intro it. unfold itemDoUsuario. now rewrite Hrs. }
  assert (produtosEmEstoqueDe db usuarioId = []) as Hpe
      by (unfold produtosEmEstoqueDe; now rewrite Hp).
  unfold relatorio, gerarRelatorio. simpl.
  change (produtosVendidosAggCom (fun _ : Z => 0%Z) db usuarioId)
    with (produtosVendidosAggDe db usuarioId).
  rewrite Hrs, Hds, Hn, Hagg, Hpe. simpl.
  unfold clientesPorId, produtosPorId, receitasComItensDe.
  rewrite !(filter_nenhum (fun _ => false)) by reflexivity.
  reflexivity.
Qed.

Lemma relatorio_sem_registros_witness :
  relatorio (prismaDe dadosEx) "ninguem" = Resposta200 relatorioVazio.
Proof.
  apply (relatorio_sem_registros dadosEx "ninguem"); reflexivity.
Defined.
